(** * Analytics intake flow: field validator and request persister

    A shallow embedding of the two tool functions of
    [app/intake-flow/agent.py], [validate_basic_info] and
    [save_analytics_request] (with its helpers [prompt_call] and
    [summarize_analytics_request]), and of the example generator
    [simulate_request_output] of [app/intake-flow/test_example.py], and
    the properties they satisfy.

    Python values are embedded as a tree type [value]; Python strings are
    sequences of Unicode code points.  The effects the functions have
    (reading the wall clock, printing, calling the text-generation
    service, mutating the caller's dictionary, writing a file) are
    threaded through a state-and-exception monad over a [world].

    What the model leaves out: values other than the ones a tool call
    carries ([None], [bool], [int], [str], [list], [dict] with [str]
    keys; no [float]); signals that are not an [Exception]
    ([KeyboardInterrupt] and the like), which no handler of the source
    catches; failures of [print].  The limits of the interpreter (the
    digits of an integer it turns into text, the depth of its stack) are
    not computed: the exceptions they cause are given by the [oracle]. *)

From Stdlib Require Import ZArith NArith List String Ascii Bool Lia.
From stdpp Require Import base option list gmap.
Import ListNotations.

Set Default Proof Using "Type".

(** ** Strings *)

(** A Python [str] is a sequence of code points. *)
Abbreviation codepoint := N (only parsing).
Abbreviation str := (list N) (only parsing).

(** ASCII literals of the source, as code-point sequences. *)
Definition lit (s : string) : str :=
  List.map N_of_ascii (list_ascii_of_string s).

(** [str.isspace] on one character: the code points CPython's
    [Py_UNICODE_ISSPACE] accepts. *)
Definition py_isspace (c : codepoint) : bool :=
  ((0x09 <=? c) && (c <=? 0x0D) || (0x1C <=? c) && (c <=? 0x20)
   || (c =? 0x85) || (c =? 0xA0) || (c =? 0x1680)
   || (0x2000 <=? c) && (c <=? 0x200A)
   || (c =? 0x2028) || (c =? 0x2029) || (c =? 0x202F)
   || (c =? 0x205F) || (c =? 0x3000))%N.

Fixpoint lstrip (s : str) : str :=
  match s with
  | c :: r => if py_isspace c then lstrip r else s
  | [] => []
  end.

Definition rstrip (s : str) : str := rev (lstrip (rev s)).

(** [s.strip()] with no argument. *)
Definition strip (s : str) : str := rstrip (lstrip s).

(** ** Values *)

(** The objects a tool call carries, as trees. *)
#[warnings="-register-all"]
Inductive value : Type :=
| VNone
| VBool (b : bool)
| VInt (z : Z)
| VStr (s : str)
| VList (l : list value)
| VDict (d : list (str * value)).

(** A [dict] keeps its items in insertion order. *)
Abbreviation dict := (list (list N * value)) (only parsing).

Fixpoint dict_get (d : dict) (k : str) : option value :=
  match d with
  | [] => None
  | (k', v) :: r => if decide (k' = k) then Some v else dict_get r k
  end.

(** [d[k] = v]: an existing key keeps its position, a new key is appended. *)
Fixpoint dict_set (d : dict) (k : str) (v : value) : dict :=
  match d with
  | [] => [(k, v)]
  | (k', v') :: r =>
      if decide (k' = k) then (k, v) :: r else (k', v') :: dict_set r k v
  end.

Definition keys (d : dict) : list str := List.map fst d.

(** Truth value of an object, as [not] and [if] test it. *)
Definition truthy (v : value) : bool :=
  match v with
  | VNone => false
  | VBool b => b
  | VInt z => negb (z =? 0)%Z
  | VStr s => negb (Nat.eqb (length s) 0)
  | VList l => negb (Nat.eqb (length l) 0)
  | VDict d => negb (Nat.eqb (length d) 0)
  end.

Definition type_name (v : value) : str :=
  match v with
  | VNone => lit "NoneType"
  | VBool _ => lit "bool"
  | VInt _ => lit "int"
  | VStr _ => lit "str"
  | VList _ => lit "list"
  | VDict _ => lit "dict"
  end.

(** ** Exceptions *)

(** An instance of a subclass of [Exception]: its class and the text
    [str(e)] gives. *)
Record exn := Exn { exn_type : str; exn_str : str }.

Inductive outcome (A : Type) : Type :=
| Returns (a : A)
| Raises (e : exn).
Arguments Returns {A} a.
Arguments Raises {A} e.

Definition AttributeError (v : value) (attr : str) : exn :=
  Exn (lit "AttributeError")
      (lit "'" ++ type_name v ++ lit "' object has no attribute '"
           ++ attr ++ lit "'").

(** ** Dates and times *)

(** A naive [datetime.datetime], as [datetime.datetime.now()] returns. *)
Record datetime := DateTime {
  year : N; month : N; day : N;
  hour : N; minute : N; second : N; microsecond : N
}.

Definition is_leap (y : N) : bool :=
  ((y mod 4 =? 0) && (negb (y mod 100 =? 0) || (y mod 400 =? 0)))%N.

Definition days_in_month (y m : N) : N :=
  (if m =? 2 then (if is_leap y then 29 else 28)
   else if (m =? 4) || (m =? 6) || (m =? 9) || (m =? 11) then 30
   else 31)%N.

(** The range checks of the [datetime] constructor. *)
Definition valid_datetime (d : datetime) : bool :=
  ((1 <=? year d) && (year d <=? 9999)
   && (1 <=? month d) && (month d <=? 12)
   && (1 <=? day d) && (day d <=? days_in_month (year d) (month d))
   && (hour d <? 24) && (minute d <? 60) && (second d <? 60)
   && (microsecond d <? 1000000))%N.

(** Decimal digits, least significant first. *)
Fixpoint digits_le (fuel : nat) (n : N) : list N :=
  match fuel with
  | O => [n mod 10]%N
  | S f => if (n <? 10)%N then [n] else (n mod 10)%N :: digits_le f (n / 10)%N
  end.

Definition digit_char (d : N) : codepoint := (48 + d)%N.

(** [str(n)] for a natural number [n]. *)
Definition decimal (n : N) : str :=
  List.map digit_char (rev (digits_le (N.size_nat n) n)).

(** ["%0<width>d" % n]: decimal, zero-filled on the left up to [width]. *)
Definition zfill (width : nat) (n : N) : str :=
  repeat 48%N (width - length (decimal n)) ++ decimal n.

(** [d.isoformat()]: the fraction is printed only when it is not zero. *)
Definition isoformat (d : datetime) : str :=
  zfill 4 (year d) ++ lit "-" ++ zfill 2 (month d) ++ lit "-"
    ++ zfill 2 (day d) ++ lit "T" ++ zfill 2 (hour d) ++ lit ":"
    ++ zfill 2 (minute d) ++ lit ":" ++ zfill 2 (second d)
    ++ (if (microsecond d =? 0)%N then []
        else lit "." ++ zfill 6 (microsecond d)).

(** [d.strftime("%Y%m%d_%H%M%S")].  The C library prints [%Y] as the
    plain decimal year (four digits from the year 1000 on) and pads the
    other fields to two digits. *)
Definition strftime_Ymd_HMS (d : datetime) : str :=
  decimal (year d) ++ zfill 2 (month d) ++ zfill 2 (day d) ++ lit "_"
    ++ zfill 2 (hour d) ++ zfill 2 (minute d) ++ zfill 2 (second d).

(** ** JSON text *)

(** [repr] of an [int]. *)
Definition int_repr (z : Z) : str :=
  match z with
  | Zneg p => lit "-" ++ decimal (Npos p)
  | _ => decimal (Z.to_N z)
  end.

Definition hex_digit (d : N) : codepoint :=
  (if d <? 10 then 48 + d else 87 + d)%N.

(** The replacement [json.encoder.ESCAPE_DCT] gives a character: the
    quote, the backslash and the control characters below U+0020 are
    escaped; with [ensure_ascii=False] every other character, ASCII or
    not, stands for itself. *)
Definition escape_char (c : codepoint) : str :=
  (if c =? 34 then [92; 34]
   else if c =? 92 then [92; 92]
   else if c =? 10 then [92; 110]
   else if c =? 13 then [92; 114]
   else if c =? 9 then [92; 116]
   else if c =? 8 then [92; 98]
   else if c =? 12 then [92; 102]
   else if c <? 32 then [92; 117; 48; 48; hex_digit (c / 16); hex_digit (c mod 16)]
   else [c])%N.

(** [json.encoder.encode_basestring]. *)
Definition encode_basestring (s : str) : str :=
  [34%N] ++ flat_map escape_char s ++ [34%N].

Definition newline_indent (indent level : nat) : str :=
  10%N :: repeat 32%N (indent * level).

(** The text [json.JSONEncoder(indent=indent, ensure_ascii=False)]
    produces for [v] at nesting depth [level]; the item separator is a
    comma and the key separator a colon and a space. *)
Fixpoint iterencode (indent level : nat) (v : value) {struct v} : str :=
  match v with
  | VNone => lit "null"
  | VBool true => lit "true"
  | VBool false => lit "false"
  | VInt z => int_repr z
  | VStr s => encode_basestring s
  | VList [] => lit "[]"
  | VList (x :: xs) =>
      lit "[" ++ newline_indent indent (S level)
        ++ iterencode indent (S level) x
        ++ flat_map (fun y => lit "," ++ newline_indent indent (S level)
                                ++ iterencode indent (S level) y) xs
        ++ newline_indent indent level ++ lit "]"
  | VDict [] => lit "{}"
  | VDict (kx :: kvs) =>
      lit "{" ++ newline_indent indent (S level)
        ++ encode_basestring (fst kx) ++ lit ": "
        ++ iterencode indent (S level) (snd kx)
        ++ flat_map (fun ky => lit "," ++ newline_indent indent (S level)
                                 ++ encode_basestring (fst ky) ++ lit ": "
                                 ++ iterencode indent (S level) (snd ky)) kvs
        ++ newline_indent indent level ++ lit "}"
  end.

(** [json.dumps(v, indent=indent, ensure_ascii=False)]. *)
Definition json_dumps (indent : nat) (v : value) : str := iterencode indent 0 v.

(** ** UTF-8 *)

Definition byte_of (n : N) : Byte.byte :=
  match Byte.of_N n with Some b => b | None => Byte.x00 end.

Definition is_surrogate (c : codepoint) : bool :=
  ((0xD800 <=? c) && (c <=? 0xDFFF))%N.

(** The encoding of one code point; a surrogate has none. *)
Definition utf8_encode_char (c : codepoint) : option (list Byte.byte) :=
  (if c <? 0x80 then Some [byte_of c]
   else if c <? 0x800 then
     Some [byte_of (0xC0 + c / 64); byte_of (0x80 + c mod 64)]
   else if c <? 0x10000 then
     if is_surrogate c then None
     else Some [byte_of (0xE0 + c / 4096); byte_of (0x80 + (c / 64) mod 64);
                byte_of (0x80 + c mod 64)]
   else if c <? 0x110000 then
     Some [byte_of (0xF0 + c / 262144); byte_of (0x80 + (c / 4096) mod 64);
           byte_of (0x80 + (c / 64) mod 64); byte_of (0x80 + c mod 64)]
   else None)%N.

(** [s.encode('utf-8')], [None] when it raises [UnicodeEncodeError]. *)
Fixpoint utf8_encode (s : str) : option (list Byte.byte) :=
  match s with
  | [] => Some []
  | c :: r =>
      match utf8_encode_char c, utf8_encode r with
      | Some b, Some bs => Some (b ++ bs)
      | _, _ => None
      end
  end.

(** ** The world *)

Abbreviation loc := positive (only parsing).
Abbreviation bytes := (list Byte.byte) (only parsing).

(** An open text file: its path and the number of the [open] call that
    returned it. *)
Record file := File { f_path : str; f_id : nat }.

(** What lies outside the program: the local wall clock, the
    text-generation service, the faults of the file system, and the
    built-ins of the interpreter that are not modelled here, with their
    limits.  The n-th use of a service gets the n-th answer. *)
Record oracle := Oracle {
  (** the successive readings of [datetime.datetime.now()] *)
  o_clock : nat -> datetime;
  (** the outcome of a call of [prompt_call], given the model and the
      prompt: the [text] of the reply, which is [None] for a reply
      without text, or the exception of the client or of the service *)
  o_generate : nat -> str -> str -> outcome (option str);
  (** [open(path, 'w')]: the error it raises, if any *)
  o_open_error : nat -> str -> option exn;
  (** [json.dump] into the opened file and the closing of the file: the
      exception raised, if any, other than the codec's.  It is an error
      of the file system, or one of the encoder: [ValueError] for an
      integer with more digits than the interpreter converts,
      [RecursionError] for a nesting deeper than its stack *)
  o_write_error : file -> option exn;
  (** what a failed write leaves in the file *)
  o_partial : file -> bytes;
  (** the [UnicodeEncodeError] the codec raises for a text *)
  o_encode_error : str -> exn;
  (** the built-in [repr] *)
  o_repr : value -> str;
  (** the exception [str] raises for a value that is not a string, if
      any: [ValueError] for an integer with more digits than the
      interpreter converts, [RecursionError] for a nesting deeper than
      its stack *)
  o_str_error : value -> option exn
}.

Record world := World {
  w_oracle : oracle;
  w_ticks : nat;            (** clock readings taken so far *)
  w_calls : nat;            (** calls of [prompt_call] made so far *)
  w_opens : nat;            (** [open] calls made so far *)
  w_stdout : list str;      (** lines printed so far *)
  w_heap : gmap loc dict;   (** the dictionaries shared with the caller *)
  w_fs : gmap str bytes     (** the files of the working directory *)
}.

Definition set_ticks (n : nat) (w : world) : world :=
  World (w_oracle w) n (w_calls w) (w_opens w) (w_stdout w) (w_heap w) (w_fs w).
Definition set_calls (n : nat) (w : world) : world :=
  World (w_oracle w) (w_ticks w) n (w_opens w) (w_stdout w) (w_heap w) (w_fs w).
Definition set_opens (n : nat) (w : world) : world :=
  World (w_oracle w) (w_ticks w) (w_calls w) n (w_stdout w) (w_heap w) (w_fs w).
Definition set_stdout (out : list str) (w : world) : world :=
  World (w_oracle w) (w_ticks w) (w_calls w) (w_opens w) out (w_heap w) (w_fs w).
Definition set_heap (h : gmap loc dict) (w : world) : world :=
  World (w_oracle w) (w_ticks w) (w_calls w) (w_opens w) (w_stdout w) h (w_fs w).
Definition set_fs (fs : gmap str bytes) (w : world) : world :=
  World (w_oracle w) (w_ticks w) (w_calls w) (w_opens w) (w_stdout w) (w_heap w) fs.

(** The dictionary a reference denotes; a reference never used denotes
    the empty dictionary. *)
Definition heap_get (h : gmap loc dict) (l : loc) : dict := default [] (h !! l).

(** ** Computations *)

(** A computation runs in a world, changes it, and returns or raises. *)
Definition M (A : Type) : Type := world -> outcome A * world.

Definition ret {A} (a : A) : M A := fun w => (Returns a, w).
Definition raise {A} (e : exn) : M A := fun w => (Raises e, w).

Definition bind {A B} (m : M A) (k : A -> M B) : M B :=
  fun w =>
    match m w with
    | (Returns a, w') => k a w'
    | (Raises e, w') => (Raises e, w')
    end.

(** [try: m except Exception as e: handler e]. *)
Definition try_except {A} (m : M A) (handler : exn -> M A) : M A :=
  fun w =>
    match m w with
    | (Returns a, w') => (Returns a, w')
    | (Raises e, w') => handler e w'
    end.

Declare Scope py_scope.
Delimit Scope py_scope with py.
Notation "x <- m ;; k" := (bind m (fun x => k))
  (at level 100, m at next level, right associativity) : py_scope.
Notation "m ;;; k" := (bind m (fun _ => k))
  (at level 100, right associativity) : py_scope.
Local Open Scope py_scope.

(** [print(line)]. *)
Definition print (line : str) : M unit :=
  fun w => (Returns tt, set_stdout (w_stdout w ++ [line]) w).

(** [datetime.datetime.now()]. *)
Definition datetime_now : M datetime :=
  fun w => (Returns (o_clock (w_oracle w) (w_ticks w)),
            set_ticks (S (w_ticks w)) w).

(** [v.strip()]: only a [str] has the method. *)
Definition py_strip (v : value) : M str :=
  match v with
  | VStr s => ret (strip s)
  | _ => raise (AttributeError v (lit "strip"))
  end.

(** [str(v)], which is also what an f-string puts in place of [{v}]: a
    string is taken as it is; any other value is converted, which can
    raise. *)
Definition py_str (v : value) : M str :=
  fun w =>
    match v with
    | VStr s => (Returns s, w)
    | _ =>
        match o_str_error (w_oracle w) v with
        | Some e => (Raises e, w)
        | None => (Returns (o_repr (w_oracle w) v), w)
        end
    end.

(** [v.get(key, default)]: only a [dict] has the method. *)
Definition py_get (v : value) (key : str) (dflt : value) : M value :=
  match v with
  | VDict d => ret (default dflt (dict_get d key))
  | _ => raise (AttributeError v (lit "get"))
  end.

(** The dictionary behind a reference, as it is now. *)
Definition deref (l : loc) : M dict :=
  fun w => (Returns (heap_get (w_heap w) l), w).

(** [l[key] = v], in place. *)
Definition setitem (l : loc) (key : str) (v : value) : M unit :=
  fun w =>
    (Returns tt,
     set_heap (<[l := dict_set (heap_get (w_heap w) l) key v]> (w_heap w)) w).

(** [open(path, 'w', encoding='utf-8')]: the file is created, or emptied
    if it exists. *)
Definition open_w (path : str) : M file :=
  fun w =>
    match o_open_error (w_oracle w) (w_opens w) path with
    | Some e => (Raises e, set_opens (S (w_opens w)) w)
    | None =>
        (Returns (File path (w_opens w)),
         set_fs (<[path := []]> (w_fs w)) (set_opens (S (w_opens w)) w))
    end.

(** [json.dump(obj, f, indent=indent, ensure_ascii=False)] followed by
    the closing of [f] at the end of the [with] block.  The call raises
    when the encoder or the file system does ([o_write_error]), or when
    the text has a character UTF-8 cannot encode; the file then holds
    what was written before the exception. *)
Definition json_dump (obj : value) (f : file) (indent : nat) : M unit :=
  fun w =>
    match o_write_error (w_oracle w) f with
    | Some e =>
        (Raises e, set_fs (<[f_path f := o_partial (w_oracle w) f]> (w_fs w)) w)
    | None =>
        match utf8_encode (json_dumps indent obj) with
        | None =>
            (Raises (o_encode_error (w_oracle w) (json_dumps indent obj)),
             set_fs (<[f_path f := o_partial (w_oracle w) f]> (w_fs w)) w)
        | Some content =>
            (Returns tt, set_fs (<[f_path f := content]> (w_fs w)) w)
        end
    end.

(** ** Field validator *)

(** [not v or len(v.strip()) < minimum]; [or] evaluates its right operand
    only when the left one is false. *)
Definition too_short (v : value) (minimum : nat) : M bool :=
  if negb (truthy v) then ret true
  else s <- py_strip v ;; ret (Nat.ltb (length s) minimum).

Definition validate_basic_info
    (name role department timeline : value) : M value :=
  print (lit "[TOOL: Using the Validation tool]") ;;;
  let errors := [] in
  bad <- too_short name 2 ;;
  let errors :=
    if bad then errors ++ [VStr (lit "Name must be at least 2 characters long")]
    else errors in
  bad <- too_short role 2 ;;
  let errors :=
    if bad then errors ++ [VStr (lit "Role must be specified")] else errors in
  bad <- too_short department 2 ;;
  let errors :=
    if bad then errors ++ [VStr (lit "Department must be specified")]
    else errors in
  bad <- too_short timeline 3 ;;
  let errors :=
    if bad then errors ++ [VStr (lit "Timeline must be specified")]
    else errors in
  if truthy (VList errors) then
    ret (VDict [(lit "valid", VBool false); (lit "errors", VList errors)])
  else
    name' <- py_strip name ;;
    role' <- py_strip role ;;
    department' <- py_strip department ;;
    timeline' <- py_strip timeline ;;
    now <- datetime_now ;;
    ret (VDict [(lit "valid", VBool true);
                (lit "data",
                 VDict [(lit "name", VStr name');
                        (lit "role", VStr role');
                        (lit "department", VStr department');
                        (lit "timeline", VStr timeline');
                        (lit "collected_at", VStr (isoformat now))])]).

(** ** Request persister *)

Definition default_model : str := lit "gemini-2.5-pro".

(** The client is created and the prompt sent in one non-streaming
    call; the function returns [response.text], which is [None] when the
    reply has no text, and lets every exception through. *)
Definition prompt_call (prompt_text model : str) : M value :=
  fun w =>
    (match o_generate (w_oracle w) (w_calls w) model prompt_text with
     | Returns (Some text) => Returns (VStr text)
     | Returns None => Returns VNone
     | Raises e => Raises e
     end,
     set_calls (S (w_calls w)) w).

(** The f-string the summary is asked with; [shown] is
    [str(request_data)]. *)
Definition summary_prompt (shown : str) : str :=
  [10%N]
    ++ lit "        Please provide a clear and insightful summary of this analytics request:"
    ++ [10%N] ++ lit "        " ++ [10%N]
    ++ lit "        Requester information:" ++ [10%N]
    ++ lit "        " ++ shown ++ [10%N]
    ++ lit "        " ++ [10%N]
    ++ lit "        Limit to 1 concise paragraph With three key bullet pointsAnd if possible a level of effort statement."
    ++ [10%N] ++ lit "        ".

Definition summarize_analytics_request (request_data : loc) : M value :=
  try_except
    (d <- deref request_data ;;
     shown <- py_str (VDict d) ;;
     let prompt := summary_prompt shown in
     summary <- prompt_call prompt default_model ;;
     ret summary)
    (fun e =>
       ret (VDict [(lit "status", VStr (lit "error"));
                   (lit "message",
                    VStr (lit "Failed to generate summary: " ++ exn_str e))])).

Definition save_analytics_request (request_data : loc) : M value :=
  try_except
    (print (lit "[TOOL: Using the save and summarization tool]") ;;;
     now <- datetime_now ;;
     let timestamp := strftime_Ymd_HMS now in
     let filename := lit "analytics_request_" ++ timestamp ++ lit ".json" in
     print (lit "summarizing the request") ;;;
     summary <- summarize_analytics_request request_data ;;
     setitem request_data (lit "request_summary") summary ;;;
     now <- datetime_now ;;
     setitem request_data (lit "metadata")
       (VDict [(lit "created_at", VStr (isoformat now));
               (lit "status", VStr (lit "pending_review"))]) ;;;
     f <- open_w filename ;;
     d <- deref request_data ;;
     json_dump (VDict d) f 2 ;;;
     d <- deref request_data ;;
     request_type <- py_get (VDict d) (lit "request_type") (VStr (lit "unknown")) ;;
     request_type <- py_str request_type ;;
     basic_info <- py_get (VDict d) (lit "basic_info") (VDict []) ;;
     name <- py_get basic_info (lit "name") (VStr (lit "unknown")) ;;
     name <- py_str name ;;
     ret (VDict [(lit "status", VStr (lit "success"));
                 (lit "message",
                  VStr (lit "Analytics request saved successfully to "
                          ++ filename));
                 (lit "file_path", VStr filename);
                 (lit "summary",
                  VStr (lit "Request type: " ++ request_type
                          ++ lit ", Requester: " ++ name))]))
    (fun e =>
       ret (VDict [(lit "status", VStr (lit "error"));
                   (lit "message",
                    VStr (lit "Failed to save request: " ++ exn_str e))])).

(** ** Example generator *)

(** The function [simulate_request_output] of
    [app/intake-flow/test_example.py] and the operations it uses. *)











(** ** Reading back *)

(** The definitions below are not part of the program: they say what it
    means to read back what the program wrote (to decode a file, to parse
    a JSON document, to parse an ISO-8601 timestamp, to compare two
    timestamps). *)

(** *** Decimal numbers *)

Definition is_digit (c : codepoint) : bool := ((48 <=? c) && (c <=? 57))%N.

(** The number a sequence of decimal digits denotes. *)
Definition undecimal (s : str) : N :=
  fold_left (fun acc c => 10 * acc + (c - 48))%N s 0%N.

(** *** UTF-8 decoding *)

Definition is_continuation (b : N) : bool := ((0x80 <=? b) && (b <? 0xC0))%N.

(** Strict decoding: truncated and overlong sequences, surrogates and
    values above U+10FFFF are rejected. *)
Fixpoint utf8_decode (bs : bytes) : option str :=
  match bs with
  | [] => Some []
  | b0 :: r =>
      let n0 := Byte.to_N b0 in
      if (n0 <? 0x80)%N then cons n0 <$> utf8_decode r
      else if (n0 <? 0xC2)%N then None
      else if (n0 <? 0xE0)%N then
        match r with
        | b1 :: r' =>
            let n1 := Byte.to_N b1 in
            if is_continuation n1
            then cons ((n0 - 0xC0) * 64 + (n1 - 0x80))%N <$> utf8_decode r'
            else None
        | _ => None
        end
      else if (n0 <? 0xF0)%N then
        match r with
        | b1 :: b2 :: r' =>
            let n1 := Byte.to_N b1 in
            let n2 := Byte.to_N b2 in
            let c := ((n0 - 0xE0) * 4096 + (n1 - 0x80) * 64 + (n2 - 0x80))%N in
            if is_continuation n1 && is_continuation n2
               && (0x800 <=? c)%N && negb (is_surrogate c)
            then cons c <$> utf8_decode r'
            else None
        | _ => None
        end
      else if (n0 <? 0xF5)%N then
        match r with
        | b1 :: b2 :: b3 :: r' =>
            let n1 := Byte.to_N b1 in
            let n2 := Byte.to_N b2 in
            let n3 := Byte.to_N b3 in
            let c := ((n0 - 0xF0) * 262144 + (n1 - 0x80) * 4096
                      + (n2 - 0x80) * 64 + (n3 - 0x80))%N in
            if is_continuation n1 && is_continuation n2 && is_continuation n3
               && (0x10000 <=? c)%N && (c <? 0x110000)%N
            then cons c <$> utf8_decode r'
            else None
        | _ => None
        end
      else None
  end.

(** *** JSON parsing *)

Definition is_ws (c : codepoint) : bool :=
  ((c =? 32) || (c =? 9) || (c =? 10) || (c =? 13))%N.

Fixpoint skip_ws (s : str) : str :=
  match s with
  | c :: r => if is_ws c then skip_ws r else s
  | [] => []
  end.

Definition hex_value (c : codepoint) : option N :=
  (if (48 <=? c) && (c <=? 57) then Some (c - 48)
   else if (97 <=? c) && (c <=? 102) then Some (c - 87)
   else if (65 <=? c) && (c <=? 70) then Some (c - 55)
   else None)%N.

Definition hex4 (a b c d : codepoint) : option N :=
  match hex_value a, hex_value b, hex_value c, hex_value d with
  | Some x, Some y, Some z, Some t => Some (((x * 16 + y) * 16 + z) * 16 + t)%N
  | _, _, _, _ => None
  end.

(** The character a one-letter escape denotes. *)
Definition unescape (c : codepoint) : option codepoint :=
  (if c =? 34 then Some 34
   else if c =? 92 then Some 92
   else if c =? 47 then Some 47
   else if c =? 98 then Some 8
   else if c =? 102 then Some 12
   else if c =? 110 then Some 10
   else if c =? 114 then Some 13
   else if c =? 116 then Some 9
   else None)%N.

(** The rest of a string literal, after its opening quote: the string
    and what follows the closing quote.  A raw control character is an
    error; an escaped high surrogate followed by an escaped low
    surrogate is one character. *)
Fixpoint scan_string (s : str) (acc : str) : option (str * str) :=
  match s with
  | [] => None
  | c :: r =>
      if (c =? 34)%N then Some (rev acc, r)
      else if (c =? 92)%N then
        match r with
        | [] => None
        | e :: r1 =>
            if (e =? 117)%N then
              match r1 with
              | h1 :: h2 :: h3 :: h4 :: r2 =>
                  match hex4 h1 h2 h3 h4 with
                  | None => None
                  | Some u =>
                      let single := scan_string r2 (u :: acc) in
                      if ((0xD800 <=? u) && (u <=? 0xDBFF))%N then
                        match r2 with
                        | 92%N :: 117%N :: l1 :: l2 :: l3 :: l4 :: r3 =>
                            match hex4 l1 l2 l3 l4 with
                            | None => None
                            | Some u2 =>
                                if ((0xDC00 <=? u2) && (u2 <=? 0xDFFF))%N
                                then scan_string r3
                                       ((0x10000 + (u - 0xD800) * 1024
                                         + (u2 - 0xDC00))%N :: acc)
                                else single
                            end
                        | _ => single
                        end
                      else single
                  end
              | _ => None
              end
            else
              match unescape e with
              | Some c' => scan_string r1 (c' :: acc)
              | None => None
              end
        end
      else if (c <? 32)%N then None
      else scan_string r (c :: acc)
  end.

Fixpoint span_digits (s : str) : str * str :=
  match s with
  | c :: r =>
      if is_digit c then let '(ds, rest) := span_digits r in (c :: ds, rest)
      else ([], s)
  | [] => ([], [])
  end.

(** A number that goes on with a fraction or an exponent is a [float],
    which [value] does not have. *)
Definition starts_fraction (s : str) : bool :=
  match s with
  | c :: _ => ((c =? 46) || (c =? 101) || (c =? 69))%N
  | [] => false
  end.

(** The digits of an integer: a lone zero, or a digit sequence that
    does not start with zero. *)
Definition int_digits (s : str) : str * str :=
  match s with
  | c :: r => if (c =? 48)%N then ([48%N], r) else span_digits s
  | [] => ([], [])
  end.

(** An integer: an optional minus sign, then its digits. *)
Definition scan_int (s : str) : option (value * str) :=
  let '(negative, s1) :=
    match s with
    | c :: r => if (c =? 45)%N then (true, r) else (false, s)
    | [] => (false, s)
    end in
  let '(ds, rest) := int_digits s1 in
  match ds with
  | [] => None
  | _ =>
      if starts_fraction rest then None
      else
        Some (VInt (if negative then - Z.of_N (undecimal ds)
                    else Z.of_N (undecimal ds))%Z, rest)
  end.

(** What follows the prefix [p] in [s], if [s] starts with [p]. *)
Fixpoint strip_prefix (p s : str) : option str :=
  match p, s with
  | [], _ => Some s
  | a :: p', c :: s' => if (c =? a)%N then strip_prefix p' s' else None
  | _ :: _, [] => None
  end.

Definition scan_literal (s : str) : option (value * str) :=
  match strip_prefix (lit "null") s with
  | Some rest => Some (VNone, rest)
  | None =>
      match strip_prefix (lit "true") s with
      | Some rest => Some (VBool true, rest)
      | None =>
          match strip_prefix (lit "false") s with
          | Some rest => Some (VBool false, rest)
          | None => scan_int s
          end
      end
  end.

(** A value at the head of [s] and what follows it.  An object is built
    item by item, so that a repeated key keeps its last value. *)
Fixpoint scan_value (fuel : nat) (s : str) : option (value * str) :=
  match fuel with
  | O => None
  | S fuel' =>
      match s with
      | [] => None
      | c :: r =>
          if (c =? 34)%N then
            match scan_string r [] with
            | Some (x, rest) => Some (VStr x, rest)
            | None => None
            end
          else if (c =? 123)%N then
            match skip_ws r with
            | [] => None
            | c' :: rest =>
                if (c' =? 125)%N then Some (VDict [], rest)
                else scan_members fuel' (c' :: rest) []
            end
          else if (c =? 91)%N then
            match skip_ws r with
            | [] => None
            | c' :: rest =>
                if (c' =? 93)%N then Some (VList [], rest)
                else scan_elements fuel' (c' :: rest) []
            end
          else scan_literal s
      end
  end
with scan_elements (fuel : nat) (s : str) (acc : list value)
    : option (value * str) :=
  match fuel with
  | O => None
  | S fuel' =>
      match scan_value fuel' s with
      | None => None
      | Some (x, r) =>
          match skip_ws r with
          | [] => None
          | c :: rest =>
              if (c =? 44)%N
              then scan_elements fuel' (skip_ws rest) (acc ++ [x])
              else if (c =? 93)%N then Some (VList (acc ++ [x]), rest)
              else None
          end
      end
  end
with scan_members (fuel : nat) (s : str) (acc : dict)
    : option (value * str) :=
  match fuel with
  | O => None
  | S fuel' =>
      match s with
      | [] => None
      | q :: r =>
          if negb (q =? 34)%N then None
          else
            match scan_string r [] with
            | None => None
            | Some (k, r1) =>
                match skip_ws r1 with
                | [] => None
                | colon :: r2 =>
                    if negb (colon =? 58)%N then None
                    else
                      match scan_value fuel' (skip_ws r2) with
                      | None => None
                      | Some (x, r3) =>
                          match skip_ws r3 with
                          | [] => None
                          | c :: rest =>
                              if (c =? 44)%N
                              then scan_members fuel' (skip_ws rest)
                                     (dict_set acc k x)
                              else if (c =? 125)%N
                              then Some (VDict (dict_set acc k x), rest)
                              else None
                          end
                      end
                end
            end
      end
  end.

(** [json.loads(s)] for documents without [float]s; [None] when the text
    is not such a document. *)
Definition json_loads (s : str) : option value :=
  match scan_value (S (length s)) (skip_ws s) with
  | Some (v, rest) =>
      match skip_ws rest with
      | [] => Some v
      | _ => None
      end
  | None => None
  end.

(** [json.load] of a file opened with [encoding='utf-8']. *)
Definition json_load (content : bytes) : option value :=
  match utf8_decode content with
  | Some text => json_loads text
  | None => None
  end.

(** *** ISO-8601 timestamps *)

(** Exactly [width] decimal digits at the head of [s]. *)
Definition scan_digits (width : nat) (s : str) : option (N * str) :=
  let ds := firstn width s in
  if Nat.eqb (length ds) width && forallb is_digit ds
  then Some (undecimal ds, skipn width s)
  else None.

Definition expect (c : codepoint) (s : str) : option str :=
  match s with
  | c' :: r => if (c' =? c)%N then Some r else None
  | [] => None
  end.

(** The timestamps [isoformat] writes: [YYYY-MM-DDTHH:MM:SS], optionally
    followed by [.ffffff], of a valid date and time
    ([datetime.fromisoformat] reads these, and other forms too). *)
Definition fromisoformat (s : str) : option datetime :=
  '(y, s) ← scan_digits 4 s; s ← expect 45%N s;
  '(mo, s) ← scan_digits 2 s; s ← expect 45%N s;
  '(d, s) ← scan_digits 2 s; s ← expect 84%N s;
  '(h, s) ← scan_digits 2 s; s ← expect 58%N s;
  '(mi, s) ← scan_digits 2 s; s ← expect 58%N s;
  '(sec, s) ← scan_digits 2 s;
  '(us, s) ← match s with
             | [] => Some (0%N, [])
             | _ => s ← expect 46%N s; scan_digits 6 s
             end;
  match s with
  | [] =>
      let t := DateTime y mo d h mi sec us in
      if valid_datetime t then Some t else None
  | _ => None
  end.

(** [datetime.strptime(s, "%Y%m%d_%H%M%S")], for a year of four
    digits. *)
Definition strptime_Ymd_HMS (s : list N) : option datetime :=
  '(y, s) ← scan_digits 4 s;
  '(mo, s) ← scan_digits 2 s;
  '(d, s) ← scan_digits 2 s;
  s ← expect 95%N s;
  '(h, s) ← scan_digits 2 s;
  '(mi, s) ← scan_digits 2 s;
  '(sec, s) ← scan_digits 2 s;
  match s with
  | [] =>
      let t := DateTime y mo d h mi sec 0 in
      if valid_datetime t then Some t else None
  | _ => None
  end.





(** *** Well-formed values *)

(** A Python [dict] has no repeated key, at any depth. *)
Fixpoint wf_value (v : value) : bool :=
  match v with
  | VList l => forallb wf_value l
  | VDict d =>
      bool_decide (NoDup (List.map fst d))
      && forallb (fun kv => wf_value (snd kv)) d
  | _ => true
  end.

(** ** The validation rule, as specified *)

(** Empty or made of whitespace only. *)
Definition blank (s : str) : bool := forallb py_isspace s.

(** A field is invalid if it is empty or whitespace-only, or, after
    trimming, shorter than its minimum. *)
Definition field_invalid (minimum : nat) (s : str) : bool :=
  blank s || Nat.ltb (length (strip s)) minimum.

(** The four fields in their fixed order: value, minimum, message. *)
Definition field_rules (name role department timeline : str)
    : list (str * nat * str) :=
  [(name, 2%nat, lit "Name must be at least 2 characters long");
   (role, 2%nat, lit "Role must be specified");
   (department, 2%nat, lit "Department must be specified");
   (timeline, 3%nat, lit "Timeline must be specified")].

Definition violated (rule : str * nat * str) : bool :=
  field_invalid (snd (fst rule)) (fst (fst rule)).

(** One message for each violated field, in the order of the fields. *)
Definition violations (name role department timeline : str) : list str :=
  List.map snd (List.filter violated (field_rules name role department timeline)).

(** *** The two shapes of a validation result *)

Definition validation_log : str := lit "[TOOL: Using the Validation tool]".

Definition invalid_result (errors : list str) : value :=
  VDict [(lit "valid", VBool false);
         (lit "errors", VList (List.map VStr errors))].

Definition valid_result (name role department timeline : str)
    (now : datetime) : value :=
  VDict [(lit "valid", VBool true);
         (lit "data",
          VDict [(lit "name", VStr (strip name));
                 (lit "role", VStr (strip role));
                 (lit "department", VStr (strip department));
                 (lit "timeline", VStr (strip timeline));
                 (lit "collected_at", VStr (isoformat now))])].

(** *** Parts of a validation result *)

Definition field (v : value) (k : str) : option value :=
  match v with
  | VDict d => dict_get d k
  | _ => None
  end.

Definition dict_del (d : dict) (k : str) : dict :=
  List.filter (fun kv => negb (bool_decide (fst kv = k))) d.

(** The [collected_at] timestamp of a result, if it has one. *)
Definition collected_at (result : value) : option str :=
  match field result (lit "data") with
  | Some data =>
      match field data (lit "collected_at") with
      | Some (VStr ts) => Some ts
      | _ => None
      end
  | None => None
  end.

(** A result without the [collected_at] entry of its [data]. *)
Definition without_collected_at (result : value) : value :=
  match result with
  | VDict d =>
      match dict_get d (lit "data") with
      | Some (VDict data) =>
          VDict (dict_set d (lit "data")
                   (VDict (dict_del data (lit "collected_at"))))
      | _ => result
      end
  | _ => result
  end.


(** [stored] is [input] without its surrounding whitespace. *)
Definition trimmed_of (input stored : str) : Prop :=
  exists pre post,
    input = pre ++ stored ++ post /\ blank pre = true /\ blank post = true
    /\ (forall c r, stored = c :: r -> py_isspace c = false)
    /\ (forall c r, stored = r ++ [c] -> py_isspace c = false).

(** ** The layout of a document, as specified *)

(** A line, two spaces further to the right. *)
Definition indent_line (line : str) : str := lit "  " ++ line.

(** [s] in front of the first line. *)
Definition prefix_first (s : str) (lines : list str) : list str :=
  match lines with
  | [] => [s]
  | x :: r => (s ++ x) :: r
  end.

(** A comma at the end of the last line. *)
Fixpoint comma_last (lines : list str) : list str :=
  match lines with
  | [] => []
  | [x] => [x ++ lit ","]
  | x :: r => x :: comma_last r
  end.

(** The blocks one below the other, with a comma after each but the
    last. *)
Fixpoint separated (blocks : list (list str)) : list str :=
  match blocks with
  | [] => []
  | [b] => b
  | b :: r => comma_last b ++ separated r
  end.

(** The lines of the document of [v] with an indentation of two spaces:
    a value that is not a container, and an empty container, is one
    line; a list or a mapping opens with its bracket, has each item or
    member below, two spaces further to the right than the bracket's
    line and followed by a comma if it is not the last, and closes with
    its bracket on a line of its own; a member is its key, a colon, a
    space and its value, which goes on from there. *)
Fixpoint json_lines (v : value) : list str :=
  match v with
  | VNone => [lit "null"]
  | VBool b => [if b then lit "true" else lit "false"]
  | VInt z => [int_repr z]
  | VStr s => [encode_basestring s]
  | VList xs =>
      match xs with
      | [] => [lit "[]"]
      | _ =>
          [lit "["] ++ List.map indent_line (separated (List.map json_lines xs))
            ++ [lit "]"]
      end
  | VDict kvs =>
      match kvs with
      | [] => [lit "{}"]
      | _ =>
          [lit "{"]
            ++ List.map indent_line
                 (separated
                    (List.map
                       (fun kv =>
                          prefix_first (encode_basestring (fst kv) ++ lit ": ")
                            (json_lines (snd kv)))
                       kvs))
            ++ [lit "}"]
      end
  end.

(** The text of the lines: a line feed ends each line but the last. *)
Definition join_lines (lines : list str) : str :=
  match lines with
  | [] => []
  | x :: r => x ++ flat_map (fun l => 10%N :: l) r
  end.

(** ** The parts of a persist call *)

Definition save_log : list str :=
  [lit "[TOOL: Using the save and summarization tool]";
   lit "summarizing the request"].

(** [analytics_request_<YYYYMMDD_HHMMSS>.json]. *)
Definition request_filename (now : datetime) : str :=
  lit "analytics_request_" ++ strftime_Ymd_HMS now ++ lit ".json".

Definition metadata_of (now : datetime) : value :=
  VDict [(lit "created_at", VStr (isoformat now));
         (lit "status", VStr (lit "pending_review"))].

Definition summary_failure (e : exn) : value :=
  VDict [(lit "status", VStr (lit "error"));
         (lit "message", VStr (lit "Failed to generate summary: " ++ exn_str e))].

(** What the summarization step returns, given how its attempt ended:
    the text of the reply, [None] for a reply without text, or the
    error mapping for an exception. *)
Definition summary_value (answer : outcome (option str)) : value :=
  match answer with
  | Returns (Some text) => VStr text
  | Returns None => VNone
  | Raises e => summary_failure e
  end.

(** How the next attempt to summarize [d] ends: with the exception of
    [str(d)], or else with the outcome of the call of the service, asked
    with the prompt made of [str(d)]. *)
Definition next_answer (w : world) (d : dict) : outcome (option str) :=
  match o_str_error (w_oracle w) (VDict d) with
  | Some e => Raises e
  | None =>
      o_generate (w_oracle w) (w_calls w) default_model
        (summary_prompt (o_repr (w_oracle w) (VDict d)))
  end.

(** The number of calls of [prompt_call] made once [d] has been
    summarized: none is made when [str(d)] raises. *)
Definition calls_after (w : world) (d : dict) : nat :=
  match o_str_error (w_oracle w) (VDict d) with
  | Some _ => w_calls w
  | None => S (w_calls w)
  end.

(** The record as it is written: the input with the summary and the
    metadata set. *)
Definition persisted (d : dict) (summary : value) (now : datetime) : dict :=
  dict_set (dict_set d (lit "request_summary") summary)
    (lit "metadata") (metadata_of now).

Definition save_failure (e : exn) : value :=
  VDict [(lit "status", VStr (lit "error"));
         (lit "message", VStr (lit "Failed to save request: " ++ exn_str e))].

Definition save_success (filename request_type name : str) : value :=
  VDict [(lit "status", VStr (lit "success"));
         (lit "message",
          VStr (lit "Analytics request saved successfully to " ++ filename));
         (lit "file_path", VStr filename);
         (lit "summary",
          VStr (lit "Request type: " ++ request_type
                  ++ lit ", Requester: " ++ name))].

(** [str(v)], with the [repr] of the interpreter, when it raises
    nothing. *)
Definition shown_in (o : oracle) (v : value) : str :=
  match v with
  | VStr s => s
  | _ => o_repr o v
  end.

(** The exception [str(v)] raises, if any: none for a string. *)
Definition str_error (o : oracle) (v : value) : option exn :=
  match v with
  | VStr _ => None
  | _ => o_str_error o v
  end.

(** *** A persist call, seen from outside *)

(** The name of the file the next call writes. *)
Definition filename_of (w : world) : str :=
  request_filename (o_clock (w_oracle w) (w_ticks w)).

(** The record the next call on [l] makes of the caller's mapping. *)
Definition record_of (l : loc) (w : world) : dict :=
  persisted (heap_get (w_heap w) l)
    (summary_value (next_answer w (heap_get (w_heap w) l)))
    (o_clock (w_oracle w) (S (w_ticks w))).

(** The file system lets the next call on [l] write its record. *)
Definition write_goes_through (l : loc) (w : world) : bool :=
  match o_open_error (w_oracle w) (w_opens w) (filename_of w) with
  | Some _ => false
  | None =>
      match o_write_error (w_oracle w) (File (filename_of w) (w_opens w)) with
      | Some _ => false
      | None =>
          match utf8_encode (json_dumps 2 (VDict (record_of l w))) with
          | Some _ => true
          | None => false
          end
      end
  end.

(** The call returned [status: "success"]. *)
Definition succeeded (r : outcome value) : bool :=
  match r with
  | Returns v =>
      match field v (lit "status") with
      | Some (VStr s) => bool_decide (s = lit "success")
      | _ => false
      end
  | Raises _ => false
  end.

Definition file_path_of (r : outcome value) : option str :=
  match r with
  | Returns v =>
      match field v (lit "file_path") with
      | Some (VStr s) => Some s
      | _ => None
      end
  | Raises _ => None
  end.

(** Two readings of the clock within the same second. *)
Definition same_second (d1 d2 : datetime) : bool :=
  ((year d1 =? year d2) && (month d1 =? month d2) && (day d1 =? day d2)
   && (hour d1 =? hour d2) && (minute d1 =? minute d2)
   && (second d1 =? second d2))%N.

(** A reading without its microseconds. *)
Definition truncate_to_second (d : datetime) : datetime :=
  DateTime (year d) (month d) (day d) (hour d) (minute d) (second d) 0.

(** A component of the short summary: the value under the key as text,
    or the fallback. *)
Definition component (o : oracle) (found : option value) : str :=
  match found with
  | Some v => shown_in o v
  | None => lit "unknown"
  end.

(** The exception raised when the component is put in the f-string, if
    any: none for the fallback. *)
Definition component_error (o : oracle) (found : option value) : option exn :=
  match found with
  | Some v => str_error o v
  | None => None
  end.

(** The [name] of the [basic_info] of a mapping, when [basic_info] is
    missing or a mapping itself. *)
Definition requester (d : dict) : option value :=
  match dict_get d (lit "basic_info") with
  | Some (VDict info) => dict_get info (lit "name")
  | _ => None
  end.

(** [basic_info] is missing or a mapping. *)
Definition basic_info_usable (d : dict) : bool :=
  match dict_get d (lit "basic_info") with
  | None | Some (VDict _) => true
  | Some _ => false
  end.

(** The two components of the short summary of [d] can be put in the
    f-string. *)
Definition short_summary_prints (o : oracle) (d : dict) : bool :=
  match component_error o (dict_get d (lit "request_type")),
        component_error o (requester d) with
  | None, None => true
  | _, _ => false
  end.

(** What a call on [d] returns once [filename] is written: the success
    result, unless the derivation of the short summary raises. *)
Definition short_summary_result (o : oracle) (filename : str) (d : dict)
    : value :=
  match component_error o (dict_get d (lit "request_type")) with
  | Some e => save_failure e
  | None =>
      match dict_get d (lit "basic_info") with
      | None | Some (VDict _) =>
          match component_error o (requester d) with
          | Some e => save_failure e
          | None =>
              save_success filename
                (component o (dict_get d (lit "request_type")))
                (component o (requester d))
          end
      | Some other => save_failure (AttributeError other (lit "get"))
      end
  end.

(** Every entry of [d] is an entry of [d']. *)
Definition reproduces (d d' : dict) : Prop :=
  forall k v, dict_get d k = Some v -> dict_get d' k = Some v.

(** ** Kinds of values *)

Definition is_str (v : value) : bool :=
  match v with
  | VStr _ => true
  | _ => false
  end.

Definition is_dict (v : value) : bool :=
  match v with
  | VDict _ => true
  | _ => false
  end.

(** ** The validator on arbitrary values *)

(** [v] passes the emptiness test and has no [strip] method. *)
Definition unusable (v : value) : bool := truthy v && negb (is_str v).

(** The verdict on a field that can be tested: a string is judged by
    the rule, any other value is false, hence missing. *)
Definition value_violated (minimum : nat) (v : value) : bool :=
  match v with
  | VStr s => field_invalid minimum s
  | _ => negb (truthy v)
  end.

(** The text of a string; no text for any other value. *)
Definition text_of (v : value) : str :=
  match v with
  | VStr s => s
  | _ => []
  end.

Definition value_rules (name role department timeline : value)
    : list (value * nat * str) :=
  [(name, 2%nat, lit "Name must be at least 2 characters long");
   (role, 2%nat, lit "Role must be specified");
   (department, 2%nat, lit "Department must be specified");
   (timeline, 3%nat, lit "Timeline must be specified")].

Definition rule_violated (rule : value * nat * str) : bool :=
  value_violated (snd (fst rule)) (fst (fst rule)).

(** The result says [valid: True]. *)
Definition is_valid_result (r : outcome value) : bool :=
  match r with
  | Returns v =>
      match field v (lit "valid") with
      | Some (VBool b) => b
      | _ => false
      end
  | Raises _ => false
  end.

(** The [collected_at] timestamp of what a call returned. *)
Definition collected_at_of (r : outcome value) : option str :=
  match r with
  | Returns v => collected_at v
  | Raises _ => None
  end.

(** [s'] is [s] with whitespace added on both sides. *)
Definition padded (s s' : str) : Prop :=
  exists pre post,
    s' = pre ++ s ++ post /\ blank pre = true /\ blank post = true.

(** ** Texts that can be encoded *)

(** A code point UTF-8 has an encoding for: any but a surrogate. *)
Definition encodable (c : codepoint) : bool :=
  ((c <? 0x110000) && negb (is_surrogate c))%N.

(** Every key and every string of [v], at any depth, is made of
    encodable code points. *)
Fixpoint encodable_value (v : value) : bool :=
  match v with
  | VStr s => forallb encodable s
  | VList l => forallb encodable_value l
  | VDict d =>
      forallb (fun kv => forallb encodable (fst kv) && encodable_value (snd kv)) d
  | _ => true
  end.

(** [s.encode('utf-8')] does not raise. *)
Definition encodes (s : str) : bool :=
  match utf8_encode s with
  | Some _ => true
  | None => false
  end.

(** The [n]-th [open] call can create [path], and the encoder and the
    file system let the document be written and the file closed. *)
Definition writable (o : oracle) (n : nat) (path : str) : bool :=
  match o_open_error o n path with
  | Some _ => false
  | None =>
      match o_write_error o (File path n) with
      | Some _ => false
      | None => true
      end
  end.

(** ** The keys of a record *)

(** The keys of [new] that [d] does not have. *)
Definition fresh_keys (d : dict) (new : list str) : list str :=
  List.filter (fun k => negb (bool_decide (k ∈ keys d))) new.

(** ** A run of the example generator *)


(** ** From validation to persistence *)

(** The [data] of a validation result. *)
Definition data_of (r : outcome value) : value :=
  match r with
  | Returns v => default VNone (field v (lit "data"))
  | Raises _ => VNone
  end.

(** The caller puts the mapping [d] at the reference [l]. *)
Definition hand_over (l : loc) (d : dict) (w : world) : world :=
  set_heap (<[l := d]> (w_heap w)) w.

(** ** Example worlds *)

(** A service that answers, a file system without faults. *)
Definition quiet_oracle (clock : nat -> datetime) : oracle :=
  Oracle clock (fun _ _ _ => Returns (Some (lit "A summary.")))
         (fun _ _ => None) (fun _ => None) (fun _ => [])
         (fun _ => Exn (lit "UnicodeEncodeError") (lit "surrogates not allowed"))
         (fun _ => lit "<repr>") (fun _ => None).

(** A clock that advances by one second at each reading. *)
Definition example_world : world :=
  World (quiet_oracle (fun n => DateTime 2025 7 14 9 30 (N.of_nat n) 250000))
        0 0 0 [] ∅ ∅.

(** The night daylight saving time ends: the local clock reads 01:59:59,
    and one hour earlier at the next reading. *)
Definition fall_back_world : world :=
  World (quiet_oracle (fun n => match n with
                                | O => DateTime 2025 11 2 1 59 59 500000
                                | _ => DateTime 2025 11 2 1 0 0 250000
                                end))
        0 0 0 [] ∅ ∅.

(** A request as the conversation hands it over, with metadata of its
    own. *)
Definition example_request : dict :=
  [(lit "basic_info", VDict [(lit "name", VStr [90; 111; 235]%N)]);
   (lit "request_type", VStr (lit "reports"));
   (lit "metadata", VDict [(lit "session_id", VStr (lit "session_abc123"))])].

(** The caller holds the example request at reference 1. *)
Definition request_world : world :=
  World (quiet_oracle (fun n => DateTime 2025 7 14 9 30 (N.of_nat n) 250000))
        0 0 0 [] {[ 1%positive := example_request ]} ∅.

(** The service is down. *)
Definition outage : exn := Exn (lit "ServerError") (lit "503 UNAVAILABLE").

(** The caller holds an empty mapping, and the service is down. *)
Definition outage_world : world :=
  World (Oracle (fun n => DateTime 2025 7 14 9 30 (N.of_nat n) 250000)
                (fun _ _ _ => Raises outage)
                (fun _ _ => None) (fun _ => None) (fun _ => [])
                (fun _ => Exn (lit "UnicodeEncodeError")
                              (lit "surrogates not allowed"))
                (fun _ => lit "<repr>") (fun _ => None))
        0 0 0 [] {[ 1%positive := [] ]} ∅.

(** Two requests, and a clock that advances by a tenth of a second at
    each reading. *)
Definition busy_second_world : world :=
  World (quiet_oracle (fun n => DateTime 2025 7 14 9 30 0 (100000 * N.of_nat n)))
        0 0 0 []
        {[ 1%positive := [(lit "request_type", VStr (lit "reports"))];
           2%positive := [(lit "request_type", VStr (lit "dashboard"))] ]} ∅.

(** The caller holds an empty mapping. *)
Definition bare_world : world :=
  World (quiet_oracle (fun n => DateTime 2025 7 14 9 30 (N.of_nat n) 250000))
        0 0 0 [] {[ 1%positive := [] ]} ∅.

(** A world that holds [d] at [l], with a service that answers [text]
    and a clock that always reads [now]. *)
Definition world_holding (l : loc) (d : dict)
    (text : str) (now : datetime) : world :=
  World (Oracle (fun _ => now) (fun _ _ _ => Returns (Some text))
                (fun _ _ => None) (fun _ => None) (fun _ => [])
                (fun _ => Exn (lit "UnicodeEncodeError")
                              (lit "surrogates not allowed"))
                (fun _ => lit "<repr>") (fun _ => None))
        0 0 0 [] {[ l := d ]} ∅.

(** The bytes of a text, with an apostrophe standing for the double
    quote. *)
Definition file_text (s : string) : bytes :=
  List.map (fun a => if Ascii.eqb a "'"%char then Byte.x22
                     else byte_of (N_of_ascii a))
           (list_ascii_of_string s).

(** The working directory cannot be written to. *)
Definition denied : exn :=
  Exn (lit "PermissionError") (lit "[Errno 13] Permission denied").

(** The caller holds the example request, and no file can be opened. *)
Definition read_only_world : world :=
  World (Oracle (fun n => DateTime 2025 7 14 9 30 (N.of_nat n) 250000)
                (fun _ _ _ => Returns (Some (lit "A summary.")))
                (fun _ _ => Some denied) (fun _ => None) (fun _ => [])
                (fun _ => Exn (lit "UnicodeEncodeError")
                              (lit "surrogates not allowed"))
                (fun _ => lit "<repr>") (fun _ => None))
        0 0 0 [] {[ 1%positive := example_request ]} ∅.


(** The caller holds a request whose requester name ends with half of a
    surrogate pair. *)
Definition surrogate_world : world :=
  world_holding 1%positive
    [(lit "basic_info", VDict [(lit "name", VStr [65; 0xD83D]%N)])]
    (lit "A summary.") (DateTime 2025 7 14 9 30 0 0).

(** The clock reads a whole second. *)
Definition whole_second_world : world :=
  World (quiet_oracle (fun _ => DateTime 2025 7 14 9 30 0 0)) 0 0 0 [] ∅ ∅.

(** The caller holds a request whose [basic_info] is a name, not a
    mapping. *)
Definition flat_request_world : world :=
  World (quiet_oracle (fun n => DateTime 2025 7 14 9 30 (N.of_nat n) 250000))
        0 0 0 [] {[ 1%positive := [(lit "basic_info", VStr (lit "Ann"))] ]} ∅.

(** The caller holds the example request, and the reply of the service
    has no text. *)
Definition no_text_world : world :=
  World (Oracle (fun n => DateTime 2025 7 14 9 30 (N.of_nat n) 250000)
                (fun _ _ _ => Returns None)
                (fun _ _ => None) (fun _ => None) (fun _ => [])
                (fun _ => Exn (lit "UnicodeEncodeError")
                              (lit "surrogates not allowed"))
                (fun _ => lit "<repr>") (fun _ => None))
        0 0 0 [] {[ 1%positive := example_request ]} ∅.

(** [v] holds an integer of more than 4300 digits, the default limit of
    CPython 3.11 on the integers it turns into text. *)
Fixpoint has_long_int (v : value) : bool :=
  match v with
  | VInt z => (10 ^ 4300 <=? Z.abs z)%Z
  | VList l => existsb has_long_int l
  | VDict d => existsb (fun kv => has_long_int (snd kv)) d
  | _ => false
  end.

Definition digits_limit : exn :=
  Exn (lit "ValueError")
      (lit "Exceeds the limit (4300 digits) for integer string conversion; use sys.set_int_max_str_digits() to increase the limit").

(** The caller holds a request with an integer of 4301 digits: neither
    [str] nor the encoder of [json.dump] converts it, and the file is
    left with the text that comes before the integer. *)
Definition long_integer_world : world :=
  World (Oracle (fun n => DateTime 2025 7 14 9 30 (N.of_nat n) 250000)
                (fun _ _ _ => Returns (Some (lit "A summary.")))
                (fun _ _ => None) (fun _ => Some digits_limit)
                (fun _ => file_text "{
  'rows': ")
                (fun _ => Exn (lit "UnicodeEncodeError")
                              (lit "surrogates not allowed"))
                (fun _ => lit "<repr>")
                (fun v => if has_long_int v then Some digits_limit else None))
        0 0 0 [] {[ 1%positive := [(lit "rows", VInt (10 ^ 4300))] ]} ∅.

(** ** Auxiliary notions of the proofs *)

(** The number a little-endian digit sequence denotes. *)
Fixpoint value_le (ds : str) : N :=
  match ds with
  | [] => 0%N
  | d :: r => (d + 10 * value_le r)%N
  end.

(** What may follow a number: not a digit, and not the start of a
    fraction or of an exponent. *)
Definition terminated (s : str) : bool :=
  match s with
  | c :: _ => negb (is_digit c) && negb (starts_fraction s)
  | [] => true
  end.

Definition enc_items (indent level : nat) (xs : list value) : str :=
  flat_map (fun y => lit "," ++ newline_indent indent (S level)
                       ++ iterencode indent (S level) y) xs.

Definition enc_members (indent level : nat)
    (kvs : dict) : str :=
  flat_map (fun ky => lit "," ++ newline_indent indent (S level)
                        ++ encode_basestring (fst ky) ++ lit ": "
                        ++ iterencode indent (S level) (snd ky)) kvs.

(** The first character of an encoded value: what a value starts
    with, neither whitespace nor a closing bracket. *)
Definition value_start (c : N) : bool :=
  negb (is_ws c) && negb (c =? 93)%N && negb (c =? 125)%N
  && negb (c =? 44)%N.

Definition set_all (acc kvs : dict)
    : dict :=
  fold_left (fun a kv => dict_set a (fst kv) (snd kv)) kvs acc.

(** The lines, each below the one before at nesting depth [level]. *)
Definition below (level : nat) (lines : list str) : str :=
  flat_map (fun l => newline_indent 2 level ++ l) lines.

(** The text of the lines of a value at nesting depth [level]. *)
Definition render (level : nat) (lines : list str) : str :=
  match lines with
  | [] => []
  | x :: r => x ++ below level r
  end.

(** ** Tactics *)

(** Settles the comparisons of the goal that [lia] can settle. *)
Ltac decide_tests :=
  repeat match goal with
         | |- context [N.ltb ?a ?b] =>
             first [ replace (N.ltb a b) with true
                       by (symmetry; apply N.ltb_lt; lia)
                   | replace (N.ltb a b) with false
                       by (symmetry; apply N.ltb_ge; lia) ]
         | |- context [N.leb ?a ?b] =>
             first [ replace (N.leb a b) with true
                       by (symmetry; apply N.leb_le; lia)
                   | replace (N.leb a b) with false
                       by (symmetry; apply N.leb_gt; lia) ]
         end.


(** * Properties *)

(** ** Decimal printing and reading *)

Section Decimal.
Local Open Scope N_scope.

Lemma pow10_succ (k : nat) : 10 ^ N.of_nat (S k) = 10 * 10 ^ N.of_nat k.
Proof. rewrite Nat2N.inj_succ, N.pow_succ_r'. reflexivity. Qed.

Lemma pow10_pos (k : nat) : 0 < 10 ^ N.of_nat k.
Proof.
  induction k as [|k IH]; [reflexivity|].
  rewrite pow10_succ. lia.
Qed.

Lemma digits_le_value (f : nat) :
  forall n, n < 10 ^ N.of_nat (S f) -> value_le (digits_le f n) = n.
Proof.
  induction f as [|f IH]; intros n Hn.
  - cbn [digits_le value_le]. change (10 ^ N.of_nat 1) with 10 in Hn.
    rewrite N.mod_small by assumption. lia.
  - cbn [digits_le]. destruct (N.ltb_spec n 10) as [Hlt|Hge].
    + cbn [value_le]. lia.
    + cbn [value_le]. rewrite IH.
      * pose proof (N.div_mod n 10). lia.
      * rewrite pow10_succ in Hn.
        apply N.Div0.div_lt_upper_bound. assumption.
Qed.

Lemma digits_le_bound (f : nat) :
  forall n, Forall (fun d => d < 10) (digits_le f n).
Proof.
  induction f as [|f IH]; intros n; cbn [digits_le].
  - constructor; [apply N.mod_lt; lia | constructor].
  - destruct (N.ltb_spec n 10).
    + constructor; [assumption | constructor].
    + constructor; [apply N.mod_lt; lia | apply IH].
Qed.

Lemma digits_le_length (f : nat) :
  forall n (w : nat), n < 10 ^ N.of_nat (S w) ->
    (length (digits_le f n) <= S w)%nat.
Proof.
  induction f as [|f IH]; intros n w Hn; cbn [digits_le].
  - cbn. lia.
  - destruct (N.ltb_spec n 10) as [Hlt|Hge]; [cbn; lia|].
    destruct w as [|w].
    + change (10 ^ N.of_nat 1) with 10 in Hn. lia.
    + cbn [length]. apply le_n_S, IH.
      rewrite pow10_succ in Hn.
      apply N.Div0.div_lt_upper_bound. assumption.
Qed.

Lemma digits_le_nonempty (f : nat) (n : N) : digits_le f n <> [].
Proof.
  destruct f; cbn [digits_le]; [discriminate|].
  destruct (n <? 10); discriminate.
Qed.

(** The most significant digit of a positive number is not zero. *)
Lemma digits_le_last (f : nat) :
  forall n, 0 < n -> n < 10 ^ N.of_nat (S f) ->
    List.last (digits_le f n) 0 <> 0.
Proof.
  induction f as [|f IH]; intros n Hpos Hn.
  - cbn [digits_le List.last]. change (10 ^ N.of_nat 1) with 10 in Hn.
    rewrite N.mod_small by assumption. lia.
  - cbn [digits_le]. destruct (N.ltb_spec n 10) as [Hlt|Hge].
    + cbn. lia.
    + assert (Hq : 0 < n / 10).
      { apply N.div_str_pos. lia. }
      assert (Hb : n / 10 < 10 ^ N.of_nat (S f)).
      { rewrite pow10_succ in Hn.
        apply N.Div0.div_lt_upper_bound. assumption. }
      specialize (IH _ Hq Hb).
      pose proof (digits_le_nonempty f (n / 10)) as Hne.
      destruct (digits_le f (n / 10)) as [|d r] eqn:E; [congruence|].
      exact IH.
Qed.

Lemma size_nat_bound (n : N) : n < 10 ^ N.of_nat (S (N.size_nat n)).
Proof.
  assert (H2 : forall p, N.pos p < 2 ^ N.of_nat (Pos.size_nat p)).
  { induction p as [p IH|p IH|]; cbn [Pos.size_nat].
    - rewrite Nat2N.inj_succ, N.pow_succ_r'. lia.
    - rewrite Nat2N.inj_succ, N.pow_succ_r'. lia.
    - reflexivity. }
  assert (H10 : forall k, 2 ^ N.of_nat k <= 10 ^ N.of_nat k).
  { intros k. apply N.pow_le_mono_l. lia. }
  rewrite pow10_succ.
  destruct n as [|p]; cbn [N.size_nat].
  - pose proof (pow10_pos 0). lia.
  - specialize (H2 p). specialize (H10 (Pos.size_nat p)). lia.
Qed.

Lemma undecimal_rev (ds : str) :
  undecimal (List.map digit_char (rev ds)) = value_le ds.
Proof.
  unfold undecimal.
  induction ds as [|d r IH]; cbn [rev value_le]; [reflexivity|].
  rewrite map_app, fold_left_app, IH. cbn [List.map fold_left].
  unfold digit_char. lia.
Qed.

Lemma undecimal_decimal (n : N) : undecimal (decimal n) = n.
Proof.
  unfold decimal. rewrite undecimal_rev.
  apply digits_le_value, size_nat_bound.
Qed.

Lemma digit_char_is_digit (d : N) : d < 10 -> is_digit (digit_char d) = true.
Proof.
  intros H. unfold is_digit, digit_char.
  apply andb_true_intro; split; apply N.leb_le; lia.
Qed.

Lemma decimal_digits (n : N) : forallb is_digit (decimal n) = true.
Proof.
  unfold decimal. apply forallb_forall. intros c Hc.
  apply in_map_iff in Hc as (d & <- & Hd).
  apply digit_char_is_digit.
  apply in_rev in Hd.
  pose proof (digits_le_bound (N.size_nat n) n) as Hall.
  rewrite List.Forall_forall in Hall. apply Hall, Hd.
Qed.

Lemma decimal_nonempty (n : N) : decimal n <> [].
Proof.
  unfold decimal. intros H. apply map_eq_nil in H.
  apply (f_equal (@rev N)) in H. rewrite rev_involutive in H.
  exact (digits_le_nonempty _ _ H).
Qed.

Lemma decimal_length (n : N) (w : nat) :
  n < 10 ^ N.of_nat (S w) -> (length (decimal n) <= S w)%nat.
Proof.
  intros H. unfold decimal. rewrite length_map, length_rev.
  apply digits_le_length, H.
Qed.

(** A positive number is printed without a leading zero. *)
Lemma decimal_head (n : N) :
  0 < n -> exists c r, decimal n = c :: r /\ c <> 48 /\ is_digit c = true.
Proof.
  intros Hpos. unfold decimal.
  pose proof (digits_le_last (N.size_nat n) n Hpos (size_nat_bound n)) as Hl.
  pose proof (digits_le_bound (N.size_nat n) n) as Hb.
  pose proof (digits_le_nonempty (N.size_nat n) n) as Hne.
  destruct (exists_last Hne) as (r & d & E). rewrite E in *.
  rewrite last_last in Hl. rewrite rev_unit. cbn [List.map].
  apply Forall_app in Hb as [_ Hd]. inversion Hd; subst.
  eexists _, _. split; [reflexivity|]. split.
  - unfold digit_char. lia.
  - apply digit_char_is_digit. assumption.
Qed.

Lemma undecimal_zeros (k : nat) (s : str) :
  undecimal (repeat 48 k ++ s) = undecimal s.
Proof.
  unfold undecimal. rewrite fold_left_app. f_equal.
  induction k as [|k IH]; [reflexivity|]. exact IH.
Qed.

Lemma zfill_length (w : nat) (n : N) :
  n < 10 ^ N.of_nat (S w) -> length (zfill (S w) n) = S w.
Proof.
  intros H. unfold zfill. rewrite length_app, repeat_length.
  pose proof (decimal_length n w H). lia.
Qed.

Lemma zfill_digits (w : nat) (n : N) : forallb is_digit (zfill w n) = true.
Proof.
  unfold zfill. rewrite forallb_app, decimal_digits, andb_true_r.
  apply forallb_forall. intros c Hc. apply repeat_spec in Hc. subst c.
  reflexivity.
Qed.

Lemma undecimal_zfill (w : nat) (n : N) : undecimal (zfill w n) = n.
Proof. unfold zfill. rewrite undecimal_zeros. apply undecimal_decimal. Qed.

(** Reading a zero-filled field gives the number back. *)
Lemma scan_digits_zfill (w : nat) (n : N) (rest : str) :
  n < 10 ^ N.of_nat (S w) ->
  scan_digits (S w) (zfill (S w) n ++ rest) = Some (n, rest).
Proof.
  intros H. unfold scan_digits.
  pose proof (zfill_length w n H) as Hlen.
  assert (Hf : firstn (S w) (zfill (S w) n ++ rest) = zfill (S w) n).
  { rewrite <- Hlen at 1. rewrite firstn_app, Nat.sub_diag, firstn_all.
    cbn [firstn]. apply app_nil_r. }
  assert (Hs : skipn (S w) (zfill (S w) n ++ rest) = rest).
  { rewrite <- Hlen at 1. rewrite skipn_app, Nat.sub_diag, skipn_all.
    reflexivity. }
  rewrite Hf, Hs, Hlen, Nat.eqb_refl, zfill_digits, undecimal_zfill.
  reflexivity.
Qed.

End Decimal.

(** ** Timestamps *)

Lemma valid_datetime_bounds d :
  valid_datetime d = true ->
  (1 <= year d <= 9999 /\ 1 <= month d <= 12
   /\ 1 <= day d <= days_in_month (year d) (month d)
   /\ hour d < 24 /\ minute d < 60 /\ second d < 60
   /\ microsecond d < 1000000)%N.
Proof.
  unfold valid_datetime. rewrite !andb_true_iff, !N.leb_le, !N.ltb_lt. tauto.
Qed.

Lemma days_in_month_le y m : (days_in_month y m <= 31)%N.
Proof.
  unfold days_in_month.
  repeat match goal with |- context [if ?b then _ else _] => destruct b end; lia.
Qed.

Lemma fromisoformat_isoformat d :
  valid_datetime d = true -> fromisoformat (isoformat d) = Some d.
Proof.
  intros Hv. pose proof (valid_datetime_bounds d Hv) as (Hy & Hm & Hd & Hh & Hmi & Hs & Hus).
  pose proof (days_in_month_le (year d) (month d)) as Hdm.
  unfold fromisoformat, isoformat.
  change (lit "-") with [45%N]. change (lit "T") with [84%N].
  change (lit ":") with [58%N]. change (lit ".") with [46%N].
  rewrite (scan_digits_zfill 3) by (change (10 ^ N.of_nat 4)%N with 10000%N; lia).
  cbn [mbind option_bind expect app N.eqb Pos.eqb].
  rewrite (scan_digits_zfill 1) by (change (10 ^ N.of_nat 2)%N with 100%N; lia).
  cbn [mbind option_bind expect app N.eqb Pos.eqb].
  rewrite (scan_digits_zfill 1) by (change (10 ^ N.of_nat 2)%N with 100%N; lia).
  cbn [mbind option_bind expect app N.eqb Pos.eqb].
  rewrite (scan_digits_zfill 1) by (change (10 ^ N.of_nat 2)%N with 100%N; lia).
  cbn [mbind option_bind expect app N.eqb Pos.eqb].
  rewrite (scan_digits_zfill 1) by (change (10 ^ N.of_nat 2)%N with 100%N; lia).
  cbn [mbind option_bind expect app N.eqb Pos.eqb].
  rewrite (scan_digits_zfill 1) by (change (10 ^ N.of_nat 2)%N with 100%N; lia).
  cbn [mbind option_bind].
  destruct d as [y mo dd h mi sec us]; cbn [year month day hour minute second microsecond] in *.
  destruct (N.eqb_spec us 0) as [->|Hne].
  - cbn [mbind option_bind]. rewrite Hv. reflexivity.
  - cbn [mbind option_bind expect N.eqb Pos.eqb].
    rewrite <- (app_nil_r (zfill 6 us)).
    rewrite (scan_digits_zfill 5) by (change (10 ^ N.of_nat 6)%N with 1000000%N; lia).
    cbn [mbind option_bind]. rewrite Hv. reflexivity.
Qed.

Section Stamps.
Local Open Scope N_scope.

Lemma value_le_bound (ds : str) :
  Forall (fun d => d < 10) ds -> value_le ds < 10 ^ N.of_nat (length ds).
Proof.
  induction 1 as [|d r Hd _ IH]; [reflexivity|].
  cbn [value_le length]. rewrite pow10_succ. lia.
Qed.

(** A number of four digits is printed with four digits. *)
Lemma decimal_four_digits (n : N) :
  1000 <= n <= 9999 -> zfill 4 n = decimal n.
Proof.
  intros Hn. unfold zfill.
  assert (Hlen : length (decimal n) = 4%nat).
  { pose proof (decimal_length n 3) as Hle.
    change (10 ^ N.of_nat 4) with 10000 in Hle. specialize (Hle ltac:(lia)).
    unfold decimal in *. rewrite length_map, length_rev in *.
    pose proof (value_le_bound _ (digits_le_bound (N.size_nat n) n)) as Hb.
    rewrite (digits_le_value _ _ (size_nat_bound n)) in Hb.
    destruct (Nat.le_gt_cases 4 (length (digits_le (N.size_nat n) n)))
      as [Hge|Hlt]; [lia|exfalso].
    assert (10 ^ N.of_nat (length (digits_le (N.size_nat n) n)) <= 10 ^ 3).
    { apply N.pow_le_mono_r; lia. }
    change (10 ^ 3) with 1000 in *. lia. }
  rewrite Hlen. reflexivity.
Qed.

(** The stamp of a file name reads back as the reading of the clock
    without its fraction of a second. *)
Lemma strptime_strftime (d : datetime) :
  valid_datetime d = true -> 1000 <= year d ->
  strptime_Ymd_HMS (strftime_Ymd_HMS d) = Some (truncate_to_second d).
Proof.
  intros Hv Hy.
  pose proof (valid_datetime_bounds d Hv) as (Hy' & Hm & Hd & Hh & Hmi & Hs & Hus).
  pose proof (days_in_month_le (year d) (month d)) as Hdm.
  assert (Hv' : valid_datetime (truncate_to_second d) = true).
  { unfold valid_datetime, truncate_to_second in *.
    cbn [year month day hour minute second microsecond].
    rewrite !andb_true_iff in *. intuition. }
  unfold strptime_Ymd_HMS, strftime_Ymd_HMS.
  rewrite <- decimal_four_digits by lia.
  change (lit "_") with [95].
  rewrite (scan_digits_zfill 3) by (change (10 ^ N.of_nat 4) with 10000; lia).
  cbn [mbind option_bind].
  rewrite (scan_digits_zfill 1) by (change (10 ^ N.of_nat 2) with 100; lia).
  cbn [mbind option_bind].
  rewrite (scan_digits_zfill 1) by (change (10 ^ N.of_nat 2) with 100; lia).
  cbn [mbind option_bind expect app N.eqb Pos.eqb].
  rewrite (scan_digits_zfill 1) by (change (10 ^ N.of_nat 2) with 100; lia).
  cbn [mbind option_bind].
  rewrite (scan_digits_zfill 1) by (change (10 ^ N.of_nat 2) with 100; lia).
  cbn [mbind option_bind].
  rewrite <- (app_nil_r (zfill 2 (second d))).
  rewrite (scan_digits_zfill 1) by (change (10 ^ N.of_nat 2) with 100; lia).
  cbn [mbind option_bind].
  fold (truncate_to_second d). rewrite Hv'. reflexivity.
Qed.
End Stamps.

(** ** Stripping *)

Lemma lstrip_blank (s : str) : blank s = true -> lstrip s = [].
Proof.
  induction s as [|c r IH]; [reflexivity|]. cbn [blank forallb lstrip].
  intros [Hc Hr]%andb_true_iff. rewrite Hc. apply IH, Hr.
Qed.

Lemma strip_blank (s : str) : blank s = true -> strip s = [].
Proof.
  intros H. unfold strip. rewrite lstrip_blank by assumption. reflexivity.
Qed.

(** What [lstrip] removes is whitespace, and what it leaves does not
    start with whitespace. *)
Lemma lstrip_spec (s : str) :
  exists pre, s = pre ++ lstrip s /\ blank pre = true
              /\ (forall c r, lstrip s = c :: r -> py_isspace c = false).
Proof.
  induction s as [|c r (pre & E & Hb & Hh)].
  - exists []. repeat split. discriminate.
  - cbn [lstrip]. destruct (py_isspace c) eqn:Hc.
    + exists (c :: pre). cbn [app blank forallb]. rewrite Hc.
      repeat split; [congruence | exact Hb | exact Hh].
    + exists []. repeat split. intros c' r' [= <- <-]. exact Hc.
Qed.

(** [strip] removes whitespace on both sides, and only that. *)
Lemma strip_spec (s : str) :
  exists pre post,
    s = pre ++ strip s ++ post /\ blank pre = true /\ blank post = true
    /\ (forall c r, strip s = c :: r -> py_isspace c = false)
    /\ (forall c r, strip s = r ++ [c] -> py_isspace c = false).
Proof.
  destruct (lstrip_spec s) as (pre & E & Hpre & Hhead).
  destruct (lstrip_spec (rev (lstrip s))) as (tsop & E' & Hpost & Hlast).
  exists pre, (rev tsop). unfold strip, rstrip.
  apply (f_equal (@rev N)) in E'. rewrite rev_involutive, rev_app_distr in E'.
  split; [congruence|]. split; [exact Hpre|]. split.
  { unfold blank in *. rewrite forallb_forall in *.
    intros c Hc. apply Hpost, in_rev, Hc. }
  split.
  - intros c r Hs. rewrite Hs in E'. cbn [app] in E'.
    eapply Hhead. exact E'.
  - intros c r Hs. apply (f_equal (@rev N)) in Hs.
    rewrite rev_involutive, rev_unit in Hs. eapply Hlast, Hs.
Qed.

(** ** The validator *)

(** The test the code makes on a field is the specified rule. *)
Lemma too_short_str (s : str) (minimum : nat) (w : world) :
  (1 <= minimum)%nat ->
  too_short (VStr s) minimum w = (Returns (field_invalid minimum s), w).
Proof.
  intros Hm. unfold too_short, field_invalid, truthy.
  destruct s as [|c r]; [reflexivity|].
  cbn [length Nat.eqb negb py_strip bind ret].
  destruct (blank (c :: r)) eqn:Hb; cbn [orb]; [|reflexivity].
  rewrite (strip_blank _ Hb). cbn [length].
  destruct minimum; [lia|reflexivity].
Qed.

Lemma validate_basic_info_run (name role department timeline : str) (w : world) :
  validate_basic_info (VStr name) (VStr role) (VStr department) (VStr timeline) w
  = let w1 := set_stdout (w_stdout w ++ [validation_log]) w in
    match violations name role department timeline with
    | [] =>
        (Returns (valid_result name role department timeline
                    (o_clock (w_oracle w) (w_ticks w))),
         set_ticks (S (w_ticks w)) w1)
    | errors => (Returns (invalid_result errors), w1)
    end.
Proof.
  unfold validate_basic_info.
  cbv beta iota delta [bind print].
  rewrite !too_short_str by lia.
  unfold violations, field_rules. cbn [List.filter]. unfold violated. cbn [fst snd].
  destruct (field_invalid 2 name), (field_invalid 2 role),
    (field_invalid 2 department), (field_invalid 3 timeline);
    reflexivity.
Qed.

Lemma existsb_filter {A} (f : A -> bool) (l : list A) :
  existsb f l = match List.filter f l with [] => false | _ => true end.
Proof.
  induction l as [|a l IH]; [reflexivity|]. cbn [existsb List.filter].
  destruct (f a); [reflexivity|exact IH].
Qed.

(** C1: on four strings, [validate_basic_info] answers [valid: False]
    exactly when some field is empty or whitespace-only or, once trimmed,
    shorter than its minimum (name 2, role 2, department 2, timeline 3).
    No check is skipped: the errors are one message for each violated
    field, in the order name, role, department, timeline; four empty
    strings give the four messages. *)
Theorem validate_collects_every_violation
    (name role department timeline : str) (w : world) :
  let rules := field_rules name role department timeline in
  let result :=
    fst (validate_basic_info (VStr name) (VStr role) (VStr department)
           (VStr timeline) w) in
  ((exists v, result = Returns v /\ field v (lit "valid") = Some (VBool false))
   <-> Exists (fun rule => violated rule = true) rules)
  /\ result
     = Returns (if existsb violated rules
                then invalid_result (List.map snd (List.filter violated rules))
                else valid_result name role department timeline
                       (o_clock (w_oracle w) (w_ticks w)))
  /\ fst (validate_basic_info (VStr []) (VStr []) (VStr []) (VStr []) w)
     = Returns (invalid_result
                  [lit "Name must be at least 2 characters long";
                   lit "Role must be specified";
                   lit "Department must be specified";
                   lit "Timeline must be specified"]).
Proof.
  intros rules result.
  assert (Hres : result
     = Returns (if existsb violated rules
                then invalid_result (List.map snd (List.filter violated rules))
                else valid_result name role department timeline
                       (o_clock (w_oracle w) (w_ticks w)))).
  { subst result. rewrite validate_basic_info_run. cbv zeta.
    unfold violations. fold rules. rewrite existsb_filter.
    destruct (List.filter violated rules); reflexivity. }
  split; [|split; [exact Hres|]].
  - rewrite Hres. rewrite List.Exists_exists, <- existsb_exists.
    destruct (existsb violated rules); split.
    + reflexivity.
    + intros _. eexists. split; reflexivity.
    + intros (v & [= <-] & Hv). discriminate Hv.
    + discriminate.
  - rewrite validate_basic_info_run. reflexivity.
Qed.

(** C6: when the four strings all satisfy the minimum-length rule,
    [validate_basic_info] answers [valid: True] with a [data] record
    holding the four values without their surrounding whitespace and
    [collected_at], the reading of the clock in ISO-8601 format, which
    parses back to that reading. *)
Theorem validate_accepts_trimmed_fields
    (name role department timeline : str) (w : world) :
  let now := o_clock (w_oracle w) (w_ticks w) in
  field_invalid 2 name = false ->
  field_invalid 2 role = false ->
  field_invalid 2 department = false ->
  field_invalid 3 timeline = false ->
  valid_datetime now = true ->
  exists name' role' department' timeline',
    fst (validate_basic_info (VStr name) (VStr role) (VStr department)
           (VStr timeline) w)
    = Returns
        (VDict [(lit "valid", VBool true);
                (lit "data",
                 VDict [(lit "name", VStr name');
                        (lit "role", VStr role');
                        (lit "department", VStr department');
                        (lit "timeline", VStr timeline');
                        (lit "collected_at", VStr (isoformat now))])])
    /\ trimmed_of name name' /\ trimmed_of role role'
    /\ trimmed_of department department' /\ trimmed_of timeline timeline'
    /\ fromisoformat (isoformat now) = Some now.
Proof.
  intros now Hn Hr Hd Ht Hnow.
  exists (strip name), (strip role), (strip department), (strip timeline).
  split; [|repeat split; try apply strip_spec; apply fromisoformat_isoformat, Hnow].
  rewrite validate_basic_info_run. cbv zeta.
  unfold violations, field_rules. cbn [List.filter]. unfold violated.
  cbn [fst snd]. rewrite Hn, Hr, Hd, Ht. reflexivity.
Qed.

Lemma validate_accepts_trimmed_fields_witness :
  exists name' role' department' timeline',
    fst (validate_basic_info (VStr (lit "Ann")) (VStr (lit "Analyst"))
           (VStr (lit "Finance")) (VStr (lit "next week")) example_world)
    = Returns
        (VDict [(lit "valid", VBool true);
                (lit "data",
                 VDict [(lit "name", VStr name');
                        (lit "role", VStr role');
                        (lit "department", VStr department');
                        (lit "timeline", VStr timeline');
                        (lit "collected_at",
                         VStr (isoformat (DateTime 2025 7 14 9 30 0 250000)))])])
    /\ trimmed_of (lit "Ann") name' /\ trimmed_of (lit "Analyst") role'
    /\ trimmed_of (lit "Finance") department'
    /\ trimmed_of (lit "next week") timeline'
    /\ fromisoformat (isoformat (DateTime 2025 7 14 9 30 0 250000))
       = Some (DateTime 2025 7 14 9 30 0 250000).
Proof.
  exact (validate_accepts_trimmed_fields
           (lit "Ann") (lit "Analyst") (lit "Finance") (lit "next week")
           example_world eq_refl eq_refl eq_refl eq_refl eq_refl).
Defined.

(** C7: on four strings [validate_basic_info] never raises: it returns,
    and what it returns is the structured result, which for a malformed
    input is [valid: False] with the message of every violated rule. *)
Theorem validate_never_raises
    (name role department timeline : str) (w : world) :
  let rules := field_rules name role department timeline in
  exists v w',
    validate_basic_info (VStr name) (VStr role) (VStr department)
      (VStr timeline) w = (Returns v, w')
    /\ v = (if existsb violated rules
            then invalid_result (List.map snd (List.filter violated rules))
            else valid_result name role department timeline
                   (o_clock (w_oracle w) (w_ticks w))).
Proof.
  intros rules. rewrite validate_basic_info_run. cbv zeta.
  unfold violations. fold rules. rewrite existsb_filter.
  destruct (List.filter violated rules); eexists _, _; split; reflexivity.
Qed.

(** Outside the strings the validator can raise: a number that is not
    zero passes the emptiness test and has no [strip] method, whereas
    [None] is reported as a missing field. *)
Example validate_on_other_values :
  fst (validate_basic_info (VInt 5) (VStr (lit "VP")) (VStr (lit "Sales"))
         (VStr (lit "ASAP")) example_world)
  = Raises (Exn (lit "AttributeError")
                (lit "'int' object has no attribute 'strip'"))
  /\ fst (validate_basic_info VNone (VStr (lit "VP")) (VStr (lit "Sales"))
            (VStr (lit "ASAP")) example_world)
     = Returns (invalid_result [lit "Name must be at least 2 characters long"]).
Proof. split; reflexivity. Qed.

(** The examples of the specification: a name of two characters once
    trimmed passes, a name of one character is the only error. *)
Example validate_borderline_names :
  fst (validate_basic_info (VStr (lit " Jo ")) (VStr (lit "VP"))
         (VStr (lit "Sales")) (VStr (lit "ASAP")) example_world)
  = Returns (valid_result (lit "Jo") (lit "VP") (lit "Sales") (lit "ASAP")
               (DateTime 2025 7 14 9 30 0 250000))
  /\ fst (validate_basic_info (VStr (lit "J")) (VStr (lit "VP"))
            (VStr (lit "Sales")) (VStr (lit "ASAP")) example_world)
     = Returns (invalid_result [lit "Name must be at least 2 characters long"]).
Proof. split; reflexivity. Qed.


Lemma without_collected_at_valid_result name role department timeline now :
  without_collected_at (valid_result name role department timeline now)
  = VDict [(lit "valid", VBool true);
           (lit "data",
            VDict [(lit "name", VStr (strip name));
                   (lit "role", VStr (strip role));
                   (lit "department", VStr (strip department));
                   (lit "timeline", VStr (strip timeline))])].
Proof. reflexivity. Qed.




(** ** The persister, step by step *)

Lemma summarize_analytics_request_run (l : loc) (w : world) :
  summarize_analytics_request l w
  = (Returns (summary_value (next_answer w (heap_get (w_heap w) l))),
     set_calls (calls_after w (heap_get (w_heap w) l)) w).
Proof.
  destruct w as [o ticks calls opens out heap fs].
  unfold summarize_analytics_request, next_answer, calls_after.
  cbv beta iota delta
    [try_except bind deref py_str prompt_call ret set_calls
     w_oracle w_ticks w_calls w_opens w_stdout w_heap w_fs].
  destruct (o_str_error _ _); [reflexivity|].
  destruct (o_generate _ _ _ _) as [[text|]|e]; reflexivity.
Qed.

Lemma heap_get_insert (h : gmap positive (dict)) l d :
  heap_get (<[l := d]> h) l = d.
Proof. unfold heap_get. rewrite lookup_insert_eq. reflexivity. Qed.

Lemma py_str_run (v : value) (w : world) :
  py_str v w
  = (match str_error (w_oracle w) v with
     | Some e => Raises e
     | None => Returns (shown_in (w_oracle w) v)
     end, w).
Proof.
  destruct v; cbn [py_str str_error shown_in]; try reflexivity;
    destruct (o_str_error _ _); reflexivity.
Qed.

Lemma save_analytics_request_run (l : loc) (w : world) :
  let o := w_oracle w in
  let d := heap_get (w_heap w) l in
  let now1 := o_clock o (w_ticks w) in
  let now2 := o_clock o (S (w_ticks w)) in
  let filename := request_filename now1 in
  let f := File filename (w_opens w) in
  let d' := persisted d (summary_value (next_answer w d)) now2 in
  let text := json_dumps 2 (VDict d') in
  let after fs :=
    World o (S (S (w_ticks w))) (calls_after w d) (S (w_opens w))
          (w_stdout w ++ save_log) (<[l := d']> (w_heap w)) fs in
  save_analytics_request l w
  = match o_open_error o (w_opens w) filename with
    | Some e => (Returns (save_failure e), after (w_fs w))
    | None =>
        match o_write_error o f with
        | Some e =>
            (Returns (save_failure e),
             after (<[filename := o_partial o f]> (w_fs w)))
        | None =>
            match utf8_encode text with
            | None =>
                (Returns (save_failure (o_encode_error o text)),
                 after (<[filename := o_partial o f]> (w_fs w)))
            | Some content =>
                let w' := after (<[filename := content]> (w_fs w)) in
                let request_type :=
                  default (VStr (lit "unknown")) (dict_get d' (lit "request_type")) in
                match str_error o request_type with
                | Some e => (Returns (save_failure e), w')
                | None =>
                    match default (VDict []) (dict_get d' (lit "basic_info")) with
                    | VDict info =>
                        let name :=
                          default (VStr (lit "unknown"))
                            (dict_get info (lit "name")) in
                        match str_error o name with
                        | Some e => (Returns (save_failure e), w')
                        | None =>
                            (Returns
                               (save_success filename (shown_in o request_type)
                                  (shown_in o name)),
                             w')
                        end
                    | other =>
                        (Returns
                           (save_failure (AttributeError other (lit "get"))),
                         w')
                    end
                end
            end
        end
    end.
Proof.
  cbv zeta. destruct w as [o ticks calls opens out heap fs].
  cbv beta iota zeta delta
    [save_analytics_request try_except bind
     print datetime_now setitem ret deref open_w
     json_dump py_get
     set_ticks set_calls set_opens set_stdout set_heap set_fs
     w_oracle w_ticks w_calls w_opens w_stdout w_heap w_fs f_path f_id].
  rewrite <- !app_assoc. cbn [app]. fold save_log.
  rewrite summarize_analytics_request_run.
  cbv beta iota zeta delta
    [set_calls w_oracle w_ticks w_calls w_opens w_stdout w_heap w_fs
     f_path f_id].
  change (calls_after (World o (S ticks) calls opens (out ++ save_log) heap fs))
    with (calls_after (World o ticks calls opens out heap fs)).
  change (next_answer (World o (S ticks) calls opens (out ++ save_log) heap fs))
    with (next_answer (World o ticks calls opens out heap fs)).
  rewrite heap_get_insert, insert_insert_eq.
  unfold request_filename, persisted, metadata_of.
  destruct (o_open_error _ _ _) as [e|]; [reflexivity|].
  cbv beta iota delta
    [w_oracle w_ticks w_calls w_opens w_stdout w_heap w_fs f_path f_id].
  rewrite heap_get_insert.
  destruct (o_write_error _ _) as [e|];
    [rewrite insert_insert_eq; reflexivity|].
  destruct (utf8_encode _) as [content|];
    [|rewrite insert_insert_eq; reflexivity].
  cbv beta iota delta
    [w_oracle w_ticks w_calls w_opens w_stdout w_heap w_fs f_path f_id].
  rewrite heap_get_insert, insert_insert_eq, py_str_run.
  cbv beta iota delta [w_oracle].
  destruct (str_error o (default _ (dict_get _ (lit "request_type"))));
    [reflexivity|].
  cbv beta iota.
  destruct (default (VDict []) _); try reflexivity.
  rewrite py_str_run. cbv beta iota delta [w_oracle].
  destruct (str_error _ _); reflexivity.
Qed.

(** ** UTF-8 *)

Section Utf8.
Local Open Scope N_scope.
Local Ltac Zify.zify_post_hook ::= Z.div_mod_to_equations.

Lemma to_N_byte_of (n : N) : n < 256 -> Byte.to_N (byte_of n) = n.
Proof.
  intros H. unfold byte_of.
  destruct (Byte.of_N n) as [b|] eqn:E.
  - apply Byte.to_of_N, E.
  - apply Byte.of_N_None_iff in E. lia.
Qed.

(** Decoding what one code point encodes to gives the code point
    back. *)
Lemma utf8_decode_char (c : N) (b rest : bytes) :
  utf8_encode_char c = Some b ->
  utf8_decode (b ++ rest) = cons c <$> utf8_decode rest.
Proof.
  unfold utf8_encode_char, is_surrogate.
  destruct (N.ltb_spec c 0x80);
    [|destruct (N.ltb_spec c 0x800);
      [|destruct (N.ltb_spec c 0x10000);
        [destruct (N.leb_spec 0xD800 c); destruct (N.leb_spec c 0xDFFF);
         cbn [andb]
        |destruct (N.ltb_spec c 0x110000)]]];
    intros [= <-]; cbn [app utf8_decode];
    unfold is_continuation, is_surrogate;
    rewrite ?N.Div0.mod_eq;
    repeat match goal with
           | |- context [Byte.to_N (byte_of ?n)] =>
               rewrite (to_N_byte_of n) by lia
           end;
    decide_tests; cbn [andb negb];
    f_equal; f_equal; lia.
Qed.

Lemma utf8_decode_encode (s : str) (bs : bytes) :
  utf8_encode s = Some bs -> utf8_decode bs = Some s.
Proof.
  revert bs. induction s as [|c r IH]; intros bs; cbn [utf8_encode].
  - intros [= <-]. reflexivity.
  - destruct (utf8_encode_char c) as [b|] eqn:Ec; [|discriminate].
    destruct (utf8_encode r) as [bs'|]; [|discriminate].
    intros [= <-]. rewrite (utf8_decode_char c b bs' Ec), (IH bs' eq_refl).
    reflexivity.
Qed.

(** A text without surrogates, within the Unicode range, encodes. *)
Lemma utf8_encode_total (s : str) :
  forallb (fun c => (c <? 0x110000) && negb (is_surrogate c)) s = true ->
  exists bs, utf8_encode s = Some bs.
Proof.
  induction s as [|c r IH]; cbn [forallb utf8_encode]; [eauto|].
  intros [[Hc Hs%negb_true_iff]%andb_true_iff Hr]%andb_true_iff.
  destruct (IH Hr) as [bs ->].
  unfold utf8_encode_char. rewrite Hs, Hc.
  repeat match goal with |- context [if ?b then _ else _] => destruct b end;
    eauto.
Qed.
End Utf8.

(** ** JSON: reading back what was written *)

Section Json.
Local Open Scope N_scope.

(** *** Whitespace *)

Lemma skip_ws_app (ws s : str) :
  forallb is_ws ws = true -> skip_ws (ws ++ s) = skip_ws s.
Proof.
  induction ws as [|c r IH]; [reflexivity|]. cbn [forallb app skip_ws].
  intros [Hc Hr]%andb_true_iff. rewrite Hc. apply IH, Hr.
Qed.

Lemma skip_ws_newline_indent (indent level : nat) (s : str) :
  skip_ws (newline_indent indent level ++ s) = skip_ws s.
Proof.
  apply skip_ws_app. unfold newline_indent. cbn [forallb].
  change (is_ws 10) with true. cbn [andb].
  apply forallb_forall. intros c Hc. apply repeat_spec in Hc. subst c.
  reflexivity.
Qed.

Lemma skip_ws_space (s : str) : skip_ws (32 :: s) = skip_ws s.
Proof. reflexivity. Qed.

Lemma skip_ws_head (c : N) (s : str) :
  is_ws c = false -> skip_ws (c :: s) = c :: s.
Proof. intros H. cbn [skip_ws]. rewrite H. reflexivity. Qed.

(** *** Strings *)

Lemma hex_value_hex_digit (d : N) : d < 16 -> hex_value (hex_digit d) = Some d.
Proof.
  intros H. unfold hex_value, hex_digit.
  destruct (N.ltb_spec d 10).
  - replace ((48 <=? 48 + d) && (48 + d <=? 57)) with true.
    + f_equal. lia.
    + symmetry. apply andb_true_intro. split; apply N.leb_le; lia.
  - replace ((48 <=? 87 + d) && (87 + d <=? 57)) with false.
    + replace ((97 <=? 87 + d) && (87 + d <=? 102)) with true.
      * f_equal. lia.
      * symmetry. apply andb_true_intro. split; apply N.leb_le; lia.
    + symmetry. apply andb_false_intro2. apply N.leb_gt. lia.
Qed.

(** Reading an escaped character gives the character back. *)
Lemma scan_string_escape (c : N) (s acc : str) :
  scan_string (escape_char c ++ s) acc = scan_string s (c :: acc).
Proof.
  unfold escape_char.
  destruct (N.eqb_spec c 34) as [->|H34]; [reflexivity|].
  destruct (N.eqb_spec c 92) as [->|H92]; [reflexivity|].
  destruct (N.eqb_spec c 10) as [->|H10]; [reflexivity|].
  destruct (N.eqb_spec c 13) as [->|H13]; [reflexivity|].
  destruct (N.eqb_spec c 9) as [->|H9]; [reflexivity|].
  destruct (N.eqb_spec c 8) as [->|H8]; [reflexivity|].
  destruct (N.eqb_spec c 12) as [->|H12]; [reflexivity|].
  destruct (N.ltb_spec c 32) as [Hlt|Hge].
  - cbn [app scan_string]. change (92 =? 34) with false.
    change (92 =? 92) with true. change (117 =? 117) with true.
    cbv iota. unfold hex4. change (hex_value 48) with (Some 0).
    rewrite !hex_value_hex_digit
      by (try apply N.mod_lt; try apply N.Div0.div_lt_upper_bound; lia).
    replace (((0 * 16 + 0) * 16 + c / 16) * 16 + c mod 16) with c
      by (pose proof (N.div_mod c 16); lia).
    replace ((55296 <=? c) && (c <=? 56319)) with false; [reflexivity|].
    symmetry. apply andb_false_intro1. apply N.leb_gt. lia.
  - cbn [app scan_string].
    rewrite (proj2 (N.eqb_neq c 34) H34), (proj2 (N.eqb_neq c 92) H92).
    rewrite (proj2 (N.ltb_ge c 32) Hge). reflexivity.
Qed.

Lemma scan_string_encoded (s rest acc : str) :
  scan_string (flat_map escape_char s ++ 34 :: rest) acc
  = Some (rev acc ++ s, rest).
Proof.
  revert acc. induction s as [|c r IH]; intros acc.
  - cbn [flat_map app scan_string]. change (34 =? 34) with true.
    rewrite app_nil_r. reflexivity.
  - cbn [flat_map]. rewrite <- app_assoc, scan_string_escape, IH.
    cbn [rev]. rewrite <- app_assoc. reflexivity.
Qed.

Lemma encode_basestring_app (s rest : str) :
  encode_basestring s ++ rest
  = 34 :: flat_map escape_char s ++ 34 :: rest.
Proof.
  unfold encode_basestring. cbn [app]. rewrite <- app_assoc. reflexivity.
Qed.

(** *** Integers *)

Lemma span_digits_app (ds rest : str) :
  forallb is_digit ds = true -> terminated rest = true ->
  span_digits (ds ++ rest) = (ds, rest).
Proof.
  intros Hds Hrest. induction ds as [|c r IH].
  - destruct rest as [|c r]; [reflexivity|].
    cbn [app span_digits]. cbn [terminated] in Hrest.
    apply andb_true_iff in Hrest as [Hc%negb_true_iff _]. rewrite Hc.
    reflexivity.
  - cbn [forallb] in Hds. apply andb_true_iff in Hds as [Hc Hr].
    cbn [app span_digits]. rewrite Hc, (IH Hr). reflexivity.
Qed.

Lemma terminated_starts_fraction (s : str) :
  terminated s = true -> starts_fraction s = false.
Proof.
  destruct s as [|c r]; [reflexivity|]. cbn [terminated].
  intros [_ H%negb_true_iff]%andb_true_iff. exact H.
Qed.

Lemma int_digits_decimal (n : N) (rest : str) :
  terminated rest = true ->
  int_digits (decimal n ++ rest) = (decimal n, rest).
Proof.
  intros Hrest. destruct (N.eq_dec n 0) as [->|Hn]; [reflexivity|].
  destruct (decimal_head n) as (c & r & E & Hc & Hd); [lia|].
  pose proof (decimal_digits n) as Hds. rewrite E in *.
  unfold int_digits. cbn [app].
  rewrite (proj2 (N.eqb_neq c 48) Hc).
  apply (span_digits_app (c :: r)); assumption.
Qed.

Lemma decimal_not_minus (n : N) (rest : str) :
  exists c r, decimal n ++ rest = c :: r /\ (c =? 45) = false.
Proof.
  pose proof (decimal_digits n) as Hd. pose proof (decimal_nonempty n) as Hne.
  destruct (decimal n) as [|c r]; [congruence|].
  exists c, (r ++ rest). split; [reflexivity|].
  cbn [forallb] in Hd. apply andb_true_iff in Hd as [Hc _].
  apply N.eqb_neq. intros ->. discriminate Hc.
Qed.

Lemma scan_int_repr (z : Z) (rest : str) :
  terminated rest = true ->
  scan_int (int_repr z ++ rest) = Some (VInt z, rest).
Proof.
  intros Hrest. pose proof (terminated_starts_fraction rest Hrest) as Hf.
  assert (Hnat : forall n,
    (let '(ds, rest') := int_digits (decimal n ++ rest) in
     match ds with
     | [] => None
     | _ => if starts_fraction rest' then None
            else Some (VInt (Z.of_N (undecimal ds)), rest')
     end) = Some (VInt (Z.of_N n), rest)).
  { intros n. rewrite int_digits_decimal by assumption.
    pose proof (decimal_nonempty n) as Hne.
    destruct (decimal n) as [|c r] eqn:E; [congruence|].
    rewrite Hf, <- E, undecimal_decimal. reflexivity. }
  destruct z as [|p|p]; cbn [int_repr Z.to_N].
  - exact (Hnat 0).
  - unfold scan_int.
    destruct (decimal_not_minus (N.pos p) rest) as (c & r & E & Hc).
    rewrite E, Hc, <- E. exact (Hnat (N.pos p)).
  - unfold scan_int. change (lit "-") with [45]. cbn [app].
    change (45 =? 45) with true. cbv iota.
    rewrite int_digits_decimal by assumption.
    pose proof (decimal_nonempty (N.pos p)) as Hne.
    destruct (decimal (N.pos p)) as [|c r] eqn:E; [congruence|].
    rewrite Hf, <- E, undecimal_decimal. reflexivity.
Qed.

(** *** Values *)

Lemma iterencode_list indent level x xs :
  iterencode indent level (VList (x :: xs))
  = 91 :: newline_indent indent (S level) ++ iterencode indent (S level) x
      ++ enc_items indent level xs ++ newline_indent indent level ++ [93].
Proof. reflexivity. Qed.

Lemma iterencode_dict indent level k x kvs :
  iterencode indent level (VDict ((k, x) :: kvs))
  = 123 :: newline_indent indent (S level) ++ encode_basestring k
      ++ lit ": " ++ iterencode indent (S level) x
      ++ enc_members indent level kvs ++ newline_indent indent level ++ [125].
Proof. reflexivity. Qed.

Lemma enc_items_cons indent level y ys :
  enc_items indent level (y :: ys)
  = 44 :: newline_indent indent (S level) ++ iterencode indent (S level) y
      ++ enc_items indent level ys.
Proof.
  unfold enc_items. cbn [flat_map]. change (lit ",") with [44].
  cbn [app]. rewrite <- !app_assoc. reflexivity.
Qed.

Lemma enc_members_cons indent level k y kvs :
  enc_members indent level ((k, y) :: kvs)
  = 44 :: newline_indent indent (S level) ++ encode_basestring k
      ++ lit ": " ++ iterencode indent (S level) y
      ++ enc_members indent level kvs.
Proof.
  unfold enc_members. cbn [flat_map fst snd]. change (lit ",") with [44].
  cbn [app]. rewrite <- !app_assoc. reflexivity.
Qed.

Lemma digit_value_start (c : N) : is_digit c = true -> value_start c = true.
Proof.
  unfold is_digit, value_start, is_ws.
  intros [H1%N.leb_le H2%N.leb_le]%andb_true_iff.
  repeat match goal with
         | |- context [N.eqb c ?k] =>
             replace (N.eqb c k) with false
               by (symmetry; apply N.eqb_neq; lia)
         end.
  reflexivity.
Qed.

Lemma iterencode_head indent level v :
  exists c r, iterencode indent level v = c :: r /\ value_start c = true.
Proof.
  destruct v as [|[]|z|s|[|x xs]|[|[k x] kvs]];
    try (eexists _, _; split; [reflexivity|reflexivity]).
  cbn [iterencode]. destruct z as [|p|p]; cbn [int_repr Z.to_N].
  - eexists _, _. split; reflexivity.
  - destruct (decimal_head (N.pos p)) as (c & r & E & _ & Hd); [lia|].
    exists c, r. split; [exact E|]. apply digit_value_start, Hd.
  - eexists _, _. split; reflexivity.
Qed.

Lemma skip_ws_value_start (c : N) (s : str) :
  value_start c = true -> skip_ws (c :: s) = c :: s.
Proof.
  intros H. apply skip_ws_head. unfold value_start in H.
  destruct (is_ws c); [discriminate H|reflexivity].
Qed.

Lemma skip_ws_iterencode indent level v (s : str) :
  skip_ws (iterencode indent level v ++ s) = iterencode indent level v ++ s.
Proof.
  destruct (iterencode_head indent level v) as (c & r & -> & Hc).
  apply skip_ws_value_start, Hc.
Qed.

Lemma scan_value_int (fuel : nat) (c : N) (r : str) :
  c = 45 \/ is_digit c = true ->
  scan_value (S fuel) (c :: r) = scan_int (c :: r).
Proof.
  intros Hc.
  assert (H : (c =? 34) = false /\ (c =? 123) = false /\ (c =? 91) = false
              /\ (c =? 110) = false /\ (c =? 116) = false
              /\ (c =? 102) = false).
  { destruct Hc as [->|Hd]; [repeat split; reflexivity|].
    unfold is_digit in Hd.
    apply andb_true_iff in Hd as [H1%N.leb_le H2%N.leb_le].
    repeat split; apply N.eqb_neq; lia. }
  destruct H as (H1 & H2 & H3 & H4 & H5 & H6).
  cbn [scan_value]. rewrite H1, H2, H3.
  unfold scan_literal. change (lit "null") with [110; 117; 108; 108].
  change (lit "true") with [116; 114; 117; 101].
  change (lit "false") with [102; 97; 108; 115; 101].
  cbn [strip_prefix]. rewrite H4, H5, H6. reflexivity.
Qed.

Lemma terminated_head (c : N) (s : str) :
  c = 44 \/ c = 10 -> terminated (c :: s) = true.
Proof. intros [->| ->]; reflexivity. Qed.

Lemma terminated_items indent level xs (rest : str) :
  terminated (enc_items indent level xs
                ++ newline_indent indent level ++ rest) = true.
Proof. destruct xs; [|rewrite enc_items_cons]; reflexivity. Qed.

Lemma terminated_members indent level kvs (rest : str) :
  terminated (enc_members indent level kvs
                ++ newline_indent indent level ++ rest) = true.
Proof.
  destruct kvs as [|[k x] kvs]; [|rewrite enc_members_cons]; reflexivity.
Qed.

Lemma dict_set_fresh (acc : dict) k x :
  ~ In k (List.map fst acc) -> dict_set acc k x = acc ++ [(k, x)].
Proof.
  induction acc as [|[k' x'] acc IH]; [reflexivity|].
  cbn [List.map fst In dict_set app]. intros Hk.
  destruct (decide (k' = k)) as [->|_]; [tauto|].
  rewrite IH by tauto. reflexivity.
Qed.

(** Setting items with fresh, distinct keys appends them. *)
Lemma set_all_fresh (kvs acc : dict) :
  List.NoDup (List.map fst acc ++ List.map fst kvs) ->
  set_all acc kvs = acc ++ kvs.
Proof.
  revert acc. induction kvs as [|[k x] kvs IH]; intros acc Hnd.
  - cbn. rewrite app_nil_r. reflexivity.
  - cbn [set_all fold_left fst snd]. fold (set_all (dict_set acc k x) kvs).
    cbn [List.map fst] in Hnd.
    rewrite dict_set_fresh.
    + rewrite IH.
      * rewrite <- app_assoc. reflexivity.
      * rewrite map_app. cbn [List.map fst]. rewrite <- app_assoc. exact Hnd.
    + apply List.NoDup_remove_2 in Hnd. intros Hin. apply Hnd.
      apply in_or_app. left. exact Hin.
Qed.

Lemma value_start_tests (c : N) :
  value_start c = true ->
  (c =? 93) = false /\ (c =? 125) = false /\ (c =? 44) = false.
Proof.
  unfold value_start. destruct (c =? 93), (c =? 125), (c =? 44);
    rewrite ?andb_false_r; intros H; try discriminate H; auto.
Qed.

(** Scanning what was encoded gives the value back, with enough
    fuel: the length of the text is enough. *)
Lemma scan_encoded (indent : nat) :
  forall fuel : nat,
    (forall v level rest,
       wf_value v = true ->
       (length (iterencode indent level v) <= fuel)%nat ->
       terminated rest = true ->
       scan_value fuel (iterencode indent level v ++ rest) = Some (v, rest))
    /\ (forall x xs level acc rest,
          forallb wf_value (x :: xs) = true ->
          (length (iterencode indent (S level) x ++ enc_items indent level xs)
           < fuel)%nat ->
          scan_elements fuel
            (iterencode indent (S level) x ++ enc_items indent level xs
               ++ newline_indent indent level ++ 93 :: rest) acc
          = Some (VList (acc ++ x :: xs), rest))
    /\ (forall k x kvs level acc rest,
          forallb (fun kv => wf_value (snd kv)) ((k, x) :: kvs) = true ->
          (length (iterencode indent (S level) x
                     ++ enc_members indent level kvs) < fuel)%nat ->
          scan_members fuel
            (encode_basestring k ++ lit ": "
               ++ iterencode indent (S level) x
               ++ enc_members indent level kvs
               ++ newline_indent indent level ++ 125 :: rest) acc
          = Some (VDict (set_all acc ((k, x) :: kvs)), rest)).
Proof.
  induction fuel as [|fuel (IHv & IHe & IHm)].
  { split; [|split; intros; lia].
    intros v level rest _ Hlen _.
    destruct (iterencode_head indent level v) as (c & r & E & _).
    rewrite E in Hlen. cbn [length] in Hlen. lia. }
  split; [|split].
  - (* a value *)
    intros v level rest Hwf Hlen Hrest.
    destruct v as [|[]|z|s|[|x xs]|[|[k x] kvs]]; try reflexivity.
    + (* an integer *)
      cbn [iterencode].
      assert (Hz : exists c r,
                 int_repr z ++ rest = c :: r
                 /\ (c = 45 \/ is_digit c = true)).
      { destruct z as [|p|p]; cbn [int_repr Z.to_N].
        - eexists _, _. split; [reflexivity|right; reflexivity].
        - destruct (decimal_head (N.pos p)) as (c & r & E & _ & Hd); [lia|].
          rewrite E. eexists _, _. split; [reflexivity|right; exact Hd].
        - eexists _, _. split; [reflexivity|left; reflexivity]. }
      destruct Hz as (c & r & E & Hc).
      rewrite E, (scan_value_int fuel c r Hc), <- E.
      apply scan_int_repr, Hrest.
    + (* a string *)
      cbn [iterencode]. rewrite encode_basestring_app.
      cbn [scan_value]. change (34 =? 34) with true. cbv iota.
      rewrite scan_string_encoded. reflexivity.
    + (* a list *)
      rewrite iterencode_list in *. cbn [wf_value] in Hwf.
      cbn [app scan_value]. change (91 =? 34) with false.
      change (91 =? 123) with false. change (91 =? 91) with true. cbv iota.
      rewrite <- !app_assoc, skip_ws_newline_indent, skip_ws_iterencode.
      destruct (iterencode_head indent (S level) x) as (c & r & E & Hc).
      destruct (value_start_tests c Hc) as (H93 & _ & _).
      rewrite E at 1. cbn [app]. rewrite H93.
      change (c :: r ++ ?t) with ((c :: r) ++ t). rewrite <- E.
      cbn [app]. apply (IHe x xs level [] rest Hwf).
      cbn [length] in Hlen. rewrite !length_app in *.
      unfold newline_indent in Hlen. cbn [length] in Hlen. lia.
    + (* a dictionary *)
      rewrite iterencode_dict in *. cbn [wf_value] in Hwf.
      apply andb_true_iff in Hwf as [Hnd%bool_decide_eq_true Hwf].
      apply NoDup_ListNoDup in Hnd.
      cbn [app scan_value]. change (123 =? 34) with false.
      change (123 =? 123) with true. cbv iota.
      rewrite <- !app_assoc, skip_ws_newline_indent.
      rewrite encode_basestring_app.
      rewrite (skip_ws_value_start 34) by reflexivity.
      change (34 =? 125) with false. cbv iota.
      rewrite <- encode_basestring_app.
      change (lit ": " ++ ?t) with (lit ": " ++ t).
      cbn [app]. rewrite (IHm k x kvs level [] rest Hwf).
      * rewrite set_all_fresh by exact Hnd. reflexivity.
      * cbn [length] in Hlen. rewrite !length_app in *.
        unfold newline_indent in Hlen. cbn [length] in Hlen. lia.
  - (* the elements of a list *)
    intros x xs level acc rest Hwf Hlen.
    cbn [forallb] in Hwf. apply andb_true_iff in Hwf as [Hx Hxs].
    cbn [scan_elements].
    rewrite length_app in Hlen.
    rewrite (IHv x (S level) _ Hx) by
      first [lia | apply terminated_items].
    destruct xs as [|y ys].
    + cbn [enc_items flat_map app]. rewrite skip_ws_newline_indent.
      rewrite (skip_ws_head 93) by reflexivity.
      change (93 =? 44) with false. change (93 =? 93) with true.
      reflexivity.
    + rewrite enc_items_cons in *. cbn [app].
      rewrite (skip_ws_head 44) by reflexivity.
      change (44 =? 44) with true. cbv iota.
      rewrite <- !app_assoc, skip_ws_newline_indent, skip_ws_iterencode.
      rewrite (IHe y ys level (acc ++ [x]) rest Hxs).
      * rewrite <- app_assoc. reflexivity.
      * cbn [length] in Hlen. rewrite !length_app in *.
        destruct (iterencode_head indent (S level) x) as (c & r & E & _).
        rewrite E in Hlen. cbn [length] in Hlen. lia.
  - (* the members of a dictionary *)
    intros k x kvs level acc rest Hwf Hlen.
    cbn [forallb snd] in Hwf. apply andb_true_iff in Hwf as [Hx Hkvs].
    rewrite encode_basestring_app. cbn [scan_members].
    change (34 =? 34) with true. cbn [negb]. cbv iota.
    rewrite scan_string_encoded. cbn [rev app].
    change (lit ": ") with [58; 32]. cbn [app].
    rewrite (skip_ws_head 58) by reflexivity.
    change (58 =? 58) with true. cbn [negb]. cbv iota.
    rewrite skip_ws_space.
    rewrite skip_ws_iterencode.
    rewrite length_app in Hlen.
    rewrite (IHv x (S level) _ Hx) by
      first [lia | apply terminated_members].
    destruct kvs as [|[k' y] kvs'].
    + cbn [enc_members flat_map app]. rewrite skip_ws_newline_indent.
      rewrite (skip_ws_head 125) by reflexivity.
      change (125 =? 44) with false. change (125 =? 125) with true.
      reflexivity.
    + rewrite enc_members_cons in *. cbn [app].
      rewrite (skip_ws_head 44) by reflexivity.
      change (44 =? 44) with true. cbv iota.
      rewrite <- !app_assoc, skip_ws_newline_indent.
      rewrite encode_basestring_app.
      rewrite (skip_ws_value_start 34) by reflexivity.
      rewrite <- encode_basestring_app.
      rewrite (IHm k' y kvs' level (dict_set acc k x) rest Hkvs).
      * reflexivity.
      * cbn [length] in Hlen. rewrite !length_app in *.
        destruct (iterencode_head indent (S level) x) as (c & r & E & _).
        rewrite E in Hlen. cbn [length] in Hlen. lia.
Qed.

(** Parsing a dumped value gives the value back. *)
Lemma json_loads_dumps (indent : nat) (v : value) :
  wf_value v = true -> json_loads (json_dumps indent v) = Some v.
Proof.
  intros Hwf. unfold json_loads, json_dumps.
  destruct (scan_encoded indent (S (length (iterencode indent 0 v))))
    as (Hv & _ & _).
  specialize (Hv v 0%nat [] Hwf). rewrite app_nil_r in Hv.
  rewrite <- (app_nil_r (iterencode indent 0 v)) at 2.
  rewrite skip_ws_iterencode, app_nil_r.
  rewrite Hv by first [lia | reflexivity]. reflexivity.
Qed.
End Json.

(** ** Induction on values *)

Lemma value_ind_nested (P : value -> Prop) :
  P VNone -> (forall b, P (VBool b)) -> (forall z, P (VInt z)) ->
  (forall s, P (VStr s)) ->
  (forall l, Forall P l -> P (VList l)) ->
  (forall d, Forall (fun kv => P (snd kv)) d -> P (VDict d)) ->
  forall v, P v.
Proof.
  intros HN HB HI HS HL HD. fix IH 1.
  intros [|b|z|s|l|d]; [exact HN|apply HB|apply HI|apply HS| |].
  - apply HL. induction l as [|x l IHl]; constructor; [apply IH|exact IHl].
  - apply HD. induction d as [|[k x] d IHd]; constructor; [apply IH|exact IHd].
Qed.

(** ** JSON: the layout of what was written *)

Lemma newline_indent_step (level : nat) (l : str) :
  newline_indent 2 (S level) ++ l = newline_indent 2 level ++ indent_line l.
Proof.
  unfold newline_indent, indent_line. cbn [app]. f_equal.
  replace (2 * S level)%nat with (2 * level + 2)%nat by lia.
  rewrite repeat_app, <- app_assoc. reflexivity.
Qed.

Lemma below_indent_line (level : nat) (lines : list str) :
  below level (List.map indent_line lines) = below (S level) lines.
Proof.
  unfold below. induction lines as [|x r IH]; [reflexivity|].
  cbn [List.map flat_map]. rewrite IH, newline_indent_step. reflexivity.
Qed.

Lemma below_app (level : nat) (b1 b2 : list str) :
  below level (b1 ++ b2) = below level b1 ++ below level b2.
Proof. apply flat_map_app. Qed.

Lemma below_render (level : nat) (b : list str) :
  b <> [] -> below level b = newline_indent 2 level ++ render level b.
Proof.
  destruct b as [|x r]; [congruence|]. intros _.
  unfold render, below. cbn [flat_map]. rewrite <- app_assoc. reflexivity.
Qed.

Lemma below_comma_last (level : nat) (b : list str) :
  b <> [] -> below level (comma_last b) = below level b ++ lit ",".
Proof.
  intros Hb. induction b as [|x r IH]; [congruence|].
  destruct r as [|y r].
  - unfold below. cbn [comma_last flat_map]. rewrite !app_nil_r, app_assoc.
    reflexivity.
  - change (comma_last (x :: y :: r)) with (x :: comma_last (y :: r)).
    unfold below in *. cbn [flat_map] in *. rewrite IH by discriminate.
    cbn [flat_map]. rewrite <- !app_assoc. reflexivity.
Qed.

Lemma comma_last_nonempty (b : list str) : b <> [] -> comma_last b <> [].
Proof. destruct b as [|x [|y r]]; [congruence|discriminate|discriminate]. Qed.

Lemma below_separated (level : nat) (b : list str) (r : list (list str)) :
  b <> [] -> Forall (fun b' => b' <> []) r ->
  below level (separated (b :: r))
  = below level b ++ flat_map (fun b' => lit "," ++ below level b') r.
Proof.
  intros Hb Hr. revert b Hb. induction Hr as [|b' r Hb' Hr IH]; intros b Hb.
  - cbn [separated flat_map]. rewrite app_nil_r. reflexivity.
  - change (separated (b :: b' :: r)) with (comma_last b ++ separated (b' :: r)).
    rewrite below_app, below_comma_last, (IH b' Hb') by assumption.
    cbn [flat_map]. rewrite <- !app_assoc. reflexivity.
Qed.

Lemma json_lines_nonempty (v : value) : json_lines v <> [].
Proof. destruct v as [|b|z|s|[|x xs]|[|kv kvs]]; discriminate. Qed.

Lemma prefix_first_nonempty (p : str) (b : list str) : prefix_first p b <> [].
Proof. destruct b; discriminate. Qed.

Lemma render_prefix_first (level : nat) (p : str) (b : list str) :
  b <> [] -> render level (prefix_first p b) = p ++ render level b.
Proof.
  destruct b as [|x r]; [congruence|]. intros _. cbn [prefix_first render].
  rewrite <- app_assoc. reflexivity.
Qed.

Lemma iterencode_json_lines (v : value) :
  forall level, iterencode 2 level v = render level (json_lines v).
Proof.
  induction v as [|b|z|s|l IH|d IH] using value_ind_nested; intros level.
  - reflexivity.
  - destruct b; reflexivity.
  - cbn [iterencode json_lines render below flat_map]. rewrite app_nil_r. reflexivity.
  - cbn [iterencode json_lines render below flat_map]. rewrite app_nil_r. reflexivity.
  - destruct l as [|x xs]; [reflexivity|].
    rewrite iterencode_list.
    change (json_lines (VList (x :: xs)))
      with ([lit "["]
              ++ List.map indent_line
                   (separated (List.map json_lines (x :: xs)))
              ++ [lit "]"]).
    cbn [app render]. rewrite below_app, below_indent_line.
    cbn [List.map]. rewrite below_separated.
    2: apply json_lines_nonempty.
    2: { apply List.Forall_map, Forall_forall. intros y _.
         apply json_lines_nonempty. }
    rewrite below_render by apply json_lines_nonempty.
    apply Forall_cons_1 in IH as [Hx Hxs]. rewrite <- Hx.
    change (lit "[") with [91%N]. cbn [app]. f_equal.
    rewrite <- !app_assoc. f_equal. f_equal.
    unfold below at 2. cbn [flat_map]. rewrite app_nil_r.
    change (lit "]") with [93%N]. f_equal.
    clear Hx. induction xs as [|y ys IHys]; [reflexivity|].
    apply Forall_cons_1 in Hxs as [Hy Hys].
    rewrite enc_items_cons. cbn [List.map flat_map].
    rewrite below_render by apply json_lines_nonempty.
    rewrite <- Hy, <- (IHys Hys). change (lit ",") with [44%N].
    cbn [app]. rewrite <- !app_assoc. reflexivity.
  - destruct d as [|[k x] kvs]; [reflexivity|].
    rewrite iterencode_dict.
    change (json_lines (VDict ((k, x) :: kvs)))
      with ([lit "{"]
              ++ List.map indent_line
                   (separated
                      (List.map
                         (fun kv =>
                            prefix_first (encode_basestring (fst kv) ++ lit ": ")
                              (json_lines (snd kv)))
                         ((k, x) :: kvs)))
              ++ [lit "}"]).
    cbn [app render]. rewrite below_app, below_indent_line.
    cbn [List.map fst snd]. rewrite below_separated.
    2: apply prefix_first_nonempty.
    2: { apply List.Forall_map, Forall_forall. intros y _.
         apply prefix_first_nonempty. }
    rewrite below_render by apply prefix_first_nonempty.
    rewrite render_prefix_first by apply json_lines_nonempty.
    apply Forall_cons_1 in IH as [Hx Hxs]. cbn [snd] in Hx. rewrite <- Hx.
    change (lit "{") with [123%N]. cbn [app]. f_equal.
    rewrite <- !app_assoc. f_equal. f_equal. f_equal. f_equal.
    unfold below at 2. cbn [flat_map]. rewrite app_nil_r.
    change (lit "}") with [125%N]. f_equal.
    clear Hx. induction kvs as [|[k' y] ys IHys]; [reflexivity|].
    apply Forall_cons_1 in Hxs as [Hy Hys]. cbn [snd] in Hy.
    rewrite enc_members_cons. cbn [List.map flat_map fst snd].
    rewrite below_render by apply prefix_first_nonempty.
    rewrite render_prefix_first by apply json_lines_nonempty.
    rewrite <- Hy, <- (IHys Hys). change (lit ",") with [44%N].
    cbn [app]. rewrite <- !app_assoc. reflexivity.
Qed.

Lemma json_dumps_json_lines (v : value) :
  json_dumps 2 v = join_lines (json_lines v).
Proof.
  unfold json_dumps. rewrite iterencode_json_lines.
  destruct (json_lines v); reflexivity.
Qed.

(** ** Dictionaries *)

Lemma dict_get_set_eq (d : dict) k v :
  dict_get (dict_set d k v) k = Some v.
Proof.
  induction d as [|[k' v'] d IH]; cbn [dict_set dict_get].
  - rewrite decide_True by reflexivity. reflexivity.
  - destruct (decide (k' = k)) as [->|Hne]; cbn [dict_get].
    + rewrite decide_True by reflexivity. reflexivity.
    + rewrite decide_False by assumption. exact IH.
Qed.

Lemma dict_get_set_ne (d : dict) k k' v :
  k <> k' -> dict_get (dict_set d k' v) k = dict_get d k.
Proof.
  intros Hne. induction d as [|[k0 v0] d IH]; cbn [dict_set dict_get].
  - rewrite decide_False by congruence. reflexivity.
  - destruct (decide (k0 = k')) as [->|Hne']; cbn [dict_get].
    + rewrite !decide_False by congruence. reflexivity.
    + destruct (decide (k0 = k)); [reflexivity|exact IH].
Qed.

Lemma keys_dict_set (d : dict) k v :
  keys (dict_set d k v) = if decide (k ∈ keys d) then keys d else keys d ++ [k].
Proof.
  unfold keys. induction d as [|[k' v'] d IH]; cbn [dict_set List.map fst].
  - rewrite decide_False by (intros H; inversion H). reflexivity.
  - destruct (decide (k' = k)) as [->|Hne]; cbn [List.map fst].
    + rewrite decide_True by constructor. reflexivity.
    + rewrite IH. destruct (decide (k ∈ List.map fst d)) as [E|E].
      * rewrite decide_True by (constructor; exact E). reflexivity.
      * rewrite decide_False; [reflexivity|].
        intros H. inversion H; subst; tauto.
Qed.

Lemma keys_dict_set_incl (d : dict) k v k0 :
  In k0 (keys d) -> In k0 (keys (dict_set d k v)).
Proof.
  intros H. rewrite keys_dict_set.
  destruct (decide _); [exact H|apply in_or_app; left; exact H].
Qed.

Lemma dict_get_Some_key (d : dict) k v :
  dict_get d k = Some v -> In k (keys d).
Proof.
  unfold keys. induction d as [|[k' v'] d IH]; cbn [dict_get List.map fst In].
  - discriminate.
  - destruct (decide (k' = k)); [left; assumption|right; auto].
Qed.

Lemma dict_get_None_key (d : dict) k :
  dict_get d k = None <-> ~ In k (keys d).
Proof.
  unfold keys. induction d as [|[k' v'] d IH]; cbn [dict_get List.map fst In].
  - tauto.
  - destruct (decide (k' = k)); [split; [discriminate|tauto]|].
    rewrite IH. tauto.
Qed.

(** Setting an item of a well-formed dictionary to a well-formed value
    leaves it well-formed. *)
Lemma wf_dict_set (d : dict) k v :
  wf_value (VDict d) = true -> wf_value v = true ->
  wf_value (VDict (dict_set d k v)) = true.
Proof.
  cbn [wf_value]. intros [Hnd Hall]%andb_true_iff Hv.
  apply bool_decide_eq_true in Hnd. apply andb_true_intro. split.
  - apply bool_decide_eq_true. fold (keys (dict_set d k v)).
    rewrite keys_dict_set. fold (keys d) in Hnd.
    destruct (decide (k ∈ keys d)) as [E|E]; [exact Hnd|].
    apply NoDup_app. split; [exact Hnd|]. split.
    + intros x Hx Hk. apply list_elem_of_singleton in Hk. subst x. exact (E Hx).
    + apply NoDup_singleton.
  - clear Hnd. induction d as [|[k' v'] d IH]; cbn [dict_set forallb snd].
    + rewrite Hv. reflexivity.
    + cbn [forallb snd] in Hall. apply andb_true_iff in Hall as [H1 H2].
      destruct (decide (k' = k)); cbn [forallb snd].
      * rewrite Hv, H2. reflexivity.
      * rewrite H1, (IH H2). reflexivity.
Qed.

Lemma wf_summary_value (answer : outcome (option str)) :
  wf_value (summary_value answer) = true.
Proof. destruct answer as [[text|]|e]; reflexivity. Qed.

Lemma wf_persisted d summary now :
  wf_value (VDict d) = true -> wf_value summary = true ->
  wf_value (VDict (persisted d summary now)) = true.
Proof.
  intros Hd Hs. unfold persisted.
  apply wf_dict_set; [apply wf_dict_set; assumption|reflexivity].
Qed.

(** ** The persister, seen from outside *)

Lemma dict_get_persisted_other d summary now k :
  k <> lit "request_summary" -> k <> lit "metadata" ->
  dict_get (persisted d summary now) k = dict_get d k.
Proof.
  intros H1 H2. unfold persisted.
  rewrite !dict_get_set_ne by assumption. reflexivity.
Qed.

Lemma dict_get_persisted_metadata d summary now :
  dict_get (persisted d summary now) (lit "metadata") = Some (metadata_of now).
Proof. unfold persisted. apply dict_get_set_eq. Qed.

Lemma dict_get_persisted_summary d summary now :
  dict_get (persisted d summary now) (lit "request_summary") = Some summary.
Proof.
  unfold persisted. rewrite dict_get_set_ne by discriminate.
  apply dict_get_set_eq.
Qed.

Lemma succeeded_save_failure e : succeeded (Returns (save_failure e)) = false.
Proof. reflexivity. Qed.

Lemma succeeded_save_success f t n :
  succeeded (Returns (save_success f t n)) = true.
Proof. reflexivity. Qed.

Lemma str_error_default (o : oracle) (found : option value) :
  str_error o (default (VStr (lit "unknown")) found) = component_error o found.
Proof. destruct found; reflexivity. Qed.

Lemma shown_in_default (o : oracle) (found : option value) :
  shown_in o (default (VStr (lit "unknown")) found) = component o found.
Proof. destruct found; reflexivity. Qed.

(** The final state of a call: the clock was read twice, the service
    called unless [str] raised, one file opened, two lines printed, and
    the caller's mapping replaced by the record. *)
Lemma save_analytics_request_state (l : loc) (w : world) :
  let w' := snd (save_analytics_request l w) in
  w_oracle w' = w_oracle w /\ w_ticks w' = S (S (w_ticks w))
  /\ w_calls w' = calls_after w (heap_get (w_heap w) l)
  /\ w_opens w' = S (w_opens w)
  /\ w_stdout w' = w_stdout w ++ save_log
  /\ w_heap w' = <[l := record_of l w]> (w_heap w).
Proof.
  cbv zeta. rewrite save_analytics_request_run. cbv zeta.
  repeat match goal with
         | |- context [match ?x with _ => _ end] => destruct x
         end; repeat split.
Qed.

(** What a call returns. *)
Lemma save_analytics_request_result (l : loc) (w : world) :
  let o := w_oracle w in
  let f := File (filename_of w) (w_opens w) in
  let text := json_dumps 2 (VDict (record_of l w)) in
  fst (save_analytics_request l w)
  = Returns
      match o_open_error o (w_opens w) (filename_of w) with
      | Some e => save_failure e
      | None =>
          match o_write_error o f with
          | Some e => save_failure e
          | None =>
              match utf8_encode text with
              | None => save_failure (o_encode_error o text)
              | Some _ =>
                  short_summary_result o (filename_of w)
                    (heap_get (w_heap w) l)
              end
          end
      end.
Proof.
  cbv zeta. rewrite save_analytics_request_run. cbv zeta.
  unfold filename_of, record_of, short_summary_result, requester.
  rewrite !dict_get_persisted_other by discriminate.
  rewrite str_error_default, shown_in_default.
  destruct (o_open_error _ _ _); [reflexivity|].
  destruct (o_write_error _ _); [reflexivity|].
  destruct (utf8_encode _); [|reflexivity].
  destruct (component_error _ (dict_get _ (lit "request_type")));
    [reflexivity|].
  destruct (dict_get _ (lit "basic_info")) as [[]|];
    cbn [from_option id fst]; try reflexivity.
  rewrite str_error_default, shown_in_default.
  destruct (component_error _ _); reflexivity.
Qed.

Lemma save_analytics_request_returns (l : loc) (w : world) :
  exists v, fst (save_analytics_request l w) = Returns v.
Proof. rewrite save_analytics_request_result. eexists. reflexivity. Qed.

Lemma succeeded_short_summary_result (o : oracle) (filename : str) (d : dict) :
  succeeded (Returns (short_summary_result o filename d))
  = basic_info_usable d && short_summary_prints o d.
Proof.
  unfold short_summary_result, basic_info_usable, short_summary_prints,
    requester.
  destruct (component_error _ (dict_get _ (lit "request_type")));
    destruct (dict_get d (lit "basic_info")) as [[]|]; try reflexivity;
    destruct (component_error _ _); reflexivity.
Qed.

Lemma save_analytics_request_succeeded (l : loc) (w : world) :
  succeeded (fst (save_analytics_request l w))
  = write_goes_through l w && basic_info_usable (heap_get (w_heap w) l)
    && short_summary_prints (w_oracle w) (heap_get (w_heap w) l).
Proof.
  rewrite save_analytics_request_result. cbv zeta.
  unfold write_goes_through.
  destruct (o_open_error _ _ _); [reflexivity|].
  destruct (o_write_error _ _); [reflexivity|].
  destruct (utf8_encode _); [|reflexivity].
  rewrite succeeded_short_summary_result. reflexivity.
Qed.

Lemma save_analytics_request_written (l : loc) (w : world) :
  write_goes_through l w = true ->
  exists content,
    utf8_encode (json_dumps 2 (VDict (record_of l w))) = Some content
    /\ w_fs (snd (save_analytics_request l w))
       = <[filename_of w := content]> (w_fs w).
Proof.
  rewrite save_analytics_request_run. cbv zeta.
  unfold write_goes_through, filename_of, record_of.
  destruct (o_open_error _ _ _); [discriminate|].
  destruct (o_write_error _ _); [discriminate|].
  destruct (utf8_encode _) as [content|]; [|discriminate].
  intros _. exists content. split; [reflexivity|].
  destruct (str_error _ _); [reflexivity|].
  destruct (default (VDict []) _); try reflexivity.
  destruct (str_error _ _); reflexivity.
Qed.

Lemma save_analytics_request_success (l : loc) (w : world) :
  succeeded (fst (save_analytics_request l w)) = true ->
  fst (save_analytics_request l w)
  = Returns
      (save_success (filename_of w)
         (component (w_oracle w)
            (dict_get (heap_get (w_heap w) l) (lit "request_type")))
         (component (w_oracle w) (requester (heap_get (w_heap w) l)))).
Proof.
  rewrite save_analytics_request_result. cbv zeta.
  destruct (o_open_error _ _ _); [discriminate|].
  destruct (o_write_error _ _); [discriminate|].
  destruct (utf8_encode _); [|discriminate].
  unfold short_summary_result.
  destruct (component_error _ (dict_get _ (lit "request_type")));
    [discriminate|].
  destruct (dict_get _ (lit "basic_info")) as [[]|]; try discriminate;
    destruct (component_error _ _); try discriminate; reflexivity.
Qed.

Lemma succeeded_write_goes_through (l : loc) (w : world) :
  succeeded (fst (save_analytics_request l w)) = true ->
  write_goes_through l w = true.
Proof.
  rewrite save_analytics_request_succeeded.
  intros [[H _]%andb_true_iff _]%andb_true_iff. exact H.
Qed.

(** ** The persister: the claims *)

Lemma request_filename_same_second (d1 d2 : datetime) :
  same_second d1 d2 = true -> request_filename d1 = request_filename d2.
Proof.
  unfold same_second. rewrite !andb_true_iff, !N.eqb_eq.
  intros (((((Hy & Hm) & Hd) & Hh) & Hmi) & Hs).
  unfold request_filename, strftime_Ymd_HMS. congruence.
Qed.

Lemma request_filename_truncate (d : datetime) :
  request_filename d = request_filename (truncate_to_second d).
Proof. reflexivity. Qed.

Lemma file_path_of_success (r : outcome value) f t n :
  r = Returns (save_success f t n) -> file_path_of r = Some f.
Proof. intros ->. reflexivity. Qed.

(** C2, amended: a successful persist call writes, at the returned
    [file_path], a document that parses back to a mapping with every key
    of the input; a key other than [request_summary] and [metadata] has
    the value supplied, [request_summary] has the result of the
    summarization step, and [metadata] is the mapping of [created_at],
    the reading of the clock in ISO-8601 format, and [status],
    ["pending_review"], and nothing else.  The file is the UTF-8
    encoding of the JSON text; the text is laid out in lines with an
    indentation of two spaces for each level of nesting, a character
    outside ASCII stands for itself in it, and it replaces whatever the
    file held. *)
Theorem save_writes_the_record (l : loc) (w : world) :
  let d := heap_get (w_heap w) l in
  let now := o_clock (w_oracle w) (S (w_ticks w)) in
  let result := save_analytics_request l w in
  wf_value (VDict d) = true ->
  valid_datetime now = true ->
  succeeded (fst result) = true ->
  exists content record,
    file_path_of (fst result) = Some (filename_of w)
    /\ w_fs (snd result) = <[filename_of w := content]> (w_fs w)
    /\ utf8_encode (json_dumps 2 (VDict record)) = Some content
    /\ json_load content = Some (VDict record)
    /\ (forall k, In k (keys d) -> In k (keys record))
    /\ (forall k, k <> lit "request_summary" -> k <> lit "metadata" ->
                  dict_get record k = dict_get d k)
    /\ dict_get record (lit "request_summary")
       = Some (summary_value (next_answer w d))
    /\ dict_get record (lit "metadata")
       = Some (VDict [(lit "created_at", VStr (isoformat now));
                      (lit "status", VStr (lit "pending_review"))])
    /\ fromisoformat (isoformat now) = Some now
    /\ json_dumps 2 (VDict record) = join_lines (json_lines (VDict record))
    /\ (forall c, (128 <= c)%N -> escape_char c = [c]).
Proof.
  intros d now result Hwf Hnow Hok.
  pose proof (save_analytics_request_success l w Hok) as Hres.
  subst result. apply succeeded_write_goes_through in Hok as Hw.
  destruct (save_analytics_request_written l w Hw) as (content & Henc & Hfs).
  exists content, (record_of l w).
  split; [eapply file_path_of_success, Hres|].
  split; [exact Hfs|]. split; [exact Henc|].
  assert (Hwf' : wf_value (VDict (record_of l w)) = true).
  { apply wf_persisted; [exact Hwf|apply wf_summary_value]. }
  split.
  { unfold json_load. rewrite (utf8_decode_encode _ _ Henc).
    apply json_loads_dumps, Hwf'. }
  split.
  { intros k Hk. unfold record_of, persisted.
    apply keys_dict_set_incl, keys_dict_set_incl, Hk. }
  split; [intros k H1 H2; apply dict_get_persisted_other; assumption|].
  split; [apply dict_get_persisted_summary|].
  split; [apply dict_get_persisted_metadata|].
  split; [apply fromisoformat_isoformat, Hnow|].
  split; [apply json_dumps_json_lines|].
  intros c Hc. unfold escape_char.
  repeat match goal with
         | |- context [N.eqb c ?k] =>
             replace (N.eqb c k) with false by (symmetry; apply N.eqb_neq; lia)
         end.
  replace (N.ltb c 32) with false by (symmetry; apply N.ltb_ge; lia).
  reflexivity.
Qed.

Lemma save_writes_the_record_witness :
  let d := heap_get (w_heap request_world) 1%positive in
  let now := o_clock (w_oracle request_world) (S (w_ticks request_world)) in
  let result := save_analytics_request 1%positive request_world in
  exists content record,
    file_path_of (fst result) = Some (filename_of request_world)
    /\ w_fs (snd result)
       = <[filename_of request_world := content]> (w_fs request_world)
    /\ utf8_encode (json_dumps 2 (VDict record)) = Some content
    /\ json_load content = Some (VDict record)
    /\ (forall k, In k (keys d) -> In k (keys record))
    /\ (forall k, k <> lit "request_summary" -> k <> lit "metadata" ->
                  dict_get record k = dict_get d k)
    /\ dict_get record (lit "request_summary")
       = Some (summary_value (next_answer request_world d))
    /\ dict_get record (lit "metadata")
       = Some (VDict [(lit "created_at", VStr (isoformat now));
                      (lit "status", VStr (lit "pending_review"))])
    /\ fromisoformat (isoformat now) = Some now
    /\ json_dumps 2 (VDict record) = join_lines (json_lines (VDict record))
    /\ (forall c, (128 <= c)%N -> escape_char c = [c]).
Proof.
  exact (save_writes_the_record 1%positive request_world
           eq_refl eq_refl eq_refl).
Defined.

(** C2 as stated fails: the call succeeds, the input supplied a
    [metadata] with a session identifier, and the file parses back to a
    record whose [metadata] does not have it. *)
Lemma save_loses_supplied_metadata :
  let result := save_analytics_request 1%positive request_world in
  let path := lit "analytics_request_20250714_093000.json" in
  succeeded (fst result) = true
  /\ file_path_of (fst result) = Some path
  /\ dict_get (heap_get (w_heap request_world) 1%positive) (lit "metadata")
     = Some (VDict [(lit "session_id", VStr (lit "session_abc123"))])
  /\ json_load (default [] (w_fs (snd result) !! path))
     = Some (VDict
               [(lit "basic_info",
                 VDict [(lit "name", VStr [90; 111; 235]%N)]);
                (lit "request_type", VStr (lit "reports"));
                (lit "metadata",
                 VDict [(lit "created_at",
                         VStr (lit "2025-07-14T09:30:01.250000"));
                        (lit "status", VStr (lit "pending_review"))]);
                (lit "request_summary", VStr (lit "A summary."))]).
Proof. vm_compute. repeat split. Qed.

(** The lines of a small document, as specified. *)
Example json_lines_example :
  json_lines
    (VDict [(lit "request_type", VStr (lit "reports"));
            (lit "metrics", VList [VStr (lit "revenue"); VInt 3; VList []]);
            (lit "basic_info", VDict [(lit "name", VStr (lit "Ann"))]);
            (lit "request_summary", VNone)])
  = List.map (fun line =>
                List.map (fun c => if (c =? 39)%N then 34%N else c) (lit line))
      ["{";
       "  'request_type': 'reports',";
       "  'metrics': [";
       "    'revenue',";
       "    3,";
       "    []";
       "  ],";
       "  'basic_info': {";
       "    'name': 'Ann'";
       "  },";
       "  'request_summary': null";
       "}"]%string.
Proof. vm_compute. reflexivity. Qed.

(** The file of the example: two spaces for each level, the name as it
    is, in UTF-8, and the metadata of the call in place of the metadata
    supplied. *)
Example save_example_file :
  w_fs (snd (save_analytics_request 1%positive request_world))
    !! lit "analytics_request_20250714_093000.json"
  = Some (file_text "{
  'basic_info': {
    'name': 'Zoë'
  },
  'request_type': 'reports',
  'metadata': {
    'created_at': '2025-07-14T09:30:01.250000',
    'status': 'pending_review'
  },
  'request_summary': 'A summary.'
}").
Proof. vm_compute. reflexivity. Qed.

(** C5: the file name is [analytics_request_<YYYYMMDD_HHMMSS>.json], made
    from the reading of the local clock without its fraction of a
    second; two successful calls whose readings fall in the same second
    return the same name, the first file is written and then replaced,
    and what the file holds in the end is the record of the second
    call. *)
Theorem save_twice_in_one_second (l1 l2 : loc) (w : world) :
  let first := save_analytics_request l1 w in
  let second := save_analytics_request l2 (snd first) in
  let now1 := o_clock (w_oracle w) (w_ticks w) in
  let now2 := o_clock (w_oracle w) (S (S (w_ticks w))) in
  succeeded (fst first) = true ->
  succeeded (fst second) = true ->
  same_second now1 now2 = true ->
  exists content1 content2,
    file_path_of (fst first) = Some (request_filename now1)
    /\ file_path_of (fst second) = Some (request_filename now1)
    /\ request_filename now1
       = lit "analytics_request_"
           ++ strftime_Ymd_HMS (truncate_to_second now1) ++ lit ".json"
    /\ (valid_datetime now1 = true -> (1000 <= year now1)%N ->
        strptime_Ymd_HMS (strftime_Ymd_HMS now1)
        = Some (truncate_to_second now1))
    /\ w_fs (snd first) !! request_filename now1 = Some content1
    /\ utf8_encode (json_dumps 2 (VDict (heap_get (w_heap (snd first)) l1)))
       = Some content1
    /\ w_fs (snd second) !! request_filename now1 = Some content2
    /\ utf8_encode (json_dumps 2 (VDict (heap_get (w_heap (snd second)) l2)))
       = Some content2.
Proof.
  intros first second now1 now2 Hok1 Hok2 Hsame.
  pose proof (save_analytics_request_success l1 w Hok1) as Hres1.
  pose proof (save_analytics_request_success l2 (snd first) Hok2) as Hres2.
  subst first second.
  apply succeeded_write_goes_through in Hok1 as Hw1.
  apply succeeded_write_goes_through in Hok2 as Hw2.
  destruct (save_analytics_request_written l1 w Hw1) as (c1 & Henc1 & Hfs1).
  destruct (save_analytics_request_written l2 _ Hw2) as (c2 & Henc2 & Hfs2).
  destruct (save_analytics_request_state l1 w)
    as (Ho1 & Ht1 & _ & _ & _ & Hh1).
  destruct (save_analytics_request_state l2 (snd (save_analytics_request l1 w)))
    as (_ & _ & _ & _ & _ & Hh2).
  assert (Hname : filename_of (snd (save_analytics_request l1 w))
                  = request_filename now1).
  { unfold filename_of. rewrite Ho1, Ht1. symmetry.
    apply request_filename_same_second, Hsame. }
  rewrite Hname in *.
  exists c1, c2.
  split; [eapply file_path_of_success, Hres1|].
  split; [eapply file_path_of_success, Hres2|].
  split; [reflexivity|].
  split; [apply strptime_strftime|].
  split; [rewrite Hfs1; apply lookup_insert_eq|].
  split; [rewrite Hh1, heap_get_insert; exact Henc1|].
  split; [rewrite Hfs2; apply lookup_insert_eq|].
  rewrite Hh2, heap_get_insert. exact Henc2.
Qed.

Lemma save_twice_in_one_second_witness :
  let w := busy_second_world in
  let first := save_analytics_request 1%positive w in
  let second := save_analytics_request 2%positive (snd first) in
  let now1 := o_clock (w_oracle w) (w_ticks w) in
  exists content1 content2,
    file_path_of (fst first) = Some (request_filename now1)
    /\ file_path_of (fst second) = Some (request_filename now1)
    /\ request_filename now1
       = lit "analytics_request_"
           ++ strftime_Ymd_HMS (truncate_to_second now1) ++ lit ".json"
    /\ (valid_datetime now1 = true -> (1000 <= year now1)%N ->
        strptime_Ymd_HMS (strftime_Ymd_HMS now1)
        = Some (truncate_to_second now1))
    /\ w_fs (snd first) !! request_filename now1 = Some content1
    /\ utf8_encode
         (json_dumps 2 (VDict (heap_get (w_heap (snd first)) 1%positive)))
       = Some content1
    /\ w_fs (snd second) !! request_filename now1 = Some content2
    /\ utf8_encode
         (json_dumps 2 (VDict (heap_get (w_heap (snd second)) 2%positive)))
       = Some content2.
Proof.
  exact (save_twice_in_one_second 1%positive 2%positive busy_second_world
           eq_refl eq_refl eq_refl).
Defined.

(** After the two calls of the example only the second record is on
    disk. *)
Example save_twice_last_write_wins :
  let first := save_analytics_request 1%positive busy_second_world in
  let second := save_analytics_request 2%positive (snd first) in
  w_fs (snd first) !! lit "analytics_request_20250714_093000.json"
  = Some (file_text "{
  'request_type': 'reports',
  'request_summary': 'A summary.',
  'metadata': {
    'created_at': '2025-07-14T09:30:00.100000',
    'status': 'pending_review'
  }
}")
  /\ w_fs (snd second) !! lit "analytics_request_20250714_093000.json"
     = Some (file_text "{
  'request_type': 'dashboard',
  'request_summary': 'A summary.',
  'metadata': {
    'created_at': '2025-07-14T09:30:00.300000',
    'status': 'pending_review'
  }
}")
  /\ size (w_fs (snd second)) = 1%nat.
Proof. vm_compute. repeat split. Qed.

(** C9: a successful persist call returns [status], [message],
    [file_path] and [summary], the last being
    ["Request type: <request_type>, Requester: <basic_info.name>"]; a
    missing [request_type], [basic_info] or [name] is replaced by
    ["unknown"], and does not keep the call from succeeding: once the
    file is written the call succeeds unless [basic_info] is not a
    mapping or a component cannot be turned into text, which a missing
    component and a string always can. *)
Theorem save_short_summary (l : loc) (w : world) :
  let o := w_oracle w in
  let d := heap_get (w_heap w) l in
  let result := fst (save_analytics_request l w) in
  let request_type := component o (dict_get d (lit "request_type")) in
  let name := component o (requester d) in
  (succeeded result = true ->
   result
   = Returns
       (VDict [(lit "status", VStr (lit "success"));
               (lit "message",
                VStr (lit "Analytics request saved successfully to "
                        ++ filename_of w));
               (lit "file_path", VStr (filename_of w));
               (lit "summary",
                VStr (lit "Request type: " ++ request_type
                        ++ lit ", Requester: " ++ name))]))
  /\ (dict_get d (lit "request_type") = None -> request_type = lit "unknown")
  /\ (requester d = None -> name = lit "unknown")
  /\ (write_goes_through l w = true -> basic_info_usable d = true ->
      component_error o (dict_get d (lit "request_type")) = None ->
      component_error o (requester d) = None ->
      succeeded result = true)
  /\ (forall found,
        found = None \/ (exists s, found = Some (VStr s)) ->
        component_error o found = None).
Proof.
  intros o d result request_type name. split; [|split; [|split; [|split]]].
  - intros Hok. apply (save_analytics_request_success l w Hok).
  - subst request_type. intros ->. reflexivity.
  - subst name. intros ->. reflexivity.
  - intros Hw Hb H1 H2. subst result d o.
    rewrite save_analytics_request_succeeded, Hw, Hb.
    unfold short_summary_prints. rewrite H1, H2. reflexivity.
  - intros found [->|[s ->]]; reflexivity.
Qed.

Lemma save_short_summary_witness :
  fst (save_analytics_request 1%positive bare_world)
  = Returns
      (VDict [(lit "status", VStr (lit "success"));
              (lit "message",
               VStr (lit "Analytics request saved successfully to analytics_request_20250714_093000.json"));
              (lit "file_path",
               VStr (lit "analytics_request_20250714_093000.json"));
              (lit "summary",
               VStr (lit "Request type: unknown, Requester: unknown"))]).
Proof.
  exact (proj1 (save_short_summary 1%positive bare_world) eq_refl).
Defined.

(** A [basic_info] that is not a mapping: the file is written, and the
    call returns the error result all the same. *)
Example save_basic_info_not_a_mapping :
  let w := World (w_oracle bare_world) 0 0 0 []
                 {[ 1%positive := [(lit "basic_info", VStr (lit "Ann"))] ]} ∅ in
  let result := save_analytics_request 1%positive w in
  fst result
  = Returns
      (VDict [(lit "status", VStr (lit "error"));
              (lit "message",
               VStr (lit "Failed to save request: 'str' object has no attribute 'get'"))])
  /\ is_Some (w_fs (snd result)
                !! lit "analytics_request_20250714_093000.json").
Proof. vm_compute. split; [reflexivity|eexists; reflexivity]. Qed.

(** C4: when the text-generation call raises (or [str], before it), the
    summarization step returns the mapping [status: "error"], [message:
    "Failed to generate summary: <cause>"]; persist stores it under
    [request_summary] and goes on: the file is opened, the write puts
    the record with that mapping in the file, and the outcome is
    decided by the write and the derivation of the short summary as it
    is after any other summary. *)
Theorem summary_failure_is_stored (l : loc) (w : world) (e : exn) :
  let d := heap_get (w_heap w) l in
  let failure :=
    VDict [(lit "status", VStr (lit "error"));
           (lit "message",
            VStr (lit "Failed to generate summary: " ++ exn_str e))] in
  let result := save_analytics_request l w in
  next_answer w d = Raises e ->
  fst (summarize_analytics_request l w) = Returns failure
  /\ dict_get (heap_get (w_heap (snd result)) l) (lit "request_summary")
     = Some failure
  /\ w_opens (snd result) = S (w_opens w)
  /\ succeeded (fst result)
     = write_goes_through l w && basic_info_usable d
       && short_summary_prints (w_oracle w) d
  /\ (write_goes_through l w = true ->
      exists content,
        w_fs (snd result) !! filename_of w = Some content
        /\ utf8_encode
             (json_dumps 2 (VDict (heap_get (w_heap (snd result)) l)))
           = Some content).
Proof.
  intros d failure result Hraise. subst result.
  destruct (save_analytics_request_state l w) as (_ & _ & _ & Hop & _ & Hh).
  assert (Hrec : heap_get (w_heap (snd (save_analytics_request l w))) l
                 = record_of l w).
  { rewrite Hh. apply heap_get_insert. }
  split.
  { rewrite summarize_analytics_request_run. fold d. rewrite Hraise.
    reflexivity. }
  split.
  { rewrite Hrec. unfold record_of. fold d. rewrite Hraise.
    apply dict_get_persisted_summary. }
  split; [exact Hop|].
  split; [apply save_analytics_request_succeeded|].
  intros Hw. destruct (save_analytics_request_written l w Hw)
    as (content & Henc & Hfs).
  exists content. split; [rewrite Hfs; apply lookup_insert_eq|].
  rewrite Hrec. exact Henc.
Qed.

Lemma summary_failure_is_stored_witness :
  let w := outage_world in
  let failure :=
    VDict [(lit "status", VStr (lit "error"));
           (lit "message",
            VStr (lit "Failed to generate summary: 503 UNAVAILABLE"))] in
  let result := save_analytics_request 1%positive w in
  fst (summarize_analytics_request 1%positive w) = Returns failure
  /\ dict_get (heap_get (w_heap (snd result)) 1%positive)
       (lit "request_summary")
     = Some failure
  /\ w_opens (snd result) = S (w_opens w)
  /\ succeeded (fst result)
     = write_goes_through 1%positive w
       && basic_info_usable (heap_get (w_heap w) 1%positive)
       && short_summary_prints (w_oracle w) (heap_get (w_heap w) 1%positive)
  /\ (write_goes_through 1%positive w = true ->
      exists content,
        w_fs (snd result) !! filename_of w = Some content
        /\ utf8_encode
             (json_dumps 2
                (VDict (heap_get (w_heap (snd result)) 1%positive)))
           = Some content).
Proof.
  exact (summary_failure_is_stored 1%positive outage_world outage eq_refl).
Defined.

(** The file written while the service is down. *)
Example save_during_outage :
  let result := save_analytics_request 1%positive outage_world in
  succeeded (fst result) = true
  /\ w_fs (snd result) !! lit "analytics_request_20250714_093000.json"
     = Some (file_text "{
  'request_summary': {
    'status': 'error',
    'message': 'Failed to generate summary: 503 UNAVAILABLE'
  },
  'metadata': {
    'created_at': '2025-07-14T09:30:01.250000',
    'status': 'pending_review'
  }
}").
Proof. vm_compute. split; reflexivity. Qed.

(** C3, amended: persist never raises.  An exception of the file write
    (opening, encoding, writing) or of the derivation of the short
    summary (a component that cannot be turned into text, a
    [basic_info] without [get]) is returned as [status: "error"],
    [message: "Failed to save request: <cause>"]; an exception of the
    summarization step is not: the step has caught it, and the call goes
    on. *)
Theorem save_never_raises (l : loc) (w : world) :
  let o := w_oracle w in
  let d := heap_get (w_heap w) l in
  let f := File (filename_of w) (w_opens w) in
  let text := json_dumps 2 (VDict (record_of l w)) in
  let failure (e : exn) :=
    VDict [(lit "status", VStr (lit "error"));
           (lit "message", VStr (lit "Failed to save request: " ++ exn_str e))] in
  exists v w',
    save_analytics_request l w = (Returns v, w')
    /\ v = match o_open_error o (w_opens w) (filename_of w) with
           | Some e => failure e
           | None =>
               match o_write_error o f with
               | Some e => failure e
               | None =>
                   match utf8_encode text with
                   | None => failure (o_encode_error o text)
                   | Some _ =>
                       match component_error o
                               (dict_get d (lit "request_type")) with
                       | Some e => failure e
                       | None =>
                           match dict_get d (lit "basic_info") with
                           | None | Some (VDict _) =>
                               match component_error o (requester d) with
                               | Some e => failure e
                               | None =>
                                   save_success (filename_of w)
                                     (component o
                                        (dict_get d (lit "request_type")))
                                     (component o (requester d))
                               end
                           | Some other =>
                               failure (AttributeError other (lit "get"))
                           end
                       end
                   end
               end
           end.
Proof.
  cbv zeta. pose proof (save_analytics_request_result l w) as H.
  cbv zeta in H. destruct (save_analytics_request l w) as [r w'].
  cbn [fst] in H. subst r. eexists _, _. split; reflexivity.
Qed.

(** C3 as stated fails: the service raises during summarization, and the
    call does not return the error result: it returns success. *)
Lemma save_succeeds_during_outage :
  o_generate (w_oracle outage_world) 0 default_model
    (summary_prompt (o_repr (w_oracle outage_world) (VDict [])))
  = Raises outage
  /\ fst (save_analytics_request 1%positive outage_world)
     = Returns
         (VDict [(lit "status", VStr (lit "success"));
                 (lit "message",
                  VStr (lit "Analytics request saved successfully to analytics_request_20250714_093000.json"));
                 (lit "file_path",
                  VStr (lit "analytics_request_20250714_093000.json"));
                 (lit "summary",
                  VStr (lit "Request type: unknown, Requester: unknown"))]).
Proof. split; reflexivity. Qed.

Lemma heap_after_save (l : loc) (w : world) :
  heap_get (w_heap (snd (save_analytics_request l w))) l = record_of l w.
Proof.
  destruct (save_analytics_request_state l w) as (_ & _ & _ & _ & _ & ->).
  apply heap_get_insert.
Qed.

Lemma record_of_world_holding l d text now :
  record_of l (world_holding l d text now) = persisted d (VStr text) now.
Proof.
  unfold record_of, world_holding, next_answer, heap_get.
  cbn [w_heap w_oracle w_ticks w_calls o_generate o_clock o_str_error].
  rewrite lookup_singleton_eq. reflexivity.
Qed.

(** C10: persist changes the caller's mapping in place: after the call
    it holds the new [request_summary] and the new [metadata], whatever
    it held under these keys before, and nothing else has changed; so
    the entries of the input are all found again, whatever the service
    answers and the clock reads, only for an input without these two
    keys. *)
Theorem save_mutates_in_place (l : loc) (w : world) :
  let d := heap_get (w_heap w) l in
  let w' := snd (save_analytics_request l w) in
  let d' := heap_get (w_heap w') l in
  let now := o_clock (w_oracle w) (S (w_ticks w)) in
  dict_get d' (lit "request_summary")
  = Some (summary_value (next_answer w d))
  /\ dict_get d' (lit "metadata")
     = Some (VDict [(lit "created_at", VStr (isoformat now));
                    (lit "status", VStr (lit "pending_review"))])
  /\ (forall k, In k (keys d) -> In k (keys d'))
  /\ (forall k, k <> lit "request_summary" -> k <> lit "metadata" ->
                dict_get d' k = dict_get d k)
  /\ (forall l', l' <> l -> w_heap w' !! l' = w_heap w !! l')
  /\ ((forall w0,
         heap_get (w_heap w0) l = d ->
         reproduces d
           (heap_get (w_heap (snd (save_analytics_request l w0))) l))
      <-> dict_get d (lit "request_summary") = None
          /\ dict_get d (lit "metadata") = None).
Proof.
  intros d w' d' now. subst d' w'. rewrite heap_after_save.
  split; [apply dict_get_persisted_summary|].
  split; [apply dict_get_persisted_metadata|].
  split.
  { intros k Hk. unfold record_of, persisted.
    apply keys_dict_set_incl, keys_dict_set_incl, Hk. }
  split; [intros k H1 H2; apply dict_get_persisted_other; assumption|].
  split.
  { intros l' Hl.
    destruct (save_analytics_request_state l w) as (_ & _ & _ & _ & _ & ->).
    apply lookup_insert_ne. congruence. }
  split.
  - intros Hall.
    assert (Hheap : forall text t,
              heap_get (w_heap (world_holding l d text t)) l = d).
    { intros text t. unfold heap_get, world_holding. cbn [w_heap].
      rewrite lookup_singleton_eq. reflexivity. }
    pose (t := DateTime 2025 1 1 0 0 0 0).
    split.
    + destruct (dict_get d (lit "request_summary")) as [v|] eqn:E;
        [exfalso|reflexivity].
      pose proof (Hall _ (Hheap [97%N] t) _ _ E) as Ha.
      pose proof (Hall _ (Hheap [98%N] t) _ _ E) as Hb.
      rewrite heap_after_save, record_of_world_holding,
        dict_get_persisted_summary in Ha, Hb.
      congruence.
    + destruct (dict_get d (lit "metadata")) as [v|] eqn:E;
        [exfalso|reflexivity].
      pose proof (Hall _ (Hheap [] t) _ _ E) as Ha.
      pose proof (Hall _ (Hheap [] (DateTime 2025 1 1 0 0 0 1)) _ _ E) as Hb.
      rewrite heap_after_save, record_of_world_holding,
        dict_get_persisted_metadata in Ha, Hb.
      assert (Hab : metadata_of t = metadata_of (DateTime 2025 1 1 0 0 0 1))
        by congruence.
      vm_compute in Hab. discriminate Hab.
  - intros [Hs Hm] w0 Hd k v Hk.
    rewrite heap_after_save. unfold record_of. rewrite Hd.
    rewrite dict_get_persisted_other; [exact Hk| |]; intros ->; congruence.
Qed.

(** The caller's mapping after the call of the example: the metadata
    supplied, a session identifier, is gone. *)
Example save_replaces_metadata :
  w_heap request_world !! 1%positive
  = Some [(lit "basic_info", VDict [(lit "name", VStr [90; 111; 235]%N)]);
          (lit "request_type", VStr (lit "reports"));
          (lit "metadata",
           VDict [(lit "session_id", VStr (lit "session_abc123"))])]
  /\ w_heap (snd (save_analytics_request 1%positive request_world))
       !! 1%positive
     = Some [(lit "basic_info", VDict [(lit "name", VStr [90; 111; 235]%N)]);
             (lit "request_type", VStr (lit "reports"));
             (lit "metadata",
              VDict [(lit "created_at",
                      VStr (lit "2025-07-14T09:30:01.250000"));
                     (lit "status", VStr (lit "pending_review"))]);
             (lit "request_summary", VStr (lit "A summary."))].
Proof. vm_compute. split; reflexivity. Qed.

(** * Further properties *)

(** ** Stripping, continued *)

Lemma blank_app (s t : str) : blank (s ++ t) = blank s && blank t.
Proof. apply forallb_app. Qed.

Lemma blank_rev (s : str) : blank (rev s) = blank s.
Proof.
  induction s as [|c r IH]; [reflexivity|]. cbn [rev].
  rewrite blank_app, IH. cbn [blank forallb]. rewrite andb_true_r.
  apply andb_comm.
Qed.

Lemma lstrip_app (s t : str) :
  lstrip (s ++ t) = if blank s then lstrip t else lstrip s ++ t.
Proof.
  induction s as [|c r IH]; [reflexivity|].
  cbn [app lstrip blank forallb]. destruct (py_isspace c); [exact IH|reflexivity].
Qed.

Lemma rstrip_app_blank (s post : str) :
  blank post = true -> rstrip (s ++ post) = rstrip s.
Proof.
  intros H. unfold rstrip. rewrite rev_app_distr, lstrip_app, blank_rev, H.
  reflexivity.
Qed.

(** Whitespace added around a string is stripped with the rest. *)
Lemma strip_padded (s s' : str) : padded s s' -> strip s' = strip s.
Proof.
  intros (pre & post & -> & Hpre & Hpost). unfold strip.
  rewrite lstrip_app, Hpre, lstrip_app.
  destruct (blank s) eqn:Hs.
  - rewrite (lstrip_blank post Hpost), (lstrip_blank s Hs). reflexivity.
  - apply rstrip_app_blank, Hpost.
Qed.

Lemma lstrip_fixed (s : str) :
  (forall c r, s = c :: r -> py_isspace c = false) -> lstrip s = s.
Proof.
  destruct s as [|c r]; [reflexivity|]. intros H. cbn [lstrip].
  rewrite (H c r eq_refl). reflexivity.
Qed.

Lemma strip_strip (s : str) : strip (strip s) = strip s.
Proof.
  destruct (strip_spec s) as (pre & post & _ & _ & _ & Hhead & Hlast).
  unfold strip at 1. rewrite (lstrip_fixed _ Hhead). unfold rstrip.
  rewrite lstrip_fixed; [apply rev_involutive|].
  intros c r E. apply (f_equal (@rev N)) in E.
  rewrite rev_involutive in E. cbn [rev] in E. eapply Hlast, E.
Qed.

(** On a string the emptiness test adds nothing to the length test. *)
Lemma field_invalid_strip (minimum : nat) (s : str) :
  (1 <= minimum)%nat ->
  field_invalid minimum s = Nat.ltb (length (strip s)) minimum.
Proof.
  intros Hm. unfold field_invalid. destruct (blank s) eqn:Hb; [|reflexivity].
  rewrite (strip_blank s Hb). cbn [orb length]. symmetry.
  apply Nat.ltb_lt. lia.
Qed.

(** ** The validator on arbitrary values *)

Lemma too_short_run (v : value) (minimum : nat) (w : world) :
  (1 <= minimum)%nat ->
  too_short v minimum w
  = if unusable v then (Raises (AttributeError v (lit "strip")), w)
    else (Returns (value_violated minimum v), w).
Proof.
  intros Hm. destruct v as [|b|z|s|l|d];
    try (unfold too_short, unusable, value_violated; cbn [truthy is_str negb andb];
         match goal with
         | |- context [negb ?b] => destruct b; reflexivity
         | _ => reflexivity
         end).
  unfold unusable, value_violated. cbn [is_str negb]. rewrite andb_false_r.
  apply too_short_str, Hm.
Qed.

Lemma usable_kept_is_str (v : value) (minimum : nat) :
  unusable v = false -> value_violated minimum v = false ->
  v = VStr (text_of v).
Proof.
  destruct v; unfold unusable, value_violated; cbn [is_str negb text_of];
    try reflexivity; rewrite andb_true_r; intros -> ; discriminate.
Qed.

Lemma validate_basic_info_run_any (name role department timeline : value)
    (w : world) :
  validate_basic_info name role department timeline w
  = let w1 := set_stdout (w_stdout w ++ [validation_log]) w in
    match List.find unusable [name; role; department; timeline] with
    | Some v => (Raises (AttributeError v (lit "strip")), w1)
    | None =>
        match List.map snd
                (List.filter rule_violated
                   (value_rules name role department timeline)) with
        | [] =>
            (Returns (valid_result (text_of name) (text_of role)
                        (text_of department) (text_of timeline)
                        (o_clock (w_oracle w) (w_ticks w))),
             set_ticks (S (w_ticks w)) w1)
        | errors => (Returns (invalid_result errors), w1)
        end
    end.
Proof.
  unfold validate_basic_info.
  cbv beta iota delta [bind print]. cbn [List.find].
  rewrite too_short_run by lia.
  destruct (unusable name) eqn:Un; [reflexivity|]. cbv beta iota.
  rewrite too_short_run by lia.
  destruct (unusable role) eqn:Ur; [reflexivity|]. cbv beta iota.
  rewrite too_short_run by lia.
  destruct (unusable department) eqn:Ud; [reflexivity|]. cbv beta iota.
  rewrite too_short_run by lia.
  destruct (unusable timeline) eqn:Ut; [reflexivity|]. cbv beta iota.
  unfold value_rules. cbn [List.filter]. unfold rule_violated. cbn [fst snd].
  destruct (value_violated 2 name) eqn:Vn;
    [destruct (value_violated 2 role), (value_violated 2 department),
       (value_violated 3 timeline); reflexivity|].
  destruct (value_violated 2 role) eqn:Vr;
    [destruct (value_violated 2 department), (value_violated 3 timeline);
     reflexivity|].
  destruct (value_violated 2 department) eqn:Vd;
    [destruct (value_violated 3 timeline); reflexivity|].
  destruct (value_violated 3 timeline) eqn:Vt; [reflexivity|].
  rewrite (usable_kept_is_str name 2 Un Vn), (usable_kept_is_str role 2 Ur Vr),
    (usable_kept_is_str department 2 Ud Vd),
    (usable_kept_is_str timeline 3 Ut Vt).
  reflexivity.
Qed.

Lemma find_existsb {A} (f : A -> bool) (l : list A) :
  existsb f l = match List.find f l with Some _ => true | None => false end.
Proof.
  induction l as [|a l IH]; [reflexivity|]. cbn [existsb List.find].
  destruct (f a); [reflexivity|exact IH].
Qed.

(** A value that can be tested and is not a string counts as the empty
    string. *)
Lemma value_violated_text_of (v : value) (minimum : nat) :
  (1 <= minimum)%nat -> unusable v = false ->
  value_violated minimum (VStr (text_of v)) = value_violated minimum v.
Proof.
  intros Hm. destruct v; unfold unusable, value_violated;
    cbn [is_str negb text_of]; try reflexivity;
    rewrite andb_true_r; intros ->; rewrite field_invalid_strip by exact Hm;
    cbn [negb]; apply Nat.ltb_lt; cbn; lia.
Qed.

(** The violations depend on the stripped strings only. *)
Lemma violations_strip (name role department timeline
                          name' role' department' timeline' : str) :
  strip name' = strip name -> strip role' = strip role ->
  strip department' = strip department -> strip timeline' = strip timeline ->
  violations name' role' department' timeline'
  = violations name role department timeline.
Proof.
  intros Hn Hr Hd Ht.
  unfold violations, field_rules. cbn [List.filter]. unfold violated.
  cbn [fst snd]. rewrite !field_invalid_strip by lia.
  rewrite Hn, Hr, Hd, Ht.
  destruct (Nat.ltb (length (strip name)) 2),
    (Nat.ltb (length (strip role)) 2),
    (Nat.ltb (length (strip department)) 2),
    (Nat.ltb (length (strip timeline)) 3); reflexivity.
Qed.

Lemma valid_result_strip (name role department timeline
                            name' role' department' timeline' : str) now :
  strip name' = strip name -> strip role' = strip role ->
  strip department' = strip department -> strip timeline' = strip timeline ->
  valid_result name' role' department' timeline' now
  = valid_result name role department timeline now.
Proof. intros Hn Hr Hd Ht. unfold valid_result. congruence. Qed.

Lemma validate_basic_info_strip (name role department timeline
                                   name' role' department' timeline' : str)
    (w : world) :
  strip name' = strip name -> strip role' = strip role ->
  strip department' = strip department -> strip timeline' = strip timeline ->
  validate_basic_info (VStr name') (VStr role') (VStr department')
    (VStr timeline') w
  = validate_basic_info (VStr name) (VStr role) (VStr department)
      (VStr timeline) w.
Proof.
  intros Hn Hr Hd Ht. rewrite !validate_basic_info_run. cbv zeta.
  rewrite (violations_strip _ _ _ _ _ _ _ _ Hn Hr Hd Ht),
    (valid_result_strip _ _ _ _ _ _ _ _ _ Hn Hr Hd Ht).
  reflexivity.
Qed.

(** X1: [validate_basic_info] raises exactly when one of its arguments
    is neither a string nor false ([None], zero, an empty container):
    such a value passes the emptiness test and has no [strip] method.
    The exception is the [AttributeError] of the first such argument, in
    the order name, role, department, timeline, whatever the other
    arguments are. *)
Theorem validate_raises_on_first_unusable
    (name role department timeline : value) (w : world) :
  let arguments := [name; role; department; timeline] in
  let result := fst (validate_basic_info name role department timeline w) in
  ((exists e, result = Raises e) <-> existsb unusable arguments = true)
  /\ (forall v, List.find unusable arguments = Some v ->
        result
        = Raises (Exn (lit "AttributeError")
                      (lit "'" ++ type_name v
                         ++ lit "' object has no attribute 'strip'"))).
Proof.
  intros arguments result. subst result.
  rewrite validate_basic_info_run_any. cbv zeta. fold arguments.
  rewrite find_existsb. destruct (List.find unusable arguments) as [v|].
  - split; [split; eauto|]. intros v' [= <-]. reflexivity.
  - split; [|discriminate]. split; [|discriminate].
    intros [e He]. destruct (List.map _ _); discriminate He.
Qed.

(** X2: an argument that is false without being a string ([None], zero,
    [False], an empty list or mapping) is treated as the empty string:
    the call returns what it returns on the empty string in its
    place. *)
Theorem validate_false_value_as_empty_string
    (name role department timeline : value) (w : world) :
  existsb unusable [name; role; department; timeline] = false ->
  validate_basic_info name role department timeline w
  = validate_basic_info (VStr (text_of name)) (VStr (text_of role))
      (VStr (text_of department)) (VStr (text_of timeline)) w.
Proof.
  cbn [existsb]. rewrite !orb_false_iff. intros (Hn & Hr & Hd & Ht & _).
  rewrite !validate_basic_info_run_any. cbv zeta. cbn [List.find].
  rewrite Hn, Hr, Hd, Ht.
  replace (unusable (VStr (text_of name))) with false
    by (unfold unusable; cbn [is_str negb]; rewrite andb_false_r; reflexivity).
  replace (unusable (VStr (text_of role))) with false
    by (unfold unusable; cbn [is_str negb]; rewrite andb_false_r; reflexivity).
  replace (unusable (VStr (text_of department))) with false
    by (unfold unusable; cbn [is_str negb]; rewrite andb_false_r; reflexivity).
  replace (unusable (VStr (text_of timeline))) with false
    by (unfold unusable; cbn [is_str negb]; rewrite andb_false_r; reflexivity).
  unfold value_rules. cbn [List.filter]. unfold rule_violated. cbn [fst snd].
  rewrite !value_violated_text_of by (lia || assumption).
  cbn [text_of].
  destruct (value_violated 2 name), (value_violated 2 role),
    (value_violated 2 department), (value_violated 3 timeline); reflexivity.
Qed.

Lemma validate_false_value_as_empty_string_witness :
  validate_basic_info VNone (VInt 0) (VList []) (VStr (lit "ASAP")) example_world
  = validate_basic_info (VStr []) (VStr []) (VStr []) (VStr (lit "ASAP"))
      example_world.
Proof.
  exact (validate_false_value_as_empty_string VNone (VInt 0) (VList [])
           (VStr (lit "ASAP")) example_world eq_refl).
Defined.

(** X3: what a call of [validate_basic_info] does besides returning:
    it prints its log line, also when it raises, and reads the clock
    once if it accepts the input and not at all otherwise; it calls no
    service, opens no file, and leaves the caller's mappings and the
    files as they are. *)
Theorem validate_effects
    (name role department timeline : value) (w : world) :
  let result := fst (validate_basic_info name role department timeline w) in
  let w' := snd (validate_basic_info name role department timeline w) in
  w_stdout w' = w_stdout w ++ [lit "[TOOL: Using the Validation tool]"]
  /\ w_ticks w' = (if is_valid_result result then S (w_ticks w) else w_ticks w)
  /\ w_calls w' = w_calls w /\ w_opens w' = w_opens w
  /\ w_heap w' = w_heap w /\ w_fs w' = w_fs w /\ w_oracle w' = w_oracle w.
Proof.
  cbv zeta. rewrite validate_basic_info_run_any. cbv zeta.
  destruct (List.find _ _); [repeat split|].
  destruct (List.map _ _); repeat split.
Qed.

(** X4: whitespace around an argument does not count: with whitespace
    added before and after any of the four strings, the call returns the
    same result, errors or trimmed data, and has the same effects. *)
Theorem validate_ignores_surrounding_whitespace
    (name role department timeline name' role' department' timeline' : str)
    (w : world) :
  padded name name' -> padded role role' ->
  padded department department' -> padded timeline timeline' ->
  validate_basic_info (VStr name') (VStr role') (VStr department')
    (VStr timeline') w
  = validate_basic_info (VStr name) (VStr role) (VStr department)
      (VStr timeline) w.
Proof.
  intros Hn%strip_padded Hr%strip_padded Hd%strip_padded Ht%strip_padded.
  apply validate_basic_info_strip; assumption.
Qed.

Lemma validate_ignores_surrounding_whitespace_witness :
  validate_basic_info (VStr (lit "  Ann ")) (VStr (9 :: lit "Analyst"))%N
    (VStr (lit "Finance" ++ [10]))%N (VStr (lit " next week")) example_world
  = validate_basic_info (VStr (lit "Ann")) (VStr (lit "Analyst"))
      (VStr (lit "Finance")) (VStr (lit "next week")) example_world.
Proof.
  apply (validate_ignores_surrounding_whitespace
           (lit "Ann") (lit "Analyst") (lit "Finance") (lit "next week")).
  - exists (lit "  "), (lit " "). repeat split.
  - exists [9%N], []. repeat split.
  - exists [], [10%N]. repeat split.
  - exists (lit " "), []. repeat split.
Defined.

(** X5: the data of an accepted input are accepted again, unchanged:
    when a call on four strings answers [valid: True], a call on the
    four values of its [data], in any world, answers [valid: True] with
    the same four values. *)
Theorem validate_accepts_its_own_data
    (name role department timeline : str) (w w2 : world) :
  is_valid_result
    (fst (validate_basic_info (VStr name) (VStr role) (VStr department)
            (VStr timeline) w)) = true ->
  exists name' role' department' timeline',
    fst (validate_basic_info (VStr name) (VStr role) (VStr department)
           (VStr timeline) w)
    = Returns
        (VDict [(lit "valid", VBool true);
                (lit "data",
                 VDict [(lit "name", VStr name');
                        (lit "role", VStr role');
                        (lit "department", VStr department');
                        (lit "timeline", VStr timeline');
                        (lit "collected_at",
                         VStr (isoformat (o_clock (w_oracle w) (w_ticks w))))])])
    /\ fst (validate_basic_info (VStr name') (VStr role') (VStr department')
              (VStr timeline') w2)
       = Returns
           (VDict [(lit "valid", VBool true);
                   (lit "data",
                    VDict [(lit "name", VStr name');
                           (lit "role", VStr role');
                           (lit "department", VStr department');
                           (lit "timeline", VStr timeline');
                           (lit "collected_at",
                            VStr (isoformat
                                    (o_clock (w_oracle w2) (w_ticks w2))))])]).
Proof.
  intros Hvalid.
  exists (strip name), (strip role), (strip department), (strip timeline).
  rewrite (validate_basic_info_strip name role department timeline
             (strip name) (strip role) (strip department) (strip timeline) w2)
    by apply strip_strip.
  revert Hvalid. rewrite !validate_basic_info_run. cbv zeta.
  destruct (violations name role department timeline); [|discriminate].
  intros _. split; reflexivity.
Qed.

Lemma validate_accepts_its_own_data_witness :
  exists name' role' department' timeline',
    fst (validate_basic_info (VStr (lit " Ann ")) (VStr (lit "Analyst"))
           (VStr (lit "Finance")) (VStr (lit "next week")) example_world)
    = Returns
        (VDict [(lit "valid", VBool true);
                (lit "data",
                 VDict [(lit "name", VStr name');
                        (lit "role", VStr role');
                        (lit "department", VStr department');
                        (lit "timeline", VStr timeline');
                        (lit "collected_at",
                         VStr (isoformat (DateTime 2025 7 14 9 30 0 250000)))])])
    /\ fst (validate_basic_info (VStr name') (VStr role') (VStr department')
              (VStr timeline') fall_back_world)
       = Returns
           (VDict [(lit "valid", VBool true);
                   (lit "data",
                    VDict [(lit "name", VStr name');
                           (lit "role", VStr role');
                           (lit "department", VStr department');
                           (lit "timeline", VStr timeline');
                           (lit "collected_at",
                            VStr (isoformat
                                    (DateTime 2025 11 2 1 59 59 500000)))])]).
Proof.
  exact (validate_accepts_its_own_data (lit " Ann ") (lit "Analyst")
           (lit "Finance") (lit "next week") example_world fall_back_world
           eq_refl).
Defined.

Lemma isoformat_length (d : datetime) :
  valid_datetime d = true ->
  length (isoformat d) = if (microsecond d =? 0)%N then 19%nat else 26%nat.
Proof.
  intros Hv.
  pose proof (valid_datetime_bounds d Hv)
    as (Hy & Hm & Hd & Hh & Hmi & Hs & Hus).
  pose proof (days_in_month_le (year d) (month d)) as Hdm.
  unfold isoformat. rewrite !length_app.
  rewrite (zfill_length 3)
    by (change (10 ^ N.of_nat 4)%N with 10000%N; lia).
  rewrite !(zfill_length 1)
    by (change (10 ^ N.of_nat 2)%N with 100%N; lia).
  destruct (N.eqb (microsecond d) 0); [reflexivity|].
  rewrite length_app, (zfill_length 5)
    by (change (10 ^ N.of_nat 6)%N with 1000000%N; lia).
  reflexivity.
Qed.

(** X6: the [collected_at] of an accepted input has no fixed width: it
    is the reading of the clock with its six digits of microseconds, 26
    characters, but when the microseconds are zero the fraction is left
    out, which leaves 19 characters. *)
Theorem validate_timestamp_width
    (name role department timeline : str) (w : world) :
  let now := o_clock (w_oracle w) (w_ticks w) in
  let result :=
    fst (validate_basic_info (VStr name) (VStr role) (VStr department)
           (VStr timeline) w) in
  valid_datetime now = true ->
  is_valid_result result = true ->
  exists ts,
    collected_at_of result = Some ts
    /\ ts = isoformat now
    /\ length ts = (if (microsecond now =? 0)%N then 19%nat else 26%nat).
Proof.
  intros now result Hnow. subst result.
  rewrite validate_basic_info_run. cbv zeta.
  destruct (violations name role department timeline); [|discriminate].
  intros _. exists (isoformat now). split; [reflexivity|].
  split; [reflexivity|]. apply isoformat_length, Hnow.
Qed.

Lemma validate_timestamp_width_witness :
  exists ts,
    collected_at_of
      (fst (validate_basic_info (VStr (lit "Ann")) (VStr (lit "Analyst"))
              (VStr (lit "Finance")) (VStr (lit "next week"))
              whole_second_world))
    = Some ts
    /\ ts = isoformat (DateTime 2025 7 14 9 30 0 0)
    /\ length ts = 19%nat.
Proof.
  exact (validate_timestamp_width (lit "Ann") (lit "Analyst") (lit "Finance")
           (lit "next week") whole_second_world eq_refl eq_refl).
Defined.

(** ** Texts that can be encoded *)

Section Encodable.
Local Open Scope N_scope.

Lemma utf8_encode_char_encodable (c : N) :
  match utf8_encode_char c with Some _ => true | None => false end
  = encodable c.
Proof.
  unfold utf8_encode_char, encodable, is_surrogate.
  destruct (N.ltb_spec c 0x80), (N.ltb_spec c 0x800), (N.ltb_spec c 0x10000),
    (N.ltb_spec c 0x110000), (N.leb_spec 0xD800 c), (N.leb_spec c 0xDFFF);
    try reflexivity; lia.
Qed.

Lemma encodes_forallb (s : str) : encodes s = forallb encodable s.
Proof.
  unfold encodes. induction s as [|c r IH]; [reflexivity|].
  cbn [utf8_encode forallb]. rewrite <- utf8_encode_char_encodable, <- IH.
  destruct (utf8_encode_char c), (utf8_encode r); reflexivity.
Qed.

Lemma encodable_below (c : N) : c < 0xD800 -> encodable c = true.
Proof.
  intros H. unfold encodable, is_surrogate.
  destruct (N.ltb_spec c 0x110000), (N.leb_spec 0xD800 c); try reflexivity; lia.
Qed.

Lemma encodable_escape_char (c : N) :
  forallb encodable (escape_char c) = encodable c.
Proof.
  unfold escape_char.
  destruct (N.eqb_spec c 34) as [->|_]; [reflexivity|].
  destruct (N.eqb_spec c 92) as [->|_]; [reflexivity|].
  destruct (N.eqb_spec c 10) as [->|_]; [reflexivity|].
  destruct (N.eqb_spec c 13) as [->|_]; [reflexivity|].
  destruct (N.eqb_spec c 9) as [->|_]; [reflexivity|].
  destruct (N.eqb_spec c 8) as [->|_]; [reflexivity|].
  destruct (N.eqb_spec c 12) as [->|_]; [reflexivity|].
  destruct (N.ltb_spec c 32) as [Hc|_]; [|cbn [forallb]; apply andb_true_r].
  assert (Hhex : forall d, d < 16 -> encodable (hex_digit d) = true).
  { intros d Hd. apply encodable_below. unfold hex_digit.
    destruct (N.ltb_spec d 10); lia. }
  cbn [forallb].
  rewrite (encodable_below c), (Hhex (c / 16)), (Hhex (c mod 16));
    [reflexivity|apply N.mod_upper_bound; lia| |lia].
  apply N.Div0.div_lt_upper_bound. lia.
Qed.

Lemma encodable_flat_map_escape (s : str) :
  forallb encodable (flat_map escape_char s) = forallb encodable s.
Proof.
  induction s as [|c r IH]; [reflexivity|]. cbn [flat_map forallb].
  rewrite forallb_app, encodable_escape_char, IH. reflexivity.
Qed.

Lemma encodable_basestring (s : str) :
  forallb encodable (encode_basestring s) = forallb encodable s.
Proof.
  unfold encode_basestring. cbn [app forallb].
  rewrite forallb_app, encodable_flat_map_escape. cbn [forallb].
  rewrite (encodable_below 34) by lia. cbn [andb]. rewrite !andb_true_r.
  reflexivity.
Qed.

Lemma encodable_digits (s : str) :
  forallb is_digit s = true -> forallb encodable s = true.
Proof.
  rewrite !forallb_forall. intros H c Hc. specialize (H c Hc).
  unfold is_digit in H. apply andb_true_iff in H as [_ H%N.leb_le].
  apply encodable_below. lia.
Qed.

Lemma encodable_int_repr (z : Z) : forallb encodable (int_repr z) = true.
Proof.
  destruct z; cbn [int_repr]; try apply encodable_digits, decimal_digits.
  cbn [lit list_ascii_of_string List.map app forallb].
  rewrite encodable_digits by apply decimal_digits. reflexivity.
Qed.

Lemma encodable_newline_indent (indent level : nat) :
  forallb encodable (newline_indent indent level) = true.
Proof.
  unfold newline_indent. cbn [forallb].
  induction (indent * level)%nat as [|n IH]; [reflexivity|exact IH].
Qed.

(** The text of a value can be encoded exactly when its keys and
    strings can. *)
Lemma encodable_iterencode (indent : nat) (v : value) :
  forall level,
    forallb encodable (iterencode indent level v) = encodable_value v.
Proof.
  induction v as [|b|z|s|l IH|d IH] using value_ind_nested; intros level.
  - reflexivity.
  - destruct b; reflexivity.
  - apply encodable_int_repr.
  - apply encodable_basestring.
  - destruct l as [|x xs]; [reflexivity|].
    rewrite iterencode_list. cbn [forallb encodable_value].
    rewrite !forallb_app, !encodable_newline_indent.
    apply Forall_cons_1 in IH as [Hx Hxs]. rewrite Hx.
    change (encodable 91) with true. change (forallb encodable [93]) with true.
    cbn [andb]. rewrite andb_true_r. f_equal.
    clear Hx. induction xs as [|y ys IHys]; [reflexivity|].
    apply Forall_cons_1 in Hxs as [Hy Hys].
    rewrite enc_items_cons. cbn [forallb]. change (encodable 44) with true.
    rewrite !forallb_app, encodable_newline_indent, Hy, (IHys Hys).
    reflexivity.
  - destruct d as [|[k x] kvs]; [reflexivity|].
    rewrite iterencode_dict. cbn [forallb encodable_value fst snd].
    rewrite !forallb_app, !encodable_newline_indent, encodable_basestring.
    apply Forall_cons_1 in IH as [Hx Hxs]. cbn [snd] in Hx. rewrite Hx.
    change (encodable 123) with true.
    change (forallb encodable [125]) with true.
    change (forallb encodable (lit ": ")) with true.
    cbn [andb]. rewrite andb_true_r, andb_assoc. f_equal.
    clear Hx. induction kvs as [|[k' y] ys IHys]; [reflexivity|].
    apply Forall_cons_1 in Hxs as [Hy Hys]. cbn [snd] in Hy.
    rewrite enc_members_cons. cbn [forallb fst snd].
    change (encodable 44) with true.
    rewrite !forallb_app, encodable_newline_indent, encodable_basestring,
      Hy, (IHys Hys).
    change (forallb encodable (lit ": ")) with true.
    cbn [andb]. rewrite andb_assoc. reflexivity.
Qed.

Lemma encodes_json_dumps (indent : nat) (v : value) :
  encodes (json_dumps indent v) = encodable_value v.
Proof. rewrite encodes_forallb. apply encodable_iterencode. Qed.

End Encodable.


(** What was written parses back to what was dumped. *)
Lemma json_load_encoded (v : value) content :
  wf_value v = true -> utf8_encode (json_dumps 2 v) = Some content ->
  json_load content = Some v.
Proof.
  intros Hwf Henc. unfold json_load. rewrite (utf8_decode_encode _ _ Henc).
  apply json_loads_dumps, Hwf.
Qed.

(** ** Dictionaries, continued *)

Lemma dict_set_set_eq (d : dict) k v v' :
  dict_set (dict_set d k v) k v' = dict_set d k v'.
Proof.
  induction d as [|[k0 v0] d IH]; cbn [dict_set].
  - rewrite decide_True by reflexivity. reflexivity.
  - destruct (decide (k0 = k)) as [->|Hne]; cbn [dict_set].
    + rewrite decide_True by reflexivity. reflexivity.
    + rewrite decide_False by assumption. rewrite IH. reflexivity.
Qed.

(** Setting again a key set before another one keeps both in place. *)
Lemma dict_set_set_back (d : dict) a b x y x' :
  a <> b ->
  dict_set (dict_set (dict_set d a x) b y) a x'
  = dict_set (dict_set d a x') b y.
Proof.
  intros Hab. induction d as [|[k v] d IH]; cbn [dict_set].
  - rewrite decide_False by assumption. cbn [dict_set].
    rewrite decide_True by reflexivity. rewrite decide_False by assumption.
    reflexivity.
  - destruct (decide (k = a)) as [->|Hka]; cbn [dict_set].
    + rewrite !decide_False by assumption. cbn [dict_set].
      rewrite decide_True by reflexivity. reflexivity.
    + destruct (decide (k = b)) as [->|Hkb]; cbn [dict_set].
      * rewrite decide_False by congruence. rewrite dict_set_set_eq.
        reflexivity.
      * rewrite decide_False by assumption. rewrite IH. reflexivity.
Qed.

Lemma persisted_persisted d s1 t1 s2 t2 :
  persisted (persisted d s1 t1) s2 t2 = persisted d s2 t2.
Proof.
  unfold persisted.
  rewrite (dict_set_set_back d (lit "request_summary") (lit "metadata"))
    by discriminate.
  apply dict_set_set_eq.
Qed.

Lemma keys_persisted d summary now :
  keys (persisted d summary now)
  = keys d ++ fresh_keys d [lit "request_summary"; lit "metadata"].
Proof.
  unfold persisted, fresh_keys. rewrite !keys_dict_set. cbn [List.filter].
  destruct (decide (lit "request_summary" ∈ keys d)) as [Hs|Hs].
  - rewrite (bool_decide_eq_true_2 _ Hs). cbn [negb].
    destruct (decide (lit "metadata" ∈ keys d)) as [Hm|Hm].
    + rewrite (bool_decide_eq_true_2 _ Hm). cbn [negb].
      rewrite app_nil_r. reflexivity.
    + rewrite (bool_decide_eq_false_2 _ Hm). reflexivity.
  - rewrite (bool_decide_eq_false_2 _ Hs). cbn [negb].
    destruct (decide (lit "metadata" ∈ keys d)) as [Hm|Hm].
    + rewrite (bool_decide_eq_true_2 _ Hm). cbn [negb].
      rewrite decide_True; [reflexivity|].
      apply elem_of_app. left. exact Hm.
    + rewrite (bool_decide_eq_false_2 _ Hm). cbn [negb].
      rewrite decide_False; [rewrite <- app_assoc; reflexivity|].
      rewrite elem_of_app, list_elem_of_singleton. intros [H|H]; [tauto|].
      discriminate H.
Qed.

(** ** Records that can be encoded *)

Lemma encodable_dict_set (d : dict) k v :
  encodable_value (VDict d) = true -> forallb encodable k = true ->
  encodable_value v = true ->
  encodable_value (VDict (dict_set d k v)) = true.
Proof.
  intros Hd Hk Hv. induction d as [|[k0 v0] d IH];
    cbn [dict_set encodable_value forallb fst snd].
  - rewrite Hk, Hv. reflexivity.
  - cbn [encodable_value forallb fst snd] in Hd, IH.
    apply andb_true_iff in Hd as [H0 Hd].
    destruct (decide (k0 = k)); cbn [forallb fst snd].
    + rewrite Hk, Hv, Hd. reflexivity.
    + rewrite H0, (IH Hd). reflexivity.
Qed.

Lemma encodable_zfill (width : nat) (n : N) :
  forallb encodable (zfill width n) = true.
Proof. apply encodable_digits, zfill_digits. Qed.

Lemma encodable_isoformat (now : datetime) :
  forallb encodable (isoformat now) = true.
Proof.
  unfold isoformat. rewrite !forallb_app, !encodable_zfill.
  destruct (N.eqb _ _); [reflexivity|].
  rewrite forallb_app, encodable_zfill. reflexivity.
Qed.

Lemma encodable_metadata_of (now : datetime) :
  encodable_value (metadata_of now) = true.
Proof.
  unfold metadata_of. cbn [encodable_value forallb fst snd].
  rewrite encodable_isoformat. reflexivity.
Qed.

Lemma encodable_persisted d summary now :
  encodable_value (VDict d) = true -> encodable_value summary = true ->
  encodable_value (VDict (persisted d summary now)) = true.
Proof.
  intros Hd Hs. unfold persisted.
  apply encodable_dict_set; [apply encodable_dict_set| |];
    first [assumption | reflexivity | apply encodable_metadata_of].
Qed.

(** ** File names *)

Lemma request_filename_inj (now1 now2 : datetime) :
  valid_datetime now1 = true -> valid_datetime now2 = true ->
  (1000 <= year now1)%N -> (1000 <= year now2)%N ->
  request_filename now1 = request_filename now2 ->
  same_second now1 now2 = true.
Proof.
  intros H1 H2 Hy1 Hy2 E. unfold request_filename in E.
  apply app_inv_head, app_inv_tail in E.
  pose proof (strptime_strftime now1 H1 Hy1) as P1.
  pose proof (strptime_strftime now2 H2 Hy2) as P2.
  rewrite E in P1. rewrite P1 in P2. injection P2 as Ey Em Ed Eh Emi Es.
  unfold same_second. rewrite Ey, Em, Ed, Eh, Emi, Es, !N.eqb_refl.
  reflexivity.
Qed.

(** ** The persister, continued *)

(** A call creates or changes no file but its own. *)
Lemma save_analytics_request_fs_frame (l : loc) (w : world) (path : str) :
  path <> filename_of w ->
  w_fs (snd (save_analytics_request l w)) !! path = w_fs w !! path.
Proof.
  intros Hpath. rewrite save_analytics_request_run. cbv zeta.
  fold (filename_of w).
  repeat match goal with
         | |- context [match ?x with _ => _ end] => destruct x
         end; cbn [snd w_fs];
    first [reflexivity | apply lookup_insert_ne; congruence].
Qed.

(** X7: whatever its outcome, a call of [save_analytics_request] reads
    the clock twice, calls [open] once and prints its two log lines; it
    calls [prompt_call] once, unless [str] of the caller's mapping
    raises, in which case it calls it not at all; no file other than
    the one named after the first reading of the clock is created or
    changed. *)
Theorem save_footprint (l : loc) (w : world) :
  let d := heap_get (w_heap w) l in
  let w' := snd (save_analytics_request l w) in
  w_ticks w' = S (S (w_ticks w))
  /\ w_calls w'
     = match o_str_error (w_oracle w) (VDict d) with
       | Some _ => w_calls w
       | None => S (w_calls w)
       end
  /\ w_opens w' = S (w_opens w)
  /\ w_stdout w'
     = w_stdout w ++ [lit "[TOOL: Using the save and summarization tool]";
                      lit "summarizing the request"]
  /\ w_oracle w' = w_oracle w
  /\ (forall path, path <> filename_of w -> w_fs w' !! path = w_fs w !! path).
Proof.
  cbv zeta.
  destruct (save_analytics_request_state l w) as (Ho & Ht & Hc & Hop & Hout & _).
  repeat (split; [assumption|]).
  intros path Hpath. apply save_analytics_request_fs_frame, Hpath.
Qed.

(** X8: when the file cannot be opened, the call returns the error
    result with the cause and leaves the files as they are; but the
    summarization step has run, with its call of the service unless
    [str] of the mapping raised, and the caller's mapping already
    carries its result (the text, [None] for a reply without text, or
    the error mapping) and the metadata of the failed call. *)
Theorem save_open_failure (l : loc) (w : world) (e : exn) :
  let o := w_oracle w in
  let d := heap_get (w_heap w) l in
  let result := save_analytics_request l w in
  let summary :=
    match o_str_error o (VDict d) with
    | Some e' => summary_failure e'
    | None =>
        match o_generate o (w_calls w) default_model
                (summary_prompt (o_repr o (VDict d))) with
        | Returns (Some text) => VStr text
        | Returns None => VNone
        | Raises e' => summary_failure e'
        end
    end in
  o_open_error o (w_opens w) (filename_of w) = Some e ->
  fst result
  = Returns (VDict [(lit "status", VStr (lit "error"));
                    (lit "message",
                     VStr (lit "Failed to save request: " ++ exn_str e))])
  /\ w_fs (snd result) = w_fs w
  /\ w_calls (snd result)
     = match o_str_error o (VDict d) with
       | Some _ => w_calls w
       | None => S (w_calls w)
       end
  /\ dict_get (heap_get (w_heap (snd result)) l) (lit "request_summary")
     = Some summary
  /\ dict_get (heap_get (w_heap (snd result)) l) (lit "metadata")
     = Some (metadata_of (o_clock o (S (w_ticks w)))).
Proof.
  intros o d result summary Hopen. subst result. rewrite heap_after_save.
  split; [|split; [|split; [|split]]].
  - rewrite save_analytics_request_run. cbv zeta.
    fold (filename_of w). fold o. rewrite Hopen. reflexivity.
  - rewrite save_analytics_request_run. cbv zeta.
    fold (filename_of w). fold o. rewrite Hopen. reflexivity.
  - apply save_analytics_request_state.
  - unfold record_of. rewrite dict_get_persisted_summary.
    unfold next_answer. fold o d. subst summary.
    destruct (o_str_error o (VDict d)); reflexivity.
  - apply dict_get_persisted_metadata.
Qed.

Lemma save_open_failure_witness :
  let result := save_analytics_request 1%positive read_only_world in
  fst result
  = Returns (VDict [(lit "status", VStr (lit "error"));
                    (lit "message",
                     VStr (lit "Failed to save request: [Errno 13] Permission denied"))])
  /\ w_fs (snd result) = w_fs read_only_world
  /\ w_calls (snd result) = 1%nat
  /\ dict_get (heap_get (w_heap (snd result)) 1%positive)
       (lit "request_summary")
     = Some (VStr (lit "A summary."))
  /\ dict_get (heap_get (w_heap (snd result)) 1%positive) (lit "metadata")
     = Some (metadata_of (DateTime 2025 7 14 9 30 1 250000)).
Proof.
  exact (save_open_failure 1%positive read_only_world denied eq_refl).
Defined.

(** X9: a call keeps the keys of the caller's mapping in their order and
    appends [request_summary] and then [metadata], each only if the
    mapping did not have it. *)
Theorem save_keeps_key_order (l : loc) (w : world) :
  let d := heap_get (w_heap w) l in
  let d' := heap_get (w_heap (snd (save_analytics_request l w))) l in
  keys d' = keys d ++ fresh_keys d [lit "request_summary"; lit "metadata"].
Proof. cbv zeta. rewrite heap_after_save. apply keys_persisted. Qed.

(** X10: a second call on the same mapping replaces the summary and the
    metadata of the first and adds no key; its summarization step works
    on the mapping as the first call left it, first summary included:
    unless [str] of that mapping raises, the service is asked with the
    prompt made of it. *)
Theorem save_again_on_same_mapping (l : loc) (w : world) :
  let o := w_oracle w in
  let first := save_analytics_request l w in
  let second := save_analytics_request l (snd first) in
  let d := heap_get (w_heap w) l in
  let d1 := heap_get (w_heap (snd first)) l in
  let d2 := heap_get (w_heap (snd second)) l in
  let answer := next_answer (snd first) d1 in
  d2 = persisted d (summary_value answer) (o_clock o (3 + w_ticks w))
  /\ keys d2 = keys d1
  /\ dict_get d1 (lit "request_summary")
     = Some (summary_value (next_answer w d))
  /\ answer
     = match o_str_error o (VDict d1) with
       | Some e => Raises e
       | None =>
           o_generate o (w_calls (snd first)) default_model
             (summary_prompt (o_repr o (VDict d1)))
       end
  /\ w_calls (snd first)
     = match o_str_error o (VDict d) with
       | Some _ => w_calls w
       | None => S (w_calls w)
       end.
Proof.
  cbv zeta. rewrite !heap_after_save.
  destruct (save_analytics_request_state l w) as (Ho & Ht & Hc & _ & _ & _).
  assert (E : record_of l (snd (save_analytics_request l w))
              = persisted (heap_get (w_heap w) l)
                  (summary_value
                     (next_answer (snd (save_analytics_request l w))
                        (record_of l w)))
                  (o_clock (w_oracle w) (3 + w_ticks w))).
  { unfold record_of at 1.
    rewrite heap_after_save, Ho, Ht.
    unfold record_of at 2. apply persisted_persisted. }
  split; [exact E|]. split.
  { rewrite E. unfold record_of. rewrite !keys_persisted. reflexivity. }
  split; [apply dict_get_persisted_summary|].
  split; [unfold next_answer; rewrite Ho; reflexivity|exact Hc].
Qed.

(** X11: a call succeeds whenever nothing stands in its way: [open]
    raises nothing; [json.dump] and the closing of the file raise
    nothing of the encoder's or of the file system's; no key or string
    of the caller's mapping and of the summary contains a surrogate;
    [basic_info] is missing or a mapping; and the two components of the
    short summary can be turned into text.  A failure of the
    summarization step is not in the way. *)
Theorem save_succeeds_on_encodable_input (l : loc) (w : world) :
  let o := w_oracle w in
  let d := heap_get (w_heap w) l in
  o_open_error o (w_opens w) (filename_of w) = None ->
  o_write_error o (File (filename_of w) (w_opens w)) = None ->
  encodable_value (VDict d) = true ->
  encodable_value (summary_value (next_answer w d)) = true ->
  basic_info_usable d = true ->
  component_error o (dict_get d (lit "request_type")) = None ->
  component_error o (requester d) = None ->
  succeeded (fst (save_analytics_request l w)) = true.
Proof.
  intros o d Hopen Hwrite Hd Hs Hb H1 H2.
  rewrite save_analytics_request_succeeded. fold d o. rewrite Hb.
  unfold short_summary_prints. rewrite H1, H2, !andb_true_r.
  unfold write_goes_through. fold o. rewrite Hopen, Hwrite.
  fold (encodes (json_dumps 2 (VDict (record_of l w)))).
  rewrite encodes_json_dumps. apply encodable_persisted; assumption.
Qed.

Lemma save_succeeds_on_encodable_input_witness :
  succeeded (fst (save_analytics_request 1%positive request_world)) = true.
Proof.
  exact (save_succeeds_on_encodable_input 1%positive request_world
           eq_refl eq_refl eq_refl eq_refl eq_refl eq_refl eq_refl).
Defined.

(** X12: a surrogate in a key or in a string of the record, at any
    depth, makes the write fail: with [ensure_ascii=False] the character
    is written as it is, and UTF-8 has no encoding for it.  The call
    returns the error result with the codec's message, and the file,
    already created, is left with what was written before the error. *)
Theorem save_fails_on_a_surrogate (l : loc) (w : world) :
  let o := w_oracle w in
  let f := File (filename_of w) (w_opens w) in
  let text := json_dumps 2 (VDict (record_of l w)) in
  let result := save_analytics_request l w in
  o_open_error o (w_opens w) (filename_of w) = None ->
  o_write_error o f = None ->
  encodable_value (VDict (record_of l w)) = false ->
  fst result
  = Returns (VDict [(lit "status", VStr (lit "error"));
                    (lit "message",
                     VStr (lit "Failed to save request: "
                             ++ exn_str (o_encode_error o text)))])
  /\ w_fs (snd result) !! filename_of w = Some (o_partial o f).
Proof.
  intros o f text result Hopen Hwrite Henc. subst result.
  rewrite <- encodes_json_dumps with (indent := 2%nat) in Henc.
  unfold encodes in Henc. fold text in Henc.
  rewrite save_analytics_request_run. cbv zeta.
  fold (filename_of w) o. rewrite Hopen. fold f. rewrite Hwrite.
  change (persisted _ _ _) with (record_of l w). fold text.
  destruct (utf8_encode text); [discriminate|].
  split; [reflexivity|]. cbn [snd w_fs]. apply lookup_insert_eq.
Qed.

Lemma save_fails_on_a_surrogate_witness :
  let result := save_analytics_request 1%positive surrogate_world in
  fst result
  = Returns (VDict [(lit "status", VStr (lit "error"));
                    (lit "message",
                     VStr (lit "Failed to save request: surrogates not allowed"))])
  /\ w_fs (snd result) !! lit "analytics_request_20250714_093000.json"
     = Some [].
Proof.
  exact (save_fails_on_a_surrogate 1%positive surrogate_world
           eq_refl eq_refl eq_refl).
Defined.

(** X13: two calls whose first readings of the clock fall in different
    seconds use different file names, and the second call leaves the
    file of the first as it is (for readings with a year of four
    digits). *)
Theorem save_in_different_seconds (l1 l2 : loc) (w : world) :
  let first := save_analytics_request l1 w in
  let second := save_analytics_request l2 (snd first) in
  let now1 := o_clock (w_oracle w) (w_ticks w) in
  let now2 := o_clock (w_oracle w) (S (S (w_ticks w))) in
  valid_datetime now1 = true -> valid_datetime now2 = true ->
  (1000 <= year now1)%N -> (1000 <= year now2)%N ->
  same_second now1 now2 = false ->
  request_filename now1 <> request_filename now2
  /\ w_fs (snd second) !! request_filename now1
     = w_fs (snd first) !! request_filename now1
  /\ (succeeded (fst first) = true -> succeeded (fst second) = true ->
      file_path_of (fst first) = Some (request_filename now1)
      /\ file_path_of (fst second) = Some (request_filename now2)).
Proof.
  intros first second now1 now2 H1 H2 Hy1 Hy2 Hdiff.
  assert (Hne : request_filename now1 <> request_filename now2).
  { intros E. rewrite (request_filename_inj now1 now2 H1 H2 Hy1 Hy2 E) in Hdiff.
    discriminate Hdiff. }
  destruct (save_analytics_request_state l1 w) as (Ho & Ht & _).
  assert (Hname : filename_of (snd first) = request_filename now2).
  { subst first. unfold filename_of. rewrite Ho, Ht. reflexivity. }
  split; [exact Hne|]. split.
  - subst second. apply save_analytics_request_fs_frame.
    rewrite Hname. exact Hne.
  - intros Hok1 Hok2. split.
    + eapply file_path_of_success, save_analytics_request_success, Hok1.
    + rewrite <- Hname.
      eapply file_path_of_success, save_analytics_request_success, Hok2.
Qed.

Lemma save_in_different_seconds_witness :
  let first := save_analytics_request 1%positive request_world in
  let second := save_analytics_request 1%positive (snd first) in
  let now1 := DateTime 2025 7 14 9 30 0 250000 in
  let now2 := DateTime 2025 7 14 9 30 2 250000 in
  request_filename now1 <> request_filename now2
  /\ w_fs (snd second) !! request_filename now1
     = w_fs (snd first) !! request_filename now1
  /\ (succeeded (fst first) = true -> succeeded (fst second) = true ->
      file_path_of (fst first) = Some (request_filename now1)
      /\ file_path_of (fst second) = Some (request_filename now2)).
Proof.
  apply (save_in_different_seconds 1%positive 1%positive request_world);
    first [reflexivity | vm_compute; discriminate].
Defined.

(** X14: [summarize_analytics_request] never raises.  When [str] of the
    caller's mapping raises, it returns the error mapping with that
    cause and makes no call.  Otherwise it calls the service once and
    returns the text of the reply as a string, [None] when the reply
    has no text, and the error mapping when the call raises.  It
    changes nothing but the count of the calls made: the caller's
    mapping, the files and the output are as before. *)
Theorem summarize_returns_text_or_failure (l : loc) (w : world) :
  let o := w_oracle w in
  let d := heap_get (w_heap w) l in
  let answer :=
    o_generate o (w_calls w) default_model
      (summary_prompt (o_repr o (VDict d))) in
  let failure (e : exn) :=
    VDict [(lit "status", VStr (lit "error"));
           (lit "message",
            VStr (lit "Failed to generate summary: " ++ exn_str e))] in
  let result := summarize_analytics_request l w in
  (exists v, fst result = Returns v
             /\ v = match o_str_error o (VDict d) with
                    | Some e => failure e
                    | None =>
                        match answer with
                        | Returns (Some text) => VStr text
                        | Returns None => VNone
                        | Raises e => failure e
                        end
                    end
             /\ (is_str v = true
                 <-> o_str_error o (VDict d) = None
                     /\ exists text, answer = Returns (Some text)))
  /\ w_calls (snd result)
     = match o_str_error o (VDict d) with
       | Some _ => w_calls w
       | None => S (w_calls w)
       end
  /\ w_heap (snd result) = w_heap w /\ w_fs (snd result) = w_fs w
  /\ w_stdout (snd result) = w_stdout w /\ w_ticks (snd result) = w_ticks w
  /\ w_opens (snd result) = w_opens w.
Proof.
  cbv zeta. rewrite summarize_analytics_request_run.
  unfold next_answer, calls_after.
  split; [|repeat split].
  eexists. split; [reflexivity|].
  destruct (o_str_error _ _) as [e|]; cbn [summary_value].
  { split; [reflexivity|].
    split; [discriminate|intros [H _]; discriminate H]. }
  destruct (o_generate _ _ _ _) as [[text|]|e]; cbn [summary_value].
  - split; [reflexivity|]. split; [intros _; split; eauto|reflexivity].
  - split; [reflexivity|].
    split; [discriminate|intros [_ [t Ht]]; discriminate Ht].
  - split; [reflexivity|].
    split; [discriminate|intros [_ [t Ht]]; discriminate Ht].
Qed.

(** X15: a [basic_info] that is there and is not a mapping (a string,
    [None], a list) makes the call answer with the error result although
    the request has been saved: the record is written first, and the
    short summary, which asks [basic_info] for its name, is built
    afterwards.  The cause reported is the missing [get], unless
    [request_type], which comes first, cannot be turned into text.  The
    file is there and parses back to the record. *)
Theorem save_reports_failure_after_writing (l : loc) (w : world) (v : value) :
  let d := heap_get (w_heap w) l in
  let result := save_analytics_request l w in
  let cause :=
    match component_error (w_oracle w) (dict_get d (lit "request_type")) with
    | Some e => exn_str e
    | None => lit "'" ++ type_name v ++ lit "' object has no attribute 'get'"
    end in
  write_goes_through l w = true ->
  wf_value (VDict d) = true ->
  dict_get d (lit "basic_info") = Some v ->
  is_dict v = false ->
  fst result
  = Returns (VDict [(lit "status", VStr (lit "error"));
                    (lit "message",
                     VStr (lit "Failed to save request: " ++ cause))])
  /\ exists content,
       w_fs (snd result) !! filename_of w = Some content
       /\ json_load content = Some (VDict (record_of l w))
       /\ dict_get (record_of l w) (lit "basic_info") = Some v.
Proof.
  intros d result cause Hgo Hwf Hinfo Hv. subst result cause. split.
  - revert Hgo. rewrite save_analytics_request_result. cbv zeta.
    unfold write_goes_through.
    destruct (o_open_error _ _ _); [discriminate|].
    destruct (o_write_error _ _); [discriminate|].
    destruct (utf8_encode _); [|discriminate]. intros _.
    unfold short_summary_result. fold d. rewrite Hinfo.
    destruct (component_error _ _); [reflexivity|].
    destruct v; try reflexivity. discriminate Hv.
  - destruct (save_analytics_request_written l w Hgo) as (content & Ec & Hfs).
    exists content. split; [rewrite Hfs; apply lookup_insert_eq|].
    split.
    + apply json_load_encoded; [|exact Ec].
      apply wf_persisted; [exact Hwf|apply wf_summary_value].
    + unfold record_of. rewrite dict_get_persisted_other by discriminate.
      exact Hinfo.
Qed.

Lemma save_reports_failure_after_writing_witness :
  let result := save_analytics_request 1%positive flat_request_world in
  fst result
  = Returns (VDict [(lit "status", VStr (lit "error"));
                    (lit "message",
                     VStr (lit "Failed to save request: 'str' object has no attribute 'get'"))])
  /\ exists content,
       w_fs (snd result) !! filename_of flat_request_world = Some content
       /\ json_load content
          = Some (VDict (record_of 1%positive flat_request_world))
       /\ dict_get (record_of 1%positive flat_request_world) (lit "basic_info")
          = Some (VStr (lit "Ann")).
Proof.
  exact (save_reports_failure_after_writing 1%positive flat_request_world
           (VStr (lit "Ann")) eq_refl eq_refl eq_refl eq_refl).
Defined.

(** A reply without text: the summarization step returns [None], and
    the file has [null] for the summary. *)
Example save_reply_without_text :
  let result := save_analytics_request 1%positive no_text_world in
  fst (summarize_analytics_request 1%positive no_text_world) = Returns VNone
  /\ succeeded (fst result) = true
  /\ w_fs (snd result) !! lit "analytics_request_20250714_093000.json"
     = Some (file_text "{
  'basic_info': {
    'name': 'Zoë'
  },
  'request_type': 'reports',
  'metadata': {
    'created_at': '2025-07-14T09:30:01.250000',
    'status': 'pending_review'
  },
  'request_summary': null
}").
Proof. vm_compute. repeat split. Qed.

(** A request with an integer of 4301 digits: [str] raises in the
    summarization step, which makes no call and returns the error
    mapping; the encoder raises in [json.dump], and the call returns
    the error result, leaving the file unfinished. *)
Example save_long_integer :
  let result := save_analytics_request 1%positive long_integer_world in
  fst result
  = Returns
      (VDict [(lit "status", VStr (lit "error"));
              (lit "message",
               VStr (lit "Failed to save request: Exceeds the limit (4300 digits) for integer string conversion; use sys.set_int_max_str_digits() to increase the limit"))])
  /\ w_calls (snd result) = 0%nat
  /\ dict_get (heap_get (w_heap (snd result)) 1%positive)
       (lit "request_summary")
     = Some
         (VDict [(lit "status", VStr (lit "error"));
                 (lit "message",
                  VStr (lit "Failed to generate summary: Exceeds the limit (4300 digits) for integer string conversion; use sys.set_int_max_str_digits() to increase the limit"))])
  /\ w_fs (snd result) !! lit "analytics_request_20250714_093000.json"
     = Some (file_text "{
  'rows': ").
Proof. vm_compute. repeat split. Qed.

(** ** The example generator *)















(** ** From validation to persistence *)

Lemma encodable_strip (s : str) :
  forallb encodable s = true -> forallb encodable (strip s) = true.
Proof.
  destruct (strip_spec s) as (pre & post & E & _). intros H.
  rewrite E, !forallb_app in H.
  apply andb_true_iff in H as [_ [H _]%andb_true_iff]. exact H.
Qed.

(** X18: the two tools fit together.  When [validate_basic_info] accepts
    four strings and the caller hands its [data] over as the
    [basic_info] of a request, [save_analytics_request] finds the
    requester under the key the validator wrote: if the file system
    raises no error and no string holds a surrogate, the call succeeds,
    its short summary names the request type and the trimmed name, and
    the file parses back to a record whose [basic_info] is that
    [data]. *)
Theorem validated_request_is_saved
    (name role department timeline request_type : str) (l : loc) (w : world) :
  let validated :=
    validate_basic_info (VStr name) (VStr role) (VStr department)
      (VStr timeline) w in
  let data := data_of (fst validated) in
  let request :=
    [(lit "basic_info", data); (lit "request_type", VStr request_type)] in
  let w2 := hand_over l request (snd validated) in
  let saved := save_analytics_request l w2 in
  is_valid_result (fst validated) = true ->
  writable (w_oracle w) (w_opens w) (filename_of w2) = true ->
  forallb (forallb encodable) [name; role; department; timeline; request_type]
  = true ->
  encodable_value (summary_value (next_answer w2 request)) = true ->
  fst saved
  = Returns
      (VDict [(lit "status", VStr (lit "success"));
              (lit "message",
               VStr (lit "Analytics request saved successfully to "
                       ++ filename_of w2));
              (lit "file_path", VStr (filename_of w2));
              (lit "summary",
               VStr (lit "Request type: " ++ request_type
                       ++ lit ", Requester: " ++ strip name))])
  /\ exists content record,
       w_fs (snd saved) !! filename_of w2 = Some content
       /\ json_load content = Some (VDict record)
       /\ dict_get record (lit "basic_info") = Some data
       /\ dict_get record (lit "request_type") = Some (VStr request_type).
Proof.
  cbv zeta. rewrite validate_basic_info_run. cbv zeta.
  destruct (violations name role department timeline) as [|v vs];
    [|discriminate].
  unfold data_of. cbn [fst snd].
  set (now := o_clock (w_oracle w) (w_ticks w)).
  pose (data := VDict [(lit "name", VStr (strip name));
                       (lit "role", VStr (strip role));
                       (lit "department", VStr (strip department));
                       (lit "timeline", VStr (strip timeline));
                       (lit "collected_at", VStr (isoformat now))]).
  change (default VNone (field _ (lit "data"))) with data.
  set (request := [(lit "basic_info", data);
                   (lit "request_type", VStr request_type)]).
  set (w2 := hand_over l request _).
  intros _ Hw Henc Hsum.
  assert (Hheap : heap_get (w_heap w2) l = request).
  { subst w2. unfold hand_over. cbn [w_heap set_heap]. apply heap_get_insert. }
  cbn [forallb] in Henc. rewrite !andb_true_iff in Henc.
  destruct Henc as (Hn & Hr & Hd & Ht & Hty & _).
  assert (Hreq : encodable_value (VDict request) = true).
  { subst request data. cbn [encodable_value forallb fst snd].
    rewrite !encodable_strip, encodable_isoformat, Hty by assumption.
    reflexivity. }
  assert (Hwf : wf_value (VDict request) = true).
  { subst request data.
    generalize (strip name) (strip role) (strip department) (strip timeline)
      (isoformat now). intros. vm_compute. reflexivity. }
  assert (Hgo : write_goes_through l w2 = true).
  { unfold write_goes_through. unfold writable in Hw.
    change (w_oracle w2) with (w_oracle w).
    change (w_opens w2) with (w_opens w).
    destruct (o_open_error _ _ _); [discriminate|].
    destruct (o_write_error _ _); [discriminate|].
    fold (encodes (json_dumps 2 (VDict (record_of l w2)))).
    rewrite encodes_json_dumps. unfold record_of. rewrite Hheap.
    apply encodable_persisted; assumption. }
  assert (Hok : succeeded (fst (save_analytics_request l w2)) = true).
  { rewrite save_analytics_request_succeeded, Hgo, Hheap. reflexivity. }
  split.
  - rewrite (save_analytics_request_success l w2 Hok), Hheap. reflexivity.
  - destruct (save_analytics_request_written l w2 Hgo) as (content & Ec & Hfs).
    exists content, (record_of l w2).
    split; [rewrite Hfs; apply lookup_insert_eq|].
    split.
    { apply json_load_encoded; [|exact Ec]. unfold record_of. rewrite Hheap.
      apply wf_persisted; [exact Hwf|apply wf_summary_value]. }
    unfold record_of. rewrite Hheap.
    rewrite !dict_get_persisted_other by discriminate. split; reflexivity.
Qed.

Lemma validated_request_is_saved_witness :
  let validated :=
    validate_basic_info (VStr (lit " Ann ")) (VStr (lit "Analyst"))
      (VStr (lit "Finance")) (VStr (lit "next week")) example_world in
  let data := data_of (fst validated) in
  let request :=
    [(lit "basic_info", data); (lit "request_type", VStr (lit "reports"))] in
  let w2 := hand_over 1%positive request (snd validated) in
  let saved := save_analytics_request 1%positive w2 in
  fst saved
  = Returns
      (VDict [(lit "status", VStr (lit "success"));
              (lit "message",
               VStr (lit "Analytics request saved successfully to "
                       ++ filename_of w2));
              (lit "file_path", VStr (filename_of w2));
              (lit "summary",
               VStr (lit "Request type: " ++ lit "reports"
                       ++ lit ", Requester: " ++ strip (lit " Ann ")))])
  /\ exists content record,
       w_fs (snd saved) !! filename_of w2 = Some content
       /\ json_load content = Some (VDict record)
       /\ dict_get record (lit "basic_info") = Some data
       /\ dict_get record (lit "request_type") = Some (VStr (lit "reports")).
Proof.
  exact (validated_request_is_saved (lit " Ann ") (lit "Analyst")
           (lit "Finance") (lit "next week") (lit "reports") 1%positive
           example_world eq_refl eq_refl eq_refl eq_refl).
Defined.
